(** * UniZero world model: key/value context-cache pooling and memoization

    A shallow embedding of the cache substrate of
    [lzero/model/unizero_world_models/world_model.py] and of [hash_state] from
    [lzero/model/unizero_world_models/utils.py], with the properties the
    design document states about it.

    Layout:
    - Python primitives (indexing, slicing, [max], [%]);
    - the XXH64 content hash behind [hash_state];
    - tensors along the sequence axis, [KeysValues];
    - the [WorldModel] state and its cache operations;
    - the properties. *)

From Stdlib Require Import ZArith Lia.
From Stdlib.Strings Require Import Byte Ascii.
From stdpp Require Import gmap strings list fin_maps.

Open Scope Z_scope.

(* ===================================================================== *)
(** ** Python primitives *)
(* ===================================================================== *)

Module Py.

(** [l[i]] on a Python list: a negative index counts from the end, and an
    index outside [-len, len) raises [IndexError] (here [None]). *)
Definition getitem {A} (l : list A) (i : Z) : option A :=
  let n := Z.of_nat (length l) in
  if bool_decide (0 <= i < n) then l !! Z.to_nat i
  else if bool_decide (- n <= i < 0) then l !! Z.to_nat (i + n)
  else None.

(** [l[i] = x] on a Python list, with the same index rule. *)
Definition setitem {A} (l : list A) (i : Z) (x : A) : option (list A) :=
  let n := Z.of_nat (length l) in
  if bool_decide (0 <= i < n) then Some (<[Z.to_nat i := x]> l)
  else if bool_decide (- n <= i < 0) then Some (<[Z.to_nat (i + n) := x]> l)
  else None.

(** A slice bound as Python normalises it: [None] takes the default, a
    negative bound counts from the end, and the result is clamped to
    [0, len]. *)
Definition bound (n : Z) (dflt : Z) (b : option Z) : Z :=
  match b with
  | None => dflt
  | Some i => if bool_decide (i < 0) then Z.max 0 (i + n) else Z.min i n
  end.

(** [l[start:stop]] (step 1). *)
Definition slice {A} (start stop : option Z) (l : list A) : list A :=
  let n := Z.of_nat (length l) in
  let lo := bound n 0 start in
  let hi := bound n n stop in
  take (Z.to_nat (hi - lo)) (drop (Z.to_nat lo) l).

(** [max(l)] on a list of ints; [ValueError] on the empty list. *)
Definition max (l : list Z) : option Z :=
  match l with
  | [] => None
  | x :: l' => Some (foldl Z.max x l')
  end.

(** [a % b] on ints: the sign follows the divisor, [ZeroDivisionError] for
    [b = 0]. *)
Definition mod_ (a b : Z) : option Z :=
  if bool_decide (b = 0) then None else Some (a `mod` b).

(** [[x] * n] and [[f() for _ in range(n)]] with a constant body: a
    non-positive [n] gives the empty list. *)
Definition repeat_ {A} (x : A) (n : Z) : list A := replicate (Z.to_nat n) x.

End Py.

(* ===================================================================== *)
(** ** XXH64, the hash behind [hash_state] *)
(* ===================================================================== *)

(** [hash_state] is [xxhash.xxh64(state).hexdigest()]: the 64-bit xxHash of
    the buffer with seed 0, printed as sixteen lower-case hexadecimal digits.
    Words are unsigned 64-bit integers carried in [Z], every operation
    reduced modulo [2^64]. *)
Module XXH64.

Definition w64 (x : Z) : Z := x `mod` 2 ^ 64.

Definition PRIME64_1 : Z := 0x9E3779B185EBCA87.
Definition PRIME64_2 : Z := 0xC2B2AE3D27D4EB4F.
Definition PRIME64_3 : Z := 0x165667B19E3779F9.
Definition PRIME64_4 : Z := 0x85EBCA77C2B2AE63.
Definition PRIME64_5 : Z := 0x27D4EB2F165667C5.

Definition add64 (a b : Z) : Z := w64 (a + b).
Definition mul64 (a b : Z) : Z := w64 (a * b).
Definition rotl64 (x : Z) (r : Z) : Z :=
  w64 (Z.lor (Z.shiftl x r) (Z.shiftr x (64 - r))).

Definition byte_val (b : byte) : Z := Z.of_N (Byte.to_N b).

(** Little-endian read of the bytes given (8 for a lane, 4 for the tail). *)
Fixpoint read_le (bs : list byte) : Z :=
  match bs with
  | [] => 0
  | b :: bs' => byte_val b + 256 * read_le bs'
  end.

Definition round (acc input : Z) : Z :=
  mul64 (rotl64 (add64 acc (mul64 input PRIME64_2)) 31) PRIME64_1.

Definition merge_round (acc val : Z) : Z :=
  add64 (mul64 (Z.lxor acc (round 0 val)) PRIME64_1) PRIME64_4.

Definition avalanche (h : Z) : Z :=
  let h := Z.lxor h (Z.shiftr h 33) in
  let h := mul64 h PRIME64_2 in
  let h := Z.lxor h (Z.shiftr h 29) in
  let h := mul64 h PRIME64_3 in
  Z.lxor h (Z.shiftr h 32).

(** The four accumulators over the 32-byte stripes; returns them with the
    bytes left over (fewer than 32). [fuel] bounds the number of stripes. *)
Fixpoint stripes (fuel : nat) (v1 v2 v3 v4 : Z) (bs : list byte)
  : Z * Z * Z * Z * list byte :=
  match fuel with
  | O => (v1, v2, v3, v4, bs)
  | S fuel' =>
      if bool_decide (32 <= length bs)%nat then
        stripes fuel'
          (round v1 (read_le (take 8 bs)))
          (round v2 (read_le (take 8 (drop 8 bs))))
          (round v3 (read_le (take 8 (drop 16 bs))))
          (round v4 (read_le (take 8 (drop 24 bs))))
          (drop 32 bs)
      else (v1, v2, v3, v4, bs)
  end.

(** The tail: 8-byte lanes, then one 4-byte lane, then single bytes. *)
Fixpoint tail8 (fuel : nat) (h : Z) (bs : list byte) : Z * list byte :=
  match fuel with
  | O => (h, bs)
  | S fuel' =>
      if bool_decide (8 <= length bs)%nat then
        let k1 := round 0 (read_le (take 8 bs)) in
        tail8 fuel'
          (add64 (mul64 (rotl64 (Z.lxor h k1) 27) PRIME64_1) PRIME64_4)
          (drop 8 bs)
      else (h, bs)
  end.

Definition tail4 (h : Z) (bs : list byte) : Z * list byte :=
  if bool_decide (4 <= length bs)%nat then
    (add64 (mul64 (rotl64 (Z.lxor h (mul64 (read_le (take 4 bs)) PRIME64_1)) 23)
                  PRIME64_2) PRIME64_3,
     drop 4 bs)
  else (h, bs).

Fixpoint tail1 (h : Z) (bs : list byte) : Z :=
  match bs with
  | [] => h
  | b :: bs' =>
      tail1 (mul64 (rotl64 (Z.lxor h (mul64 (byte_val b) PRIME64_5)) 11) PRIME64_1) bs'
  end.

(** [xxh64(data).intdigest()] with seed 0. *)
Definition intdigest (data : list byte) : Z :=
  let len := Z.of_nat (length data) in
  let '(h, rest) :=
    if bool_decide (32 <= length data)%nat then
      let '(v1, v2, v3, v4, rest) :=
        stripes (length data)
          (add64 PRIME64_1 PRIME64_2) PRIME64_2 0 (w64 (0 - PRIME64_1)) data in
      let h := add64 (add64 (rotl64 v1 1) (rotl64 v2 7))
                     (add64 (rotl64 v3 12) (rotl64 v4 18)) in
      (merge_round (merge_round (merge_round (merge_round h v1) v2) v3) v4, rest)
    else (PRIME64_5, data) in
  let h := add64 h len in
  let '(h, rest) := tail8 (length rest) h rest in
  let '(h, rest) := tail4 h rest in
  avalanche (tail1 h rest).

Definition hex_digit (d : Z) : ascii :=
  match d with
  | 0 => "0" | 1 => "1" | 2 => "2" | 3 => "3" | 4 => "4" | 5 => "5" | 6 => "6"
  | 7 => "7" | 8 => "8" | 9 => "9" | 10 => "a" | 11 => "b" | 12 => "c"
  | 13 => "d" | 14 => "e" | _ => "f"
  end%char.

(** The [n] low hexadecimal digits of [x], most significant first. *)
Fixpoint hex (n : nat) (x : Z) : string :=
  match n with
  | O => EmptyString
  | S n' => String.append (hex n' (x / 16)) (String (hex_digit (x `mod` 16)) EmptyString)
  end.

(** [xxh64(data).hexdigest()]. *)
Definition hexdigest (data : list byte) : string := hex 16 (intdigest data).

End XXH64.

(** [hash_state(state)] of utils.py; [state] is the buffer of the flattened
    latent vector. *)
Definition hash_state (state : list byte) : string := XXH64.hexdigest state.

Definition ascii_bytes (s : string) : list byte :=
  map byte_of_ascii (String.list_ascii_of_string s).

Example xxh64_empty : hash_state [] = "ef46db3751d8e999"%string.
Proof. vm_compute. reflexivity. Qed.

Example xxh64_a : hash_state (ascii_bytes "a") = "d24ec4f1a98c6e5b"%string.
Proof. vm_compute. reflexivity. Qed.

Example xxh64_xxhash : hash_state (ascii_bytes "xxhash") = "32dd38952c4bc720"%string.
Proof. vm_compute. reflexivity. Qed.

Example xxh64_63_bytes :
  hash_state (ascii_bytes "Call me Ishmael. Some years ago--never mind how long precisely-")
  = "02a2e85470d6fd96"%string.
Proof. vm_compute. reflexivity. Qed.

(* ===================================================================== *)
(** ** Tensors and [KeysValues] *)
(* ===================================================================== *)

Section WorldModel.

(** A key or value cache is a tensor of shape
    [[n, num_heads, max_tokens, head_dim]]. The code under study slices, pads
    and stacks along the batch and the sequence axes only, so a position's
    feature row (the innermost axis, [head_dim] floats) is kept abstract: [V]
    with its zero row and its elementwise sum and difference. *)
Context {V : Type}.
Variable vzero : V.
Variable vadd vsub : V -> V -> V.

(** [[num_heads][seq]] and [[n][num_heads][seq]] of feature rows. *)
Local Abbreviation Tensor3 := (list (list V)).
Local Abbreviation Tensor4 := (list (list (list V))).

(** The extents of a tensor, rows kept apart so that a ragged value never
    passes for a rectangular one. *)
Definition dims3 (t : Tensor3) : list nat := map length t.
Definition dims4 (t : Tensor4) : list (list nat) := map dims3 t.

(** [t.shape[0..2]] of a cache tensor. *)
Definition shape4 (t : Tensor4) : Z * Z * Z :=
  (Z.of_nat (length t),
   Z.of_nat (length (default [] (head t))),
   Z.of_nat (length (default [] (head (default [] (head t)))))).

(** [torch.zeros(n, num_heads, max_tokens, head_dim)]. *)
Definition zeros4 (n h s : Z) : Tensor4 :=
  Py.repeat_ (Py.repeat_ (Py.repeat_ vzero s) h) n.

(** [t[:, a:b, :]] on a 3-d tensor and [t[:, :, a:b, :]] on a 4-d one. *)
Definition slice_seq3 (a b : option Z) (t : Tensor3) : Tensor3 :=
  map (Py.slice a b) t.
Definition slice_seq4 (a b : option Z) (t : Tensor4) : Tensor4 :=
  map (slice_seq3 a b) t.

(** [F.pad(t, (0, 0, front, back), "constant", 0)]: zero rows before and
    after along the sequence axis. Every call in the code passes
    non-negative amounts. *)
Definition pad_seq3 (front back : Z) (t : Tensor3) : Tensor3 :=
  map (fun r => Py.repeat_ vzero front ++ r ++ Py.repeat_ vzero back) t.
Definition pad_seq4 (front back : Z) (t : Tensor4) : Tensor4 :=
  map (pad_seq3 front back) t.

(** [t.unsqueeze(0)] and [t.squeeze(0)]; squeezing a leading extent other
    than 1 leaves a 4-d tensor where the code goes on with a 3-d one, which
    the elementwise operations that follow reject. *)
Definition unsqueeze0 (t : Tensor3) : Tensor4 := [t].
Definition squeeze0 (t : Tensor4) : option Tensor3 :=
  match t with
  | [x] => Some x
  | _ => None
  end.

(** Elementwise [a + b] and [a - b] on tensors of equal extents; unequal
    extents raise (broadcasting of an extent of 1 is not modelled and is
    reported as a failure as well). *)
Definition add3 (a b : Tensor3) : option Tensor3 :=
  if bool_decide (dims3 a = dims3 b) then Some (zip_with (zip_with vadd) a b)
  else None.
Definition sub4 (a b : Tensor4) : option Tensor4 :=
  if bool_decide (dims4 a = dims4 b)
  then Some (zip_with (zip_with (zip_with vsub)) a b)
  else None.

(** [torch.stack(l, dim=0).squeeze(1)] on a list of [[1, H, S, D]] tensors:
    [stack] wants a non-empty list of tensors of one shape; [squeeze(1)] then
    drops the extent-1 axis of each. *)
Definition stack_squeeze (l : list Tensor4) : option Tensor4 :=
  match l with
  | [] => None
  | t0 :: _ =>
      if forallb (fun t => bool_decide (dims4 t = dims4 t0)) l
      then mapM squeeze0 l
      else None
  end.

(** [view[:, a:b, :] = new] through a view: what an in-place [+=] on the
    slice [t[:, a:b, :]] leaves in [t]. *)
Definition set_slice_seq3 (a b : option Z) (new : Tensor3) (t : Tensor3) : Tensor3 :=
  zip_with (fun r r' =>
              Py.slice None a r ++ r' ++ Py.slice b None r)
           t new.

(** One growable buffer: the tensor and its fill size. *)
Record Cache : Type := mkCache { _cache : Tensor4; _size : Z }.

(** One layer: key buffer and value buffer. *)
Record KVCache : Type := mkKVCache { _k_cache : Cache; _v_cache : Cache }.

(** One context: a layer cache per model layer. *)
Record KeysValues : Type := mkKeysValues { _keys_values : list KVCache }.

(** Modelled from the spec: the constructor of [KeysValues]
    (modeling/kv_caching.py is not among the sources). "Allocate a
    zero-initialized ContextCache": [num_layers] layers, each a key and a
    value buffer of zeros of shape [[n, num_heads, max_tokens, head_dim]] and
    size 0. *)
Definition KeysValues_new (n num_heads max_tokens num_layers : Z) : KeysValues :=
  mkKeysValues
    (Py.repeat_ (mkKVCache (mkCache (zeros4 n num_heads max_tokens) 0)
                           (mkCache (zeros4 n num_heads max_tokens) 0))
                num_layers).

(** Modelled from the spec: [KeysValues.size], the "aggregate current size
    counter", "shared across its layers by invariant"; read off the first
    layer's key buffer. *)
Definition KeysValues_size (kv : KeysValues) : option Z :=
  l ← Py.getitem (_keys_values kv) 0; Some (_size (_k_cache l)).

(** Modelled from the spec: [keys_values[layer]] and [len(keys_values)] of
    [KeysValues] ("for_layer(i)"; "an ordered collection of LayerCache
    instances, one per model layer"). *)
Definition KeysValues_getitem (kv : KeysValues) (layer : Z) : option KVCache :=
  Py.getitem (_keys_values kv) layer.
Definition KeysValues_len (kv : KeysValues) : Z :=
  Z.of_nat (length (_keys_values kv)).

(** [dst._cache.copy_(src._cache)] followed by [dst._size = src._size]. *)
Definition copy_cache (src dst : Cache) : option Cache :=
  if bool_decide (dims4 (_cache src) = dims4 (_cache dst))
  then Some (mkCache (_cache src) (_size src))
  else None.

(** The copy loop of the [custom_copy_kv_cache_to_shared_*] functions:
    [for src_layer, dst_layer in zip(src, dst)]; [zip] stops at the shorter
    list, and what is left of [dst] stays as it was. *)
Fixpoint copy_layers (src dst : list KVCache) : option (list KVCache) :=
  match src, dst with
  | s :: src', d :: dst' =>
      k ← copy_cache (_k_cache s) (_k_cache d);
      v ← copy_cache (_v_cache s) (_v_cache d);
      rest ← copy_layers src' dst';
      Some (mkKVCache k v :: rest)
  | _, _ => Some dst
  end.

(** The destination a store writes into: the slot's cache when it has one,
    else a fresh [KeysValues] of the shape of the source's first key buffer
    and as many layers as the source. *)
Definition store_target (src : KeysValues) (slot : option KeysValues)
  : option KeysValues :=
  l0 ← Py.getitem (_keys_values src) 0;
  let '(n, h, s) := shape4 (_cache (_k_cache l0)) in
  Some (match slot with
        | Some dst => dst
        | None => KeysValues_new n h s (KeysValues_len src)
        end).

(** Allocation and copy shared by the three stores. *)
Definition copy_into_slot (src : KeysValues) (slot : option KeysValues)
  : option KeysValues :=
  dst ← store_target src slot;
  layers ← copy_layers (_keys_values src) (_keys_values dst);
  Some (mkKeysValues layers).

(* ===================================================================== *)
(** ** The world model's cache state *)
(* ===================================================================== *)

(** The configuration entries the cache code reads ([self.config.*] and the
    attributes [_initialize_config_parameters] copies from it).
    [num_observations_tokens] is [tokens_per_block - 1]. *)
Record Config : Type := mkConfig {
  context_length : Z;
  num_layers : Z;
  num_heads : Z;
  env_num : Z;
  num_simulations : Z;
  num_observations_tokens : Z;
  rotary_emb : bool;
  continuous_action_space : bool
}.

(** An entry of [keys_values_wm_list]. A hit appends the object
    [custom_copy_kv_cache_to_shared_wm] returns, which is the slot of
    [shared_pool_wm] it wrote (a later store into that slot shows through
    the entry); a miss appends the context the forward pass has just filled,
    which nothing else holds. *)
Inductive kv_ref : Type :=
  | WmSlot (slot : Z)
  | Fresh (kv : KeysValues).

(** The attributes of [WorldModel] the cache code reads and writes, under
    the names they have in the source. [None] in
    [keys_values_wm_size_list_current], [latent_state] and the
    [pos_emb_diff_*] tables stands for an attribute that was never
    assigned. *)
Record WorldModel : Type := mkWorldModel {
  config : Config;
  reanalyze_phase : bool;
  pos_emb_diff_k : option (list (gmap (Z * Z) Tensor4));
  pos_emb_diff_v : option (list (gmap (Z * Z) Tensor4));
  shared_pool_size : Z;
  shared_pool_recur_infer : list (option KeysValues);
  shared_pool_index : Z;
  shared_pool_size_init : Z;
  shared_pool_init_infer : list (list (option KeysValues));
  shared_pool_index_init_envs : list Z;
  shared_pool_size_wm : Z;
  shared_pool_wm : list (option KeysValues);
  shared_pool_index_wm : Z;
  past_kv_cache_recurrent_infer : gmap string Z;
  past_kv_cache_init_infer_envs : list (gmap string Z);
  keys_values_wm_list : list kv_ref;
  keys_values_wm_size_list : list Z;
  keys_values_wm_size_list_current : option (list Z);
  keys_values_wm_single_env : KeysValues;
  keys_values_wm : KeysValues;
  latent_state : option (list (list byte));
  hit_count : Z;
  total_query_count : Z;
  root_hit_cnt : Z;
  root_total_query_cnt : Z
}.

(** Field updates ([self.f = v]). *)
Definition set_reanalyze_phase (v : bool) (wm : WorldModel) : WorldModel :=
  {| config := config wm;
     reanalyze_phase := v;
     pos_emb_diff_k := pos_emb_diff_k wm;
     pos_emb_diff_v := pos_emb_diff_v wm;
     shared_pool_size := shared_pool_size wm;
     shared_pool_recur_infer := shared_pool_recur_infer wm;
     shared_pool_index := shared_pool_index wm;
     shared_pool_size_init := shared_pool_size_init wm;
     shared_pool_init_infer := shared_pool_init_infer wm;
     shared_pool_index_init_envs := shared_pool_index_init_envs wm;
     shared_pool_size_wm := shared_pool_size_wm wm;
     shared_pool_wm := shared_pool_wm wm;
     shared_pool_index_wm := shared_pool_index_wm wm;
     past_kv_cache_recurrent_infer := past_kv_cache_recurrent_infer wm;
     past_kv_cache_init_infer_envs := past_kv_cache_init_infer_envs wm;
     keys_values_wm_list := keys_values_wm_list wm;
     keys_values_wm_size_list := keys_values_wm_size_list wm;
     keys_values_wm_size_list_current := keys_values_wm_size_list_current wm;
     keys_values_wm_single_env := keys_values_wm_single_env wm;
     keys_values_wm := keys_values_wm wm;
     latent_state := latent_state wm;
     hit_count := hit_count wm;
     total_query_count := total_query_count wm;
     root_hit_cnt := root_hit_cnt wm;
     root_total_query_cnt := root_total_query_cnt wm |}.

Definition set_shared_pool_recur_infer (v : list (option KeysValues)) (wm : WorldModel) : WorldModel :=
  {| config := config wm;
     reanalyze_phase := reanalyze_phase wm;
     pos_emb_diff_k := pos_emb_diff_k wm;
     pos_emb_diff_v := pos_emb_diff_v wm;
     shared_pool_size := shared_pool_size wm;
     shared_pool_recur_infer := v;
     shared_pool_index := shared_pool_index wm;
     shared_pool_size_init := shared_pool_size_init wm;
     shared_pool_init_infer := shared_pool_init_infer wm;
     shared_pool_index_init_envs := shared_pool_index_init_envs wm;
     shared_pool_size_wm := shared_pool_size_wm wm;
     shared_pool_wm := shared_pool_wm wm;
     shared_pool_index_wm := shared_pool_index_wm wm;
     past_kv_cache_recurrent_infer := past_kv_cache_recurrent_infer wm;
     past_kv_cache_init_infer_envs := past_kv_cache_init_infer_envs wm;
     keys_values_wm_list := keys_values_wm_list wm;
     keys_values_wm_size_list := keys_values_wm_size_list wm;
     keys_values_wm_size_list_current := keys_values_wm_size_list_current wm;
     keys_values_wm_single_env := keys_values_wm_single_env wm;
     keys_values_wm := keys_values_wm wm;
     latent_state := latent_state wm;
     hit_count := hit_count wm;
     total_query_count := total_query_count wm;
     root_hit_cnt := root_hit_cnt wm;
     root_total_query_cnt := root_total_query_cnt wm |}.

Definition set_shared_pool_index (v : Z) (wm : WorldModel) : WorldModel :=
  {| config := config wm;
     reanalyze_phase := reanalyze_phase wm;
     pos_emb_diff_k := pos_emb_diff_k wm;
     pos_emb_diff_v := pos_emb_diff_v wm;
     shared_pool_size := shared_pool_size wm;
     shared_pool_recur_infer := shared_pool_recur_infer wm;
     shared_pool_index := v;
     shared_pool_size_init := shared_pool_size_init wm;
     shared_pool_init_infer := shared_pool_init_infer wm;
     shared_pool_index_init_envs := shared_pool_index_init_envs wm;
     shared_pool_size_wm := shared_pool_size_wm wm;
     shared_pool_wm := shared_pool_wm wm;
     shared_pool_index_wm := shared_pool_index_wm wm;
     past_kv_cache_recurrent_infer := past_kv_cache_recurrent_infer wm;
     past_kv_cache_init_infer_envs := past_kv_cache_init_infer_envs wm;
     keys_values_wm_list := keys_values_wm_list wm;
     keys_values_wm_size_list := keys_values_wm_size_list wm;
     keys_values_wm_size_list_current := keys_values_wm_size_list_current wm;
     keys_values_wm_single_env := keys_values_wm_single_env wm;
     keys_values_wm := keys_values_wm wm;
     latent_state := latent_state wm;
     hit_count := hit_count wm;
     total_query_count := total_query_count wm;
     root_hit_cnt := root_hit_cnt wm;
     root_total_query_cnt := root_total_query_cnt wm |}.

Definition set_shared_pool_init_infer (v : list (list (option KeysValues))) (wm : WorldModel) : WorldModel :=
  {| config := config wm;
     reanalyze_phase := reanalyze_phase wm;
     pos_emb_diff_k := pos_emb_diff_k wm;
     pos_emb_diff_v := pos_emb_diff_v wm;
     shared_pool_size := shared_pool_size wm;
     shared_pool_recur_infer := shared_pool_recur_infer wm;
     shared_pool_index := shared_pool_index wm;
     shared_pool_size_init := shared_pool_size_init wm;
     shared_pool_init_infer := v;
     shared_pool_index_init_envs := shared_pool_index_init_envs wm;
     shared_pool_size_wm := shared_pool_size_wm wm;
     shared_pool_wm := shared_pool_wm wm;
     shared_pool_index_wm := shared_pool_index_wm wm;
     past_kv_cache_recurrent_infer := past_kv_cache_recurrent_infer wm;
     past_kv_cache_init_infer_envs := past_kv_cache_init_infer_envs wm;
     keys_values_wm_list := keys_values_wm_list wm;
     keys_values_wm_size_list := keys_values_wm_size_list wm;
     keys_values_wm_size_list_current := keys_values_wm_size_list_current wm;
     keys_values_wm_single_env := keys_values_wm_single_env wm;
     keys_values_wm := keys_values_wm wm;
     latent_state := latent_state wm;
     hit_count := hit_count wm;
     total_query_count := total_query_count wm;
     root_hit_cnt := root_hit_cnt wm;
     root_total_query_cnt := root_total_query_cnt wm |}.

Definition set_shared_pool_index_init_envs (v : list Z) (wm : WorldModel) : WorldModel :=
  {| config := config wm;
     reanalyze_phase := reanalyze_phase wm;
     pos_emb_diff_k := pos_emb_diff_k wm;
     pos_emb_diff_v := pos_emb_diff_v wm;
     shared_pool_size := shared_pool_size wm;
     shared_pool_recur_infer := shared_pool_recur_infer wm;
     shared_pool_index := shared_pool_index wm;
     shared_pool_size_init := shared_pool_size_init wm;
     shared_pool_init_infer := shared_pool_init_infer wm;
     shared_pool_index_init_envs := v;
     shared_pool_size_wm := shared_pool_size_wm wm;
     shared_pool_wm := shared_pool_wm wm;
     shared_pool_index_wm := shared_pool_index_wm wm;
     past_kv_cache_recurrent_infer := past_kv_cache_recurrent_infer wm;
     past_kv_cache_init_infer_envs := past_kv_cache_init_infer_envs wm;
     keys_values_wm_list := keys_values_wm_list wm;
     keys_values_wm_size_list := keys_values_wm_size_list wm;
     keys_values_wm_size_list_current := keys_values_wm_size_list_current wm;
     keys_values_wm_single_env := keys_values_wm_single_env wm;
     keys_values_wm := keys_values_wm wm;
     latent_state := latent_state wm;
     hit_count := hit_count wm;
     total_query_count := total_query_count wm;
     root_hit_cnt := root_hit_cnt wm;
     root_total_query_cnt := root_total_query_cnt wm |}.

Definition set_shared_pool_wm (v : list (option KeysValues)) (wm : WorldModel) : WorldModel :=
  {| config := config wm;
     reanalyze_phase := reanalyze_phase wm;
     pos_emb_diff_k := pos_emb_diff_k wm;
     pos_emb_diff_v := pos_emb_diff_v wm;
     shared_pool_size := shared_pool_size wm;
     shared_pool_recur_infer := shared_pool_recur_infer wm;
     shared_pool_index := shared_pool_index wm;
     shared_pool_size_init := shared_pool_size_init wm;
     shared_pool_init_infer := shared_pool_init_infer wm;
     shared_pool_index_init_envs := shared_pool_index_init_envs wm;
     shared_pool_size_wm := shared_pool_size_wm wm;
     shared_pool_wm := v;
     shared_pool_index_wm := shared_pool_index_wm wm;
     past_kv_cache_recurrent_infer := past_kv_cache_recurrent_infer wm;
     past_kv_cache_init_infer_envs := past_kv_cache_init_infer_envs wm;
     keys_values_wm_list := keys_values_wm_list wm;
     keys_values_wm_size_list := keys_values_wm_size_list wm;
     keys_values_wm_size_list_current := keys_values_wm_size_list_current wm;
     keys_values_wm_single_env := keys_values_wm_single_env wm;
     keys_values_wm := keys_values_wm wm;
     latent_state := latent_state wm;
     hit_count := hit_count wm;
     total_query_count := total_query_count wm;
     root_hit_cnt := root_hit_cnt wm;
     root_total_query_cnt := root_total_query_cnt wm |}.

Definition set_shared_pool_index_wm (v : Z) (wm : WorldModel) : WorldModel :=
  {| config := config wm;
     reanalyze_phase := reanalyze_phase wm;
     pos_emb_diff_k := pos_emb_diff_k wm;
     pos_emb_diff_v := pos_emb_diff_v wm;
     shared_pool_size := shared_pool_size wm;
     shared_pool_recur_infer := shared_pool_recur_infer wm;
     shared_pool_index := shared_pool_index wm;
     shared_pool_size_init := shared_pool_size_init wm;
     shared_pool_init_infer := shared_pool_init_infer wm;
     shared_pool_index_init_envs := shared_pool_index_init_envs wm;
     shared_pool_size_wm := shared_pool_size_wm wm;
     shared_pool_wm := shared_pool_wm wm;
     shared_pool_index_wm := v;
     past_kv_cache_recurrent_infer := past_kv_cache_recurrent_infer wm;
     past_kv_cache_init_infer_envs := past_kv_cache_init_infer_envs wm;
     keys_values_wm_list := keys_values_wm_list wm;
     keys_values_wm_size_list := keys_values_wm_size_list wm;
     keys_values_wm_size_list_current := keys_values_wm_size_list_current wm;
     keys_values_wm_single_env := keys_values_wm_single_env wm;
     keys_values_wm := keys_values_wm wm;
     latent_state := latent_state wm;
     hit_count := hit_count wm;
     total_query_count := total_query_count wm;
     root_hit_cnt := root_hit_cnt wm;
     root_total_query_cnt := root_total_query_cnt wm |}.

Definition set_past_kv_cache_recurrent_infer (v : gmap string Z) (wm : WorldModel) : WorldModel :=
  {| config := config wm;
     reanalyze_phase := reanalyze_phase wm;
     pos_emb_diff_k := pos_emb_diff_k wm;
     pos_emb_diff_v := pos_emb_diff_v wm;
     shared_pool_size := shared_pool_size wm;
     shared_pool_recur_infer := shared_pool_recur_infer wm;
     shared_pool_index := shared_pool_index wm;
     shared_pool_size_init := shared_pool_size_init wm;
     shared_pool_init_infer := shared_pool_init_infer wm;
     shared_pool_index_init_envs := shared_pool_index_init_envs wm;
     shared_pool_size_wm := shared_pool_size_wm wm;
     shared_pool_wm := shared_pool_wm wm;
     shared_pool_index_wm := shared_pool_index_wm wm;
     past_kv_cache_recurrent_infer := v;
     past_kv_cache_init_infer_envs := past_kv_cache_init_infer_envs wm;
     keys_values_wm_list := keys_values_wm_list wm;
     keys_values_wm_size_list := keys_values_wm_size_list wm;
     keys_values_wm_size_list_current := keys_values_wm_size_list_current wm;
     keys_values_wm_single_env := keys_values_wm_single_env wm;
     keys_values_wm := keys_values_wm wm;
     latent_state := latent_state wm;
     hit_count := hit_count wm;
     total_query_count := total_query_count wm;
     root_hit_cnt := root_hit_cnt wm;
     root_total_query_cnt := root_total_query_cnt wm |}.

Definition set_past_kv_cache_init_infer_envs (v : list (gmap string Z)) (wm : WorldModel) : WorldModel :=
  {| config := config wm;
     reanalyze_phase := reanalyze_phase wm;
     pos_emb_diff_k := pos_emb_diff_k wm;
     pos_emb_diff_v := pos_emb_diff_v wm;
     shared_pool_size := shared_pool_size wm;
     shared_pool_recur_infer := shared_pool_recur_infer wm;
     shared_pool_index := shared_pool_index wm;
     shared_pool_size_init := shared_pool_size_init wm;
     shared_pool_init_infer := shared_pool_init_infer wm;
     shared_pool_index_init_envs := shared_pool_index_init_envs wm;
     shared_pool_size_wm := shared_pool_size_wm wm;
     shared_pool_wm := shared_pool_wm wm;
     shared_pool_index_wm := shared_pool_index_wm wm;
     past_kv_cache_recurrent_infer := past_kv_cache_recurrent_infer wm;
     past_kv_cache_init_infer_envs := v;
     keys_values_wm_list := keys_values_wm_list wm;
     keys_values_wm_size_list := keys_values_wm_size_list wm;
     keys_values_wm_size_list_current := keys_values_wm_size_list_current wm;
     keys_values_wm_single_env := keys_values_wm_single_env wm;
     keys_values_wm := keys_values_wm wm;
     latent_state := latent_state wm;
     hit_count := hit_count wm;
     total_query_count := total_query_count wm;
     root_hit_cnt := root_hit_cnt wm;
     root_total_query_cnt := root_total_query_cnt wm |}.

Definition set_keys_values_wm_list (v : list kv_ref) (wm : WorldModel) : WorldModel :=
  {| config := config wm;
     reanalyze_phase := reanalyze_phase wm;
     pos_emb_diff_k := pos_emb_diff_k wm;
     pos_emb_diff_v := pos_emb_diff_v wm;
     shared_pool_size := shared_pool_size wm;
     shared_pool_recur_infer := shared_pool_recur_infer wm;
     shared_pool_index := shared_pool_index wm;
     shared_pool_size_init := shared_pool_size_init wm;
     shared_pool_init_infer := shared_pool_init_infer wm;
     shared_pool_index_init_envs := shared_pool_index_init_envs wm;
     shared_pool_size_wm := shared_pool_size_wm wm;
     shared_pool_wm := shared_pool_wm wm;
     shared_pool_index_wm := shared_pool_index_wm wm;
     past_kv_cache_recurrent_infer := past_kv_cache_recurrent_infer wm;
     past_kv_cache_init_infer_envs := past_kv_cache_init_infer_envs wm;
     keys_values_wm_list := v;
     keys_values_wm_size_list := keys_values_wm_size_list wm;
     keys_values_wm_size_list_current := keys_values_wm_size_list_current wm;
     keys_values_wm_single_env := keys_values_wm_single_env wm;
     keys_values_wm := keys_values_wm wm;
     latent_state := latent_state wm;
     hit_count := hit_count wm;
     total_query_count := total_query_count wm;
     root_hit_cnt := root_hit_cnt wm;
     root_total_query_cnt := root_total_query_cnt wm |}.

Definition set_keys_values_wm_size_list (v : list Z) (wm : WorldModel) : WorldModel :=
  {| config := config wm;
     reanalyze_phase := reanalyze_phase wm;
     pos_emb_diff_k := pos_emb_diff_k wm;
     pos_emb_diff_v := pos_emb_diff_v wm;
     shared_pool_size := shared_pool_size wm;
     shared_pool_recur_infer := shared_pool_recur_infer wm;
     shared_pool_index := shared_pool_index wm;
     shared_pool_size_init := shared_pool_size_init wm;
     shared_pool_init_infer := shared_pool_init_infer wm;
     shared_pool_index_init_envs := shared_pool_index_init_envs wm;
     shared_pool_size_wm := shared_pool_size_wm wm;
     shared_pool_wm := shared_pool_wm wm;
     shared_pool_index_wm := shared_pool_index_wm wm;
     past_kv_cache_recurrent_infer := past_kv_cache_recurrent_infer wm;
     past_kv_cache_init_infer_envs := past_kv_cache_init_infer_envs wm;
     keys_values_wm_list := keys_values_wm_list wm;
     keys_values_wm_size_list := v;
     keys_values_wm_size_list_current := keys_values_wm_size_list_current wm;
     keys_values_wm_single_env := keys_values_wm_single_env wm;
     keys_values_wm := keys_values_wm wm;
     latent_state := latent_state wm;
     hit_count := hit_count wm;
     total_query_count := total_query_count wm;
     root_hit_cnt := root_hit_cnt wm;
     root_total_query_cnt := root_total_query_cnt wm |}.

Definition set_keys_values_wm_size_list_current (v : option (list Z)) (wm : WorldModel) : WorldModel :=
  {| config := config wm;
     reanalyze_phase := reanalyze_phase wm;
     pos_emb_diff_k := pos_emb_diff_k wm;
     pos_emb_diff_v := pos_emb_diff_v wm;
     shared_pool_size := shared_pool_size wm;
     shared_pool_recur_infer := shared_pool_recur_infer wm;
     shared_pool_index := shared_pool_index wm;
     shared_pool_size_init := shared_pool_size_init wm;
     shared_pool_init_infer := shared_pool_init_infer wm;
     shared_pool_index_init_envs := shared_pool_index_init_envs wm;
     shared_pool_size_wm := shared_pool_size_wm wm;
     shared_pool_wm := shared_pool_wm wm;
     shared_pool_index_wm := shared_pool_index_wm wm;
     past_kv_cache_recurrent_infer := past_kv_cache_recurrent_infer wm;
     past_kv_cache_init_infer_envs := past_kv_cache_init_infer_envs wm;
     keys_values_wm_list := keys_values_wm_list wm;
     keys_values_wm_size_list := keys_values_wm_size_list wm;
     keys_values_wm_size_list_current := v;
     keys_values_wm_single_env := keys_values_wm_single_env wm;
     keys_values_wm := keys_values_wm wm;
     latent_state := latent_state wm;
     hit_count := hit_count wm;
     total_query_count := total_query_count wm;
     root_hit_cnt := root_hit_cnt wm;
     root_total_query_cnt := root_total_query_cnt wm |}.

Definition set_keys_values_wm_single_env (v : KeysValues) (wm : WorldModel) : WorldModel :=
  {| config := config wm;
     reanalyze_phase := reanalyze_phase wm;
     pos_emb_diff_k := pos_emb_diff_k wm;
     pos_emb_diff_v := pos_emb_diff_v wm;
     shared_pool_size := shared_pool_size wm;
     shared_pool_recur_infer := shared_pool_recur_infer wm;
     shared_pool_index := shared_pool_index wm;
     shared_pool_size_init := shared_pool_size_init wm;
     shared_pool_init_infer := shared_pool_init_infer wm;
     shared_pool_index_init_envs := shared_pool_index_init_envs wm;
     shared_pool_size_wm := shared_pool_size_wm wm;
     shared_pool_wm := shared_pool_wm wm;
     shared_pool_index_wm := shared_pool_index_wm wm;
     past_kv_cache_recurrent_infer := past_kv_cache_recurrent_infer wm;
     past_kv_cache_init_infer_envs := past_kv_cache_init_infer_envs wm;
     keys_values_wm_list := keys_values_wm_list wm;
     keys_values_wm_size_list := keys_values_wm_size_list wm;
     keys_values_wm_size_list_current := keys_values_wm_size_list_current wm;
     keys_values_wm_single_env := v;
     keys_values_wm := keys_values_wm wm;
     latent_state := latent_state wm;
     hit_count := hit_count wm;
     total_query_count := total_query_count wm;
     root_hit_cnt := root_hit_cnt wm;
     root_total_query_cnt := root_total_query_cnt wm |}.

Definition set_keys_values_wm (v : KeysValues) (wm : WorldModel) : WorldModel :=
  {| config := config wm;
     reanalyze_phase := reanalyze_phase wm;
     pos_emb_diff_k := pos_emb_diff_k wm;
     pos_emb_diff_v := pos_emb_diff_v wm;
     shared_pool_size := shared_pool_size wm;
     shared_pool_recur_infer := shared_pool_recur_infer wm;
     shared_pool_index := shared_pool_index wm;
     shared_pool_size_init := shared_pool_size_init wm;
     shared_pool_init_infer := shared_pool_init_infer wm;
     shared_pool_index_init_envs := shared_pool_index_init_envs wm;
     shared_pool_size_wm := shared_pool_size_wm wm;
     shared_pool_wm := shared_pool_wm wm;
     shared_pool_index_wm := shared_pool_index_wm wm;
     past_kv_cache_recurrent_infer := past_kv_cache_recurrent_infer wm;
     past_kv_cache_init_infer_envs := past_kv_cache_init_infer_envs wm;
     keys_values_wm_list := keys_values_wm_list wm;
     keys_values_wm_size_list := keys_values_wm_size_list wm;
     keys_values_wm_size_list_current := keys_values_wm_size_list_current wm;
     keys_values_wm_single_env := keys_values_wm_single_env wm;
     keys_values_wm := v;
     latent_state := latent_state wm;
     hit_count := hit_count wm;
     total_query_count := total_query_count wm;
     root_hit_cnt := root_hit_cnt wm;
     root_total_query_cnt := root_total_query_cnt wm |}.

Definition set_latent_state (v : option (list (list byte))) (wm : WorldModel) : WorldModel :=
  {| config := config wm;
     reanalyze_phase := reanalyze_phase wm;
     pos_emb_diff_k := pos_emb_diff_k wm;
     pos_emb_diff_v := pos_emb_diff_v wm;
     shared_pool_size := shared_pool_size wm;
     shared_pool_recur_infer := shared_pool_recur_infer wm;
     shared_pool_index := shared_pool_index wm;
     shared_pool_size_init := shared_pool_size_init wm;
     shared_pool_init_infer := shared_pool_init_infer wm;
     shared_pool_index_init_envs := shared_pool_index_init_envs wm;
     shared_pool_size_wm := shared_pool_size_wm wm;
     shared_pool_wm := shared_pool_wm wm;
     shared_pool_index_wm := shared_pool_index_wm wm;
     past_kv_cache_recurrent_infer := past_kv_cache_recurrent_infer wm;
     past_kv_cache_init_infer_envs := past_kv_cache_init_infer_envs wm;
     keys_values_wm_list := keys_values_wm_list wm;
     keys_values_wm_size_list := keys_values_wm_size_list wm;
     keys_values_wm_size_list_current := keys_values_wm_size_list_current wm;
     keys_values_wm_single_env := keys_values_wm_single_env wm;
     keys_values_wm := keys_values_wm wm;
     latent_state := v;
     hit_count := hit_count wm;
     total_query_count := total_query_count wm;
     root_hit_cnt := root_hit_cnt wm;
     root_total_query_cnt := root_total_query_cnt wm |}.

Definition set_hit_count (v : Z) (wm : WorldModel) : WorldModel :=
  {| config := config wm;
     reanalyze_phase := reanalyze_phase wm;
     pos_emb_diff_k := pos_emb_diff_k wm;
     pos_emb_diff_v := pos_emb_diff_v wm;
     shared_pool_size := shared_pool_size wm;
     shared_pool_recur_infer := shared_pool_recur_infer wm;
     shared_pool_index := shared_pool_index wm;
     shared_pool_size_init := shared_pool_size_init wm;
     shared_pool_init_infer := shared_pool_init_infer wm;
     shared_pool_index_init_envs := shared_pool_index_init_envs wm;
     shared_pool_size_wm := shared_pool_size_wm wm;
     shared_pool_wm := shared_pool_wm wm;
     shared_pool_index_wm := shared_pool_index_wm wm;
     past_kv_cache_recurrent_infer := past_kv_cache_recurrent_infer wm;
     past_kv_cache_init_infer_envs := past_kv_cache_init_infer_envs wm;
     keys_values_wm_list := keys_values_wm_list wm;
     keys_values_wm_size_list := keys_values_wm_size_list wm;
     keys_values_wm_size_list_current := keys_values_wm_size_list_current wm;
     keys_values_wm_single_env := keys_values_wm_single_env wm;
     keys_values_wm := keys_values_wm wm;
     latent_state := latent_state wm;
     hit_count := v;
     total_query_count := total_query_count wm;
     root_hit_cnt := root_hit_cnt wm;
     root_total_query_cnt := root_total_query_cnt wm |}.

Definition set_total_query_count (v : Z) (wm : WorldModel) : WorldModel :=
  {| config := config wm;
     reanalyze_phase := reanalyze_phase wm;
     pos_emb_diff_k := pos_emb_diff_k wm;
     pos_emb_diff_v := pos_emb_diff_v wm;
     shared_pool_size := shared_pool_size wm;
     shared_pool_recur_infer := shared_pool_recur_infer wm;
     shared_pool_index := shared_pool_index wm;
     shared_pool_size_init := shared_pool_size_init wm;
     shared_pool_init_infer := shared_pool_init_infer wm;
     shared_pool_index_init_envs := shared_pool_index_init_envs wm;
     shared_pool_size_wm := shared_pool_size_wm wm;
     shared_pool_wm := shared_pool_wm wm;
     shared_pool_index_wm := shared_pool_index_wm wm;
     past_kv_cache_recurrent_infer := past_kv_cache_recurrent_infer wm;
     past_kv_cache_init_infer_envs := past_kv_cache_init_infer_envs wm;
     keys_values_wm_list := keys_values_wm_list wm;
     keys_values_wm_size_list := keys_values_wm_size_list wm;
     keys_values_wm_size_list_current := keys_values_wm_size_list_current wm;
     keys_values_wm_single_env := keys_values_wm_single_env wm;
     keys_values_wm := keys_values_wm wm;
     latent_state := latent_state wm;
     hit_count := hit_count wm;
     total_query_count := v;
     root_hit_cnt := root_hit_cnt wm;
     root_total_query_cnt := root_total_query_cnt wm |}.

Definition set_root_hit_cnt (v : Z) (wm : WorldModel) : WorldModel :=
  {| config := config wm;
     reanalyze_phase := reanalyze_phase wm;
     pos_emb_diff_k := pos_emb_diff_k wm;
     pos_emb_diff_v := pos_emb_diff_v wm;
     shared_pool_size := shared_pool_size wm;
     shared_pool_recur_infer := shared_pool_recur_infer wm;
     shared_pool_index := shared_pool_index wm;
     shared_pool_size_init := shared_pool_size_init wm;
     shared_pool_init_infer := shared_pool_init_infer wm;
     shared_pool_index_init_envs := shared_pool_index_init_envs wm;
     shared_pool_size_wm := shared_pool_size_wm wm;
     shared_pool_wm := shared_pool_wm wm;
     shared_pool_index_wm := shared_pool_index_wm wm;
     past_kv_cache_recurrent_infer := past_kv_cache_recurrent_infer wm;
     past_kv_cache_init_infer_envs := past_kv_cache_init_infer_envs wm;
     keys_values_wm_list := keys_values_wm_list wm;
     keys_values_wm_size_list := keys_values_wm_size_list wm;
     keys_values_wm_size_list_current := keys_values_wm_size_list_current wm;
     keys_values_wm_single_env := keys_values_wm_single_env wm;
     keys_values_wm := keys_values_wm wm;
     latent_state := latent_state wm;
     hit_count := hit_count wm;
     total_query_count := total_query_count wm;
     root_hit_cnt := v;
     root_total_query_cnt := root_total_query_cnt wm |}.

Definition set_root_total_query_cnt (v : Z) (wm : WorldModel) : WorldModel :=
  {| config := config wm;
     reanalyze_phase := reanalyze_phase wm;
     pos_emb_diff_k := pos_emb_diff_k wm;
     pos_emb_diff_v := pos_emb_diff_v wm;
     shared_pool_size := shared_pool_size wm;
     shared_pool_recur_infer := shared_pool_recur_infer wm;
     shared_pool_index := shared_pool_index wm;
     shared_pool_size_init := shared_pool_size_init wm;
     shared_pool_init_infer := shared_pool_init_infer wm;
     shared_pool_index_init_envs := shared_pool_index_init_envs wm;
     shared_pool_size_wm := shared_pool_size_wm wm;
     shared_pool_wm := shared_pool_wm wm;
     shared_pool_index_wm := shared_pool_index_wm wm;
     past_kv_cache_recurrent_infer := past_kv_cache_recurrent_infer wm;
     past_kv_cache_init_infer_envs := past_kv_cache_init_infer_envs wm;
     keys_values_wm_list := keys_values_wm_list wm;
     keys_values_wm_size_list := keys_values_wm_size_list wm;
     keys_values_wm_size_list_current := keys_values_wm_size_list_current wm;
     keys_values_wm_single_env := keys_values_wm_single_env wm;
     keys_values_wm := keys_values_wm wm;
     latent_state := latent_state wm;
     hit_count := hit_count wm;
     total_query_count := total_query_count wm;
     root_hit_cnt := root_hit_cnt wm;
     root_total_query_cnt := v |}.

(* ===================================================================== *)
(** ** Collaborators at the boundary *)
(* ===================================================================== *)

(** A latent state as the hash sees it: the buffer of the flattened vector. *)
Definition Latent : Type := list byte.

(** An action of [batch_action]: an int (with [-1] for "no previous action")
    or, in a continuous action space, an array (its buffer). *)
Inductive Action : Type :=
  | ActScalar (a : Z)
  | ActArray (a : list byte).

(** The [start_pos] argument: the default scalar, a per-environment
    sequence, or the two-dimensional array of the reanalyze phase (with the
    second extent of its shape). *)
Inductive StartPos : Type :=
  | PosScalar (p : Z)
  | PosList (l : list Z)
  | PosArray (num_cols : Z) (rows : list (list Z)).

(** The dictionary [forward] receives. *)
Inductive ForwardInput : Type :=
  | ObsEmbeddings (e : list Latent)
  | ActTokens (a : list Action)
  | ObsEmbeddingsAndActTokens (e : list Latent) (a : list Action).

(** The remaining arguments of [forward] the cache code sets. *)
Record ForwardArgs : Type := mkForwardArgs {
  is_init_infer : bool;
  start_pos : StartPos;
  search_depth : list Z
}.

(** The tokenizer and the sequence model are outside this development.
    [forward wm input kv args] is the forward pass on the context [kv]: it
    returns the observation logits per batch item (what the caller turns
    into the next latent state) and the context as the pass leaves it, or
    fails. It may read the model ([wm]) and changes nothing of it but the
    context it is handed. [forward_no_cache] is the pass with
    [past_keys_values=None]. Nothing is assumed of either. *)
Context {Obs : Type}.
Variable encode_to_obs_embeddings : Obs -> list Latent.
Variable forward :
  WorldModel -> ForwardInput -> KeysValues -> ForwardArgs ->
  option (list Latent * KeysValues).
Variable forward_no_cache :
  WorldModel -> ForwardInput -> ForwardArgs -> option (list Latent).

(** [_get_positional_embedding(layer, attn_type)]: the layer's key
    ([false]) or value ([true]) projection of the positional embedding
    table, of shape [[1, num_heads, max_tokens, head_dim]]. *)
Variable _get_positional_embedding : Z -> bool -> Tensor4.

(** Modelled from the spec: [transformer.generate_empty_keys_values(n,
    max_tokens)], "generate_empty_context(batch_width, max_length)": an
    empty context of the model's layer and head counts. *)
Definition generate_empty_keys_values (cfg : Config) (n max_tokens : Z) : KeysValues :=
  KeysValues_new n (num_heads cfg) max_tokens (num_layers cfg).

(** [range(n)] as a list of ints. *)
Definition range (n : Z) : list Z := map Z.of_nat (seq 0 (Z.to_nat n)).

(** A [for] loop whose body may raise: the state is threaded through the
    items in order and the first failure aborts the loop. *)
Fixpoint for_each {A S : Type} (body : A -> S -> option S) (l : list A) (s : S)
  : option S :=
  match l with
  | [] => Some s
  | x :: l' => s' ← body x s; for_each body l' s'
  end.

(* ===================================================================== *)
(** ** Construction *)
(* ===================================================================== *)

(** One layer's entry of [precompute_pos_emb_diff_kv]: the dictionary with
    the single key [(2, context_length - 1)]. *)
Definition pos_emb_diff_layer (cfg : Config) (pe : Tensor4)
  : option (gmap (Z * Z) Tensor4) :=
  let start := 2 in
  let end_ := context_length cfg - 1 in
  let original_pos_emb := slice_seq4 (Some start) (Some end_) pe in
  let new_pos_emb := slice_seq4 None (Some (end_ - start)) pe in
  d ← sub4 new_pos_emb original_pos_emb;
  Some (<[(start, end_) := d]> ∅).

(** [precompute_pos_emb_diff_kv] for the key ([false]) or the value
    ([true]) tables: nothing is assigned when [context_length <= 2]. *)
Definition precompute_pos_emb_diff_kv (cfg : Config) (attn_type : bool)
  : option (option (list (gmap (Z * Z) Tensor4))) :=
  if bool_decide (context_length cfg <= 2) then Some None
  else
    t ← mapM (fun layer => pos_emb_diff_layer cfg (_get_positional_embedding layer attn_type))
             (range (num_layers cfg));
    Some (Some t).

(** The cache attributes as [WorldModel.__init__] leaves them, given the
    positional tables: the three pools start empty with their cursors at 0. *)
Definition initial_attributes (cfg : Config)
    (diff_k diff_v : option (list (gmap (Z * Z) Tensor4))) : WorldModel :=
  let shared_pool_size := num_simulations cfg * env_num cfg in
  let shared_pool_size_init := 2 in
  let shared_pool_size_wm := env_num cfg in
  {|
    config := cfg;
    reanalyze_phase := false;
    pos_emb_diff_k := diff_k;
    pos_emb_diff_v := diff_v;
    shared_pool_size := shared_pool_size;
    shared_pool_recur_infer := Py.repeat_ None shared_pool_size;
    shared_pool_index := 0;
    shared_pool_size_init := shared_pool_size_init;
    shared_pool_init_infer :=
      Py.repeat_ (Py.repeat_ None shared_pool_size_init) (env_num cfg);
    shared_pool_index_init_envs := Py.repeat_ 0 (env_num cfg);
    shared_pool_size_wm := shared_pool_size_wm;
    shared_pool_wm := Py.repeat_ None shared_pool_size_wm;
    shared_pool_index_wm := 0;
    past_kv_cache_recurrent_infer := ∅;
    past_kv_cache_init_infer_envs := Py.repeat_ ∅ (env_num cfg);
    keys_values_wm_list := [];
    keys_values_wm_size_list := [];
    keys_values_wm_size_list_current := None;
    keys_values_wm_single_env := generate_empty_keys_values cfg 1 (context_length cfg);
    keys_values_wm := generate_empty_keys_values cfg (env_num cfg) (context_length cfg);
    latent_state := None;
    hit_count := 0;
    total_query_count := 0;
    root_hit_cnt := 0;
    root_total_query_cnt := 0
  |}.

(** [WorldModel.__init__]: the positional tables are computed only without
    rotary embeddings. *)
Definition WorldModel_init (cfg : Config) : option WorldModel :=
  diff_k ← (if rotary_emb cfg then Some None else precompute_pos_emb_diff_kv cfg false);
  diff_v ← (if rotary_emb cfg then Some None else precompute_pos_emb_diff_kv cfg true);
  Some (initial_attributes cfg diff_k diff_v).

(* ===================================================================== *)
(** ** The pools *)
(* ===================================================================== *)

(** What a [custom_copy_kv_cache_to_shared_*] call returns: the int [index],
    or the destination object [dst_kv] itself (a slot of [shared_pool_wm]). *)
Inductive StoreResult : Type :=
  | Index (i : Z)
  | Object (r : kv_ref).

(** [custom_copy_kv_cache_to_shared_init_envs(src_kv, env_id)]. *)
Definition custom_copy_kv_cache_to_shared_init_envs
    (src_kv : KeysValues) (env_id : Z) (wm : WorldModel)
  : option (StoreResult * WorldModel) :=
  pool ← Py.getitem (shared_pool_init_infer wm) env_id;
  cursor ← Py.getitem (shared_pool_index_init_envs wm) env_id;
  slot ← Py.getitem pool cursor;
  dst_kv ← copy_into_slot src_kv slot;
  pool' ← Py.setitem pool cursor (Some dst_kv);
  pools' ← Py.setitem (shared_pool_init_infer wm) env_id pool';
  let index := cursor in
  next ← Py.mod_ (cursor + 1) (shared_pool_size_init wm);
  cursors' ← Py.setitem (shared_pool_index_init_envs wm) env_id next;
  Some (Index index,
        set_shared_pool_index_init_envs cursors'
          (set_shared_pool_init_infer pools' wm)).

(** [custom_copy_kv_cache_to_shared_wm(src_kv)]: returns [dst_kv]. *)
Definition custom_copy_kv_cache_to_shared_wm
    (src_kv : KeysValues) (wm : WorldModel)
  : option (StoreResult * WorldModel) :=
  let cursor := shared_pool_index_wm wm in
  slot ← Py.getitem (shared_pool_wm wm) cursor;
  dst_kv ← copy_into_slot src_kv slot;
  pool' ← Py.setitem (shared_pool_wm wm) cursor (Some dst_kv);
  next ← Py.mod_ (cursor + 1) (shared_pool_size_wm wm);
  Some (Object (WmSlot cursor),
        set_shared_pool_index_wm next (set_shared_pool_wm pool' wm)).

(** [custom_copy_kv_cache_to_shared_recur(src_kv)]. *)
Definition custom_copy_kv_cache_to_shared_recur
    (src_kv : KeysValues) (wm : WorldModel)
  : option (StoreResult * WorldModel) :=
  let cursor := shared_pool_index wm in
  slot ← Py.getitem (shared_pool_recur_infer wm) cursor;
  dst_kv ← copy_into_slot src_kv slot;
  pool' ← Py.setitem (shared_pool_recur_infer wm) cursor (Some dst_kv);
  let index := cursor in
  next ← Py.mod_ (cursor + 1) (shared_pool_size wm);
  Some (Index index,
        set_shared_pool_index next (set_shared_pool_recur_infer pool' wm)).

(** The context an entry of [keys_values_wm_list] stands for in [wm]. *)
Definition deref (wm : WorldModel) (r : kv_ref) : option KeysValues :=
  match r with
  | Fresh kv => Some kv
  | WmSlot slot => kv ← Py.getitem (shared_pool_wm wm) slot; kv
  end.

(** The dictionaries hold the int a store returns; the entries of
    [keys_values_wm_list] hold the object one returns. *)
Definition as_index (r : StoreResult) : option Z :=
  match r with Index i => Some i | Object _ => None end.
Definition as_object (r : StoreResult) : option kv_ref :=
  match r with Object o => Some o | Index _ => None end.

(** [enumerate(l)]. *)
Definition enumerate {A} (l : list A) : list (Z * A) :=
  zip (range (Z.of_nat (length l))) l.

(* ===================================================================== *)
(** ** Alignment: trim-and-pad *)
(* ===================================================================== *)

(** The alignment of one buffer: when padding is required, the last
    [pad_size] positions are trimmed and [pad_size] zero positions are put
    in front. *)
Definition front_pad (pad_size : Z) (cache : Tensor4) : Tensor4 :=
  if bool_decide (pad_size > 0)
  then pad_seq4 pad_size 0 (slice_seq4 None (Some (- pad_size)) cache)
  else cache.

(** The body of the inner loop of [trim_and_pad_kv_cache] for the key
    ([false]) or value ([true]) buffer of item [idx]. *)
Definition trim_and_pad_item (wm : WorldModel) (max_size layer : Z) (value : bool)
    (item : Z * kv_ref) : option Tensor4 :=
  let '(idx, r) := item in
  keys_values ← deref wm r;
  l ← KeysValues_getitem keys_values layer;
  let cache := _cache (if value then _v_cache l else _k_cache l) in
  effective_size ← Py.getitem (keys_values_wm_size_list wm) idx;
  let pad_size := max_size - effective_size in
  Some (front_pad pad_size cache).

(** One round of the loop over the layers: the batched buffers of
    [keys_values_wm] are replaced by the stacked items, their sizes by
    [max_size]. *)
Definition trim_and_pad_layer (wm : WorldModel) (max_size layer : Z)
    (kv_wm : KeysValues) : option KeysValues :=
  kv_cache_k_list ← mapM (trim_and_pad_item wm max_size layer false)
                         (enumerate (keys_values_wm_list wm));
  kv_cache_v_list ← mapM (trim_and_pad_item wm max_size layer true)
                         (enumerate (keys_values_wm_list wm));
  k ← stack_squeeze kv_cache_k_list;
  v ← stack_squeeze kv_cache_v_list;
  layers' ← Py.setitem (_keys_values kv_wm) layer
              (mkKVCache (mkCache k max_size) (mkCache v max_size));
  Some (mkKeysValues layers').

(** [trim_and_pad_kv_cache(is_init_infer)]; the flag is not read. Returns
    [self.keys_values_wm_size_list]. *)
Definition trim_and_pad_kv_cache (wm : WorldModel) : option (list Z * WorldModel) :=
  max_size ← Py.max (keys_values_wm_size_list wm);
  kv_wm ← for_each (trim_and_pad_layer wm max_size)
                   (range (num_layers (config wm))) (keys_values_wm wm);
  Some (keys_values_wm_size_list wm, set_keys_values_wm kv_wm wm).

(* ===================================================================== *)
(** ** Alignment: window shrink and cache update *)
(* ===================================================================== *)

(** The positional correction of the retained span
    [[2, context_length - 1)] of one buffer: without rotary embeddings the
    table entry [(2, context_length - 1)] of the layer is added in place;
    with them the span is left as it is. Returns the span as the in-place
    addition leaves it, with [true] when the addition ran. *)
Definition correct_span (wm : WorldModel) (layer : Z) (value : bool)
    (cache_trimmed : Tensor3) : option (Tensor3 * bool) :=
  let context_length := context_length (config wm) in
  if negb (rotary_emb (config wm)) then
    tables ← (if value then pos_emb_diff_v wm else pos_emb_diff_k wm);
    table ← Py.getitem tables layer;
    pos_emb_diff ← table !! (2, context_length - 1);
    d ← squeeze0 pos_emb_diff;
    t ← add3 cache_trimmed d;
    Some (t, true)
  else Some (cache_trimmed, false).

(** The window shrink of one buffer [cache_current] ([[num_heads][seq]]):
    keep [[2, context_length - 1)], correct it, pad 3 zero positions at the
    end. Returns the padded buffer and what the view of [cache_current] is
    left with. *)
Definition shrink (wm : WorldModel) (layer : Z) (value : bool)
    (cache_current : Tensor3) : option (Tensor3 * Tensor3) :=
  let context_length := context_length (config wm) in
  let cache_trimmed :=
    slice_seq3 (Some 2) (Some (context_length - 1)) cache_current in
  '(cache_trimmed, written) ← correct_span wm layer value cache_trimmed;
  let cache_padded := pad_seq3 0 3 cache_trimmed in
  Some (cache_padded,
        if (written : bool)
        then set_slice_seq3 (Some 2) (Some (context_length - 1)) cache_trimmed cache_current
        else cache_current).

(** [kv._keys_values[layer]._k_cache._cache[i] = row] and the same for the
    value buffer: how a write through a view of row [i] shows in the
    batched cache. *)
Definition write_rows (kv : KeysValues) (layer i : Z) (k_row v_row : Tensor3)
  : option KeysValues :=
  l ← Py.getitem (_keys_values kv) layer;
  k ← Py.setitem (_cache (_k_cache l)) i k_row;
  v ← Py.setitem (_cache (_v_cache l)) i v_row;
  layers' ← Py.setitem (_keys_values kv) layer
              (mkKVCache (mkCache k (_size (_k_cache l)))
                         (mkCache v (_size (_v_cache l))));
  Some (mkKeysValues layers').

(** [self.keys_values_wm_single_env._keys_values[layer]] gets new buffers
    and sizes. *)
Definition set_single_env_layer (layer : Z) (k v : Cache) (wm : WorldModel)
  : option WorldModel :=
  layers' ← Py.setitem (_keys_values (keys_values_wm_single_env wm)) layer
              (mkKVCache k v);
  Some (set_keys_values_wm_single_env (mkKeysValues layers') wm).

(** The realignment of a row of the batched cache for an environment that
    is [trim_size] positions shorter than the longest: the [trim_size] front
    zeros are removed and as many zero positions are put at the end. *)
Definition realign (trim_size : Z) (cache_current : Tensor3) : Tensor3 :=
  if bool_decide (trim_size > 0)
  then pad_seq3 0 trim_size (slice_seq3 (Some trim_size) None cache_current)
  else cache_current.

(** Internal node, one layer of environment [i]: the row of the batched
    cache is realigned (front zeros moved to the end), copied into the
    single-environment cache with the environment's own size, and shrunk
    when that size has reached [context_length - 1]. *)
Definition update_layer_internal (i trim_size size_i layer : Z) (wm : WorldModel)
  : option WorldModel :=
  let context_length := context_length (config wm) in
  l ← Py.getitem (_keys_values (keys_values_wm wm)) layer;
  k_cache_current ← Py.getitem (_cache (_k_cache l)) i;
  v_cache_current ← Py.getitem (_cache (_v_cache l)) i;
  let k_cache_padded := realign trim_size k_cache_current in
  let v_cache_padded := realign trim_size v_cache_current in
  wm ← set_single_env_layer layer
         (mkCache (unsqueeze0 k_cache_padded) size_i)
         (mkCache (unsqueeze0 v_cache_padded) size_i) wm;
  if bool_decide (size_i >= context_length - 1) then
    '(k_new, k_view) ← shrink wm layer false k_cache_padded;
    '(v_new, v_view) ← shrink wm layer true v_cache_padded;
    (* without realignment the single-environment buffer is a view of the
       batched one, and the in-place correction shows there *)
    kv_wm ← (if bool_decide (trim_size > 0) then Some (keys_values_wm wm)
             else write_rows (keys_values_wm wm) layer i k_view v_view);
    set_single_env_layer layer
      (mkCache (unsqueeze0 k_new) (context_length - 3))
      (mkCache (unsqueeze0 v_new) (context_length - 3))
      (set_keys_values_wm kv_wm wm)
  else Some wm.

(** Root node, one layer of environment [i]: the row of the batched cache
    is taken as it is while the batched size is below
    [context_length - 1], and shrunk otherwise. *)
Definition update_layer_root (i layer : Z) (wm : WorldModel) : option WorldModel :=
  let context_length := context_length (config wm) in
  l ← Py.getitem (_keys_values (keys_values_wm wm)) layer;
  k_cache_current ← Py.getitem (_cache (_k_cache l)) i;
  v_cache_current ← Py.getitem (_cache (_v_cache l)) i;
  if bool_decide (_size (_k_cache l) < context_length - 1) then
    set_single_env_layer layer
      (mkCache (unsqueeze0 k_cache_current) (_size (_k_cache l)))
      (mkCache (unsqueeze0 v_cache_current) (_size (_v_cache l))) wm
  else
    '(k_new, k_view) ← shrink wm layer false k_cache_current;
    '(v_new, v_view) ← shrink wm layer true v_cache_current;
    kv_wm ← write_rows (keys_values_wm wm) layer i k_view v_view;
    set_single_env_layer layer
      (mkCache (unsqueeze0 k_new) (context_length - 3))
      (mkCache (unsqueeze0 v_new) (context_length - 3))
      (set_keys_values_wm kv_wm wm).

(** The body of the loop of [update_cache_context] for environment [i]. *)
Definition update_cache_context_env (latent_state : list Latent)
    (is_init_infer : bool) (i : Z) (wm : WorldModel) : option WorldModel :=
  state ← Py.getitem latent_state i;
  let cache_key := hash_state state in
  wm ← (if negb is_init_infer then
          sizes ← keys_values_wm_size_list_current wm;
          current_max_context_length ← Py.max sizes;
          size_i ← Py.getitem sizes i;
          let trim_size := current_max_context_length - size_i in
          for_each (update_layer_internal i trim_size size_i)
                   (range (num_layers (config wm))) wm
        else
          for_each (update_layer_root i) (range (num_layers (config wm))) wm);
  if is_init_infer then
    '(r, wm) ← custom_copy_kv_cache_to_shared_init_envs
                 (keys_values_wm_single_env wm) i wm;
    cache_index ← as_index r;
    d ← Py.getitem (past_kv_cache_init_infer_envs wm) i;
    ds ← Py.setitem (past_kv_cache_init_infer_envs wm) i (<[cache_key := cache_index]> d);
    Some (set_past_kv_cache_init_infer_envs ds wm)
  else
    '(r, wm) ← custom_copy_kv_cache_to_shared_recur
                 (keys_values_wm_single_env wm) wm;
    cache_index ← as_index r;
    Some (set_past_kv_cache_recurrent_infer
            (<[cache_key := cache_index]> (past_kv_cache_recurrent_infer wm)) wm).

(** [update_cache_context(latent_state, is_init_infer)]: nothing happens
    when [context_length <= 2]. *)
Definition update_cache_context (latent_state : list Latent) (is_init_infer : bool)
    (wm : WorldModel) : option WorldModel :=
  if bool_decide (context_length (config wm) <= 2) then Some wm
  else for_each (update_cache_context_env latent_state is_init_infer)
                (range (Z.of_nat (length latent_state))) wm.

(* ===================================================================== *)
(** ** Memoized lookup *)
(* ===================================================================== *)

(** [int(start_pos[index].item())]: an element of a per-environment
    sequence, or a row of one element. *)
Definition start_pos_item (sp : StartPos) (index : Z) : option Z :=
  match sp with
  | PosScalar _ => None
  | PosList l => Py.getitem l index
  | PosArray _ rows =>
      row ← Py.getitem rows index;
      match row with [x] => Some x | _ => None end
  end.

(** The absolute start position of a regenerated context in the reanalyze
    phase: [start_pos] is [(batch, num_cols)], every logical row extended by
    one column that reads 0. *)
Definition start_pos_reanalyze (sp : StartPos) (index : Z) : option Z :=
  match sp with
  | PosArray num_cols rows =>
      let total_cols := num_cols + 1 in
      let row_idx := index `div` total_cols in
      let col_idx := index `mod` total_cols in
      if bool_decide (col_idx = num_cols) then Some 0
      else row ← Py.getitem rows row_idx; Py.getitem row col_idx
  | _ => None
  end.

(** The lookup of [retrieve_or_generate_kvcache] for environment [index]:
    the per-environment init-phase index first, then the shared
    recurrent-phase index; [Some None] is a miss. *)
Definition lookup_kvcache (wm : WorldModel) (index : Z) (cache_key : string)
  : option (option KeysValues) :=
  if reanalyze_phase wm then Some None
  else
    d ← Py.getitem (past_kv_cache_init_infer_envs wm) index;
    matched_value ←
      match d !! cache_key with
      | Some cache_index =>
          pool ← Py.getitem (shared_pool_init_infer wm) index;
          Py.getitem pool cache_index
      | None => Some None
      end;
    match matched_value with
    | Some kv => Some (Some kv)
    | None =>
        match past_kv_cache_recurrent_infer wm !! cache_key with
        | Some idx =>
            if bool_decide (0 <= idx < Z.of_nat (length (shared_pool_recur_infer wm)))
            then Py.getitem (shared_pool_recur_infer wm) idx
            else Some None
        | None => Some None
        end
    end.

(** A hit: the matched context is copied into the working pool, and the
    copy and the matched size are appended. *)
Definition append_hit (matched_value : KeysValues) (wm : WorldModel)
  : option WorldModel :=
  '(r, wm) ← custom_copy_kv_cache_to_shared_wm matched_value wm;
  o ← as_object r;
  size ← KeysValues_size matched_value;
  Some (set_keys_values_wm_size_list (keys_values_wm_size_list wm ++ [size])
          (set_keys_values_wm_list (keys_values_wm_list wm ++ [o]) wm)).

(** A miss: a forward pass on the latent state from an empty context; the
    context and the size 1 are appended. *)
Definition append_miss (state_single_env : Latent) (start_pos_adjusted : Z)
    (wm : WorldModel) : option WorldModel :=
  let wm := set_keys_values_wm_single_env
              (generate_empty_keys_values (config wm) 1 (context_length (config wm))) wm in
  '(_, kv) ← forward wm (ObsEmbeddings [state_single_env])
               (keys_values_wm_single_env wm)
               (mkForwardArgs true (PosScalar start_pos_adjusted) []);
  let wm := set_keys_values_wm_single_env kv wm in
  Some (set_keys_values_wm_size_list (keys_values_wm_size_list wm ++ [1])
          (set_keys_values_wm_list
             (keys_values_wm_list wm ++ [Fresh (keys_values_wm_single_env wm)]) wm)).

(** The body of the loop of [retrieve_or_generate_kvcache]. *)
Definition retrieve_or_generate_env (latent_state : list Latent) (sp : StartPos)
    (index : Z) (wm : WorldModel) : option WorldModel :=
  let wm := set_total_query_count (total_query_count wm + 1) wm in
  state_single_env ← Py.getitem latent_state index;
  let cache_key := hash_state state_single_env in
  matched_value ← lookup_kvcache wm index cache_key;
  match matched_value with
  | Some kv => append_hit kv (set_hit_count (hit_count wm + 1) wm)
  | None =>
      start_pos_adjusted ←
        (if reanalyze_phase wm then start_pos_reanalyze sp index
         else start_pos_item sp index);
      append_miss state_single_env start_pos_adjusted wm
  end.

(** [retrieve_or_generate_kvcache(latent_state, ready_env_num,
    simulation_index, start_pos)]; returns
    [self.keys_values_wm_size_list]. *)
Definition retrieve_or_generate_kvcache (latent_state : list Latent)
    (ready_env_num : Z) (sp : StartPos) (wm : WorldModel)
  : option (list Z * WorldModel) :=
  wm ← for_each (retrieve_or_generate_env latent_state sp) (range ready_env_num) wm;
  Some (keys_values_wm_size_list wm, wm).

(* ===================================================================== *)
(** ** Initial and recurrent inference, clearing *)
(* ===================================================================== *)

(** [obs_act_dict]. *)
Record ObsActDict : Type := mkObsActDict {
  obs : Obs;
  action : option (list Action);
  current_obs : option Obs
}.

(** Whether the batch is the first step of an episode: no array among the
    actions in a continuous action space, all actions [-1] otherwise. *)
Definition first_step_flag (cfg : Config) (batch_action : list Action) : option bool :=
  if continuous_action_space cfg then
    a ← Py.getitem batch_action 0;
    Some (match a with ActArray _ => false | ActScalar _ => true end)
  else
    l ← mapM (fun a => match a with ActScalar z => Some z | ActArray _ => None end)
             batch_action;
    m ← Py.max l;
    Some (bool_decide (m = -1)).

(** The body of the loop over the ready environments when an episode
    continues: lookup in the environment's init-phase index only. *)
Definition root_lookup_env (last_obs_embeddings : list Latent) (sp : StartPos)
    (i : Z) (wm : WorldModel) : option WorldModel :=
  state_single_env ← Py.getitem last_obs_embeddings i;
  let cache_key := hash_state state_single_env in
  d ← Py.getitem (past_kv_cache_init_infer_envs wm) i;
  matched_value ←
    match d !! cache_key with
    | Some cache_index =>
        pool ← Py.getitem (shared_pool_init_infer wm) i;
        Py.getitem pool cache_index
    | None => Some None
    end;
  let wm := set_root_total_query_cnt (root_total_query_cnt wm + 1) wm in
  match matched_value with
  | Some kv => append_hit kv (set_root_hit_cnt (root_hit_cnt wm + 1) wm)
  | None =>
      p ← start_pos_item sp i;
      append_miss state_single_env p wm
  end.

(** [start_pos[:ready_env_num]]. *)
Definition start_pos_take (sp : StartPos) (n : Z) : option StartPos :=
  match sp with
  | PosScalar _ => None
  | PosList l => Some (PosList (Py.slice None (Some n) l))
  | PosArray c rows => Some (PosArray c (Py.slice None (Some n) rows))
  end.

(** [wm_forward_for_initial_infererence(last_obs_embeddings, batch_action,
    current_obs_embeddings, start_pos)]; returns the outputs. The tensor
    reshaping of the training branch is part of [forward_no_cache]. *)
Definition wm_forward_for_initial_infererence (last_obs_embeddings : list Latent)
    (batch_action : option (list Action))
    (current_obs_embeddings : option (list Latent)) (sp : StartPos)
    (wm : WorldModel) : option (list Latent * WorldModel) :=
  let cfg := config wm in
  let n := Z.of_nat (length last_obs_embeddings) in
  match current_obs_embeddings, batch_action with
  | Some current, _ =>
      if bool_decide (n <= env_num cfg) then
        acts ← batch_action;
        first ← first_step_flag cfg acts;
        if (first : bool) then
          let wm := set_keys_values_wm
                      (generate_empty_keys_values cfg (Z.of_nat (length current))
                                                  (context_length cfg)) wm in
          '(out, kv) ← forward wm (ObsEmbeddings current) (keys_values_wm wm)
                         (mkForwardArgs true sp []);
          wm ← update_cache_context current true (set_keys_values_wm kv wm);
          Some (out, wm)
        else
          let ready_env_num := Z.of_nat (length current) in
          let wm := set_keys_values_wm_size_list [] (set_keys_values_wm_list [] wm) in
          wm ← for_each (root_lookup_env last_obs_embeddings sp) (range ready_env_num) wm;
          '(sizes, wm) ← trim_and_pad_kv_cache wm;
          let wm := set_keys_values_wm_size_list_current (Some sizes) wm in
          sp ← start_pos_take sp ready_env_num;
          let acts := Py.slice None (Some ready_env_num) acts in
          '(_, kv) ← forward wm (ActTokens acts) (keys_values_wm wm)
                       (mkForwardArgs true sp []);
          let wm := set_keys_values_wm kv wm in
          '(out, kv) ← forward wm (ObsEmbeddings current) (keys_values_wm wm)
                         (mkForwardArgs true sp []);
          wm ← update_cache_context current true (set_keys_values_wm kv wm);
          Some (out, wm)
      else None
  | None, Some acts =>
      out ← forward_no_cache wm (ObsEmbeddingsAndActTokens last_obs_embeddings acts)
              (mkForwardArgs true sp []);
      Some (out, wm)
  | None, None => None
  end.

(** [reset_for_initial_inference(obs_act_dict, start_pos)]. *)
Definition reset_for_initial_inference (obs_act_dict : ObsActDict) (sp : StartPos)
    (wm : WorldModel) : option (list Latent * list Latent * WorldModel) :=
  let obs_embeddings := encode_to_obs_embeddings (obs obs_act_dict) in
  match current_obs obs_act_dict with
  | Some batch_current_obs =>
      let current_obs_embeddings := encode_to_obs_embeddings batch_current_obs in
      let wm := set_latent_state (Some current_obs_embeddings) wm in
      '(out, wm) ← wm_forward_for_initial_infererence obs_embeddings
                     (action obs_act_dict) (Some current_obs_embeddings) sp wm;
      Some (out, current_obs_embeddings, wm)
  | None =>
      let wm := set_latent_state (Some obs_embeddings) wm in
      '(out, wm) ← wm_forward_for_initial_infererence obs_embeddings
                     (action obs_act_dict) None sp wm;
      Some (out, obs_embeddings, wm)
  end.

(** [forward_initial_inference(obs_act_dict, start_pos)]. *)
Definition forward_initial_inference (obs_act_dict : ObsActDict) (sp : StartPos)
    (wm : WorldModel) : option (list Latent * list Latent * WorldModel) :=
  '(outputs_wm, latent_state, wm) ← reset_for_initial_inference obs_act_dict sp wm;
  Some (outputs_wm, latent_state, set_past_kv_cache_recurrent_infer ∅ wm).

(** [torch.cat(latent_state_list, dim=1)]: the tokens of each batch item
    side by side; the list must not be empty and the batch extents must
    agree. *)
Fixpoint cat_dim1 (l : list (list Latent)) : option (list Latent) :=
  match l with
  | [] => None
  | [t] => Some t
  | t :: l' =>
      r ← cat_dim1 l';
      if bool_decide (length t = length r) then Some (zip_with app t r) else None
  end.

(** [forward_recurrent_inference(state_action_history, simulation_index,
    search_depth, start_pos)] on the last pair [(latest_state, action)] of
    the history. The second pass reads the token the first one produced;
    with [num_observations_tokens <= 0] no token is ever collected and the
    closing [torch.cat] of the empty list raises. *)
Definition forward_recurrent_inference (latest_state : list Latent)
    (action_ : list Action) (depth : list Z) (sp : StartPos) (wm : WorldModel)
  : option (list Latent * WorldModel) :=
  let ready_env_num := Z.of_nat (length latest_state) in
  let wm := set_keys_values_wm_size_list [] (set_keys_values_wm_list [] wm) in
  '(sizes, wm) ← retrieve_or_generate_kvcache latest_state ready_env_num sp wm;
  let wm := set_keys_values_wm_size_list sizes wm in
  '(sizes, wm) ← trim_and_pad_kv_cache wm;
  let wm := set_keys_values_wm_size_list_current (Some sizes)
              (set_keys_values_wm_size_list sizes wm) in
  if bool_decide (num_observations_tokens (config wm) <= 0) then None
  else
    (* k = 0: the action token *)
    '(token, kv) ← forward wm (ActTokens action_) (keys_values_wm wm)
                     (mkForwardArgs false sp depth);
    let wm := set_keys_values_wm_size_list_current (Some (map (Z.add 1) sizes))
                (set_keys_values_wm kv wm) in
    (* k = 1: the observation token *)
    '(token', kv) ← forward wm (ObsEmbeddings token) (keys_values_wm wm)
                      (mkForwardArgs false sp depth);
    let wm := set_keys_values_wm_size_list_current
                (Some (map (Z.add 1) (map (Z.add 1) sizes)))
                (set_keys_values_wm kv wm) in
    let latent_state_list :=
      if bool_decide (1 < num_observations_tokens (config wm))
      then [token; token'] else [token] in
    _ ← latent_state wm;
    latent ← cat_dim1 latent_state_list;
    let wm := set_latent_state (Some latent) wm in
    wm ← update_cache_context latent false wm;
    Some (latent, wm).

(** [clear_caches()]. *)
Definition clear_caches (wm : WorldModel) : WorldModel :=
  set_keys_values_wm_list []
    (set_past_kv_cache_recurrent_infer ∅
       (set_past_kv_cache_init_infer_envs
          (map (fun _ => ∅) (past_kv_cache_init_infer_envs wm)) wm)).

(* ===================================================================== *)
(** ** Basic facts: Python lists, loops *)
(* ===================================================================== *)

Lemma getitem_nonneg {A} (l : list A) (i : Z) (x : A) :
  0 <= i -> Py.getitem l i = Some x ->
  l !! Z.to_nat i = Some x /\ i < Z.of_nat (length l).
Proof.
  intros Hi. unfold Py.getitem.
  repeat case_bool_decide; intros Hg; try discriminate; try lia.
  split; [exact Hg | lia].
Qed.

Lemma getitem_lookup {A} (l : list A) (i : nat) :
  Py.getitem l (Z.of_nat i) = l !! i.
Proof.
  unfold Py.getitem. rewrite Nat2Z.id.
  case_bool_decide as H1.
  - reflexivity.
  - case_bool_decide as H2; [lia |].
    symmetry. apply lookup_ge_None. lia.
Qed.

Lemma getitem_range {A} (l : list A) (i : Z) (x : A) :
  Py.getitem l i = Some x ->
  - Z.of_nat (length l) <= i < Z.of_nat (length l).
Proof.
  unfold Py.getitem. repeat case_bool_decide; intros; try discriminate; lia.
Qed.

Lemma setitem_length {A} (l l' : list A) (i : Z) (x : A) :
  Py.setitem l i x = Some l' -> length l' = length l.
Proof.
  unfold Py.setitem. repeat case_bool_decide; intros Hs; simplify_eq;
    by rewrite length_insert.
Qed.

Lemma getitem_setitem_eq {A} (l l' : list A) (i : Z) (x : A) :
  Py.setitem l i x = Some l' -> Py.getitem l' i = Some x.
Proof.
  intros Hs. pose proof (setitem_length _ _ _ _ Hs) as Hlen.
  unfold Py.setitem in Hs. unfold Py.getitem. rewrite Hlen.
  repeat case_bool_decide; simplify_eq;
    apply list_lookup_insert_eq; lia.
Qed.

Lemma setitem_nonneg {A} (l l' : list A) (i : Z) (x : A) :
  0 <= i -> Py.setitem l i x = Some l' -> l' = <[Z.to_nat i := x]> l.
Proof.
  intros Hi. unfold Py.setitem.
  repeat case_bool_decide; intros Hs; simplify_eq; try lia. reflexivity.
Qed.

Lemma setitem_is_Some {A} (l : list A) (i : Z) (x y : A) :
  Py.getitem l i = Some y -> is_Some (Py.setitem l i x).
Proof.
  unfold Py.getitem, Py.setitem.
  repeat case_bool_decide; intros; try discriminate; eauto.
Qed.

Lemma mod_Some (a b r : Z) : Py.mod_ a b = Some r -> b <> 0 /\ r = a `mod` b.
Proof. unfold Py.mod_. case_bool_decide; intros; simplify_eq. done. Qed.

Lemma elem_of_range (n x : Z) : x ∈ range n <-> 0 <= x < n.
Proof.
  unfold range. rewrite list_elem_of_fmap. split.
  - intros (k & -> & Hk). apply elem_of_seq in Hk. lia.
  - intros H. exists (Z.to_nat x). split; [lia |]. apply elem_of_seq. lia.
Qed.

Lemma NoDup_range (n : Z) : NoDup (range n).
Proof.
  unfold range. apply NoDup_fmap_2; [| apply NoDup_seq].
  intros x y. lia.
Qed.

(** An invariant of the body is an invariant of the loop. *)
Lemma for_each_inv_in {A S} (P : S -> Prop) (body : A -> S -> option S) l :
  (forall x s s', x ∈ l -> body x s = Some s' -> P s -> P s') ->
  forall s s', for_each body l s = Some s' -> P s -> P s'.
Proof.
  induction l as [| x l IH]; simpl; intros Hbody s s' H Hs.
  - by simplify_eq.
  - destruct (body x s) as [s1 |] eqn:E; simpl in H; [| done].
    eapply IH; [| exact H |].
    + intros y t t' Hy. apply Hbody. by right.
    + eapply Hbody; [by left | exact E | exact Hs].
Qed.

Lemma for_each_inv {A S} (P : S -> Prop) (body : A -> S -> option S) l :
  (forall x s s', body x s = Some s' -> P s -> P s') ->
  forall s s', for_each body l s = Some s' -> P s -> P s'.
Proof. intros Hbody. apply for_each_inv_in. eauto. Qed.

(** What round [x] establishes and the other rounds keep holds for every
    [x] of the loop at its end. *)
Lemma for_each_post {A S} (Q : A -> S -> Prop) (body : A -> S -> option S) l :
  NoDup l ->
  (forall x s s', x ∈ l -> body x s = Some s' -> Q x s') ->
  (forall x y s s', x ∈ l -> y ∈ l -> x <> y -> body x s = Some s' -> Q y s -> Q y s') ->
  forall s s', for_each body l s = Some s' -> forall x, x ∈ l -> Q x s'.
Proof.
  induction l as [| a l IH]; simpl; intros Hnd Hest Hkeep s s' H x Hx.
  - by apply elem_of_nil in Hx.
  - apply NoDup_cons in Hnd as [Ha Hnd].
    destruct (body a s) as [s1 |] eqn:E; simpl in H; [| done].
    apply elem_of_cons in Hx as [-> | Hx].
    + assert (Q a s1) as Q1 by (eapply Hest; [by left | exact E]).
      eapply (for_each_inv_in (Q a)); [| exact H | exact Q1].
      intros y t t' Hy Hb Ht.
      eapply (Hkeep y a); [by right | by left | | exact Hb | exact Ht].
      intros ->. contradiction.
    + eapply IH; [done | | | exact H | done].
      * intros y t t' Hy. apply Hest. by right.
      * intros y z t t' Hy Hz. apply Hkeep; by right.
Qed.

Lemma WorldModel_init_Some cfg wm0 :
  WorldModel_init cfg = Some wm0 ->
  exists diff_k diff_v,
    Some diff_k
    = (if rotary_emb cfg then Some None else precompute_pos_emb_diff_kv cfg false) /\
    Some diff_v
    = (if rotary_emb cfg then Some None else precompute_pos_emb_diff_kv cfg true) /\
    wm0 = initial_attributes cfg diff_k diff_v.
Proof.
  unfold WorldModel_init. intros H.
  destruct (rotary_emb cfg).
  - simpl in H. simplify_eq. by eexists _, _.
  - destruct (precompute_pos_emb_diff_kv cfg false) as [dk |]; simpl in H; [| done].
    destruct (precompute_pos_emb_diff_kv cfg true) as [dv |]; simpl in H; [| done].
    simplify_eq. by eexists _, _.
Qed.

(* ===================================================================== *)
(** ** The stores, step by step *)
(* ===================================================================== *)

Lemma store_recur_spec src wm r wm' :
  custom_copy_kv_cache_to_shared_recur src wm = Some (r, wm') ->
  exists slot dst pool',
    Py.getitem (shared_pool_recur_infer wm) (shared_pool_index wm) = Some slot /\
    copy_into_slot src slot = Some dst /\
    Py.setitem (shared_pool_recur_infer wm) (shared_pool_index wm) (Some dst) = Some pool' /\
    shared_pool_size wm <> 0 /\
    r = Index (shared_pool_index wm) /\
    wm' = set_shared_pool_index ((shared_pool_index wm + 1) `mod` shared_pool_size wm)
            (set_shared_pool_recur_infer pool' wm).
Proof.
  unfold custom_copy_kv_cache_to_shared_recur. intros H.
  destruct (Py.getitem _ _) as [slot |] eqn:E1; simpl in H; [| done].
  destruct (copy_into_slot src slot) as [dst |] eqn:E2; simpl in H; [| done].
  destruct (Py.setitem _ _ _) as [pool' |] eqn:E3; simpl in H; [| done].
  destruct (Py.mod_ _ _) as [next |] eqn:E4; simpl in H; [| done].
  apply mod_Some in E4 as [Hne ->]. simplify_eq.
  exists slot, dst, pool'. done.
Qed.

Lemma store_wm_spec src wm r wm' :
  custom_copy_kv_cache_to_shared_wm src wm = Some (r, wm') ->
  exists slot dst pool',
    Py.getitem (shared_pool_wm wm) (shared_pool_index_wm wm) = Some slot /\
    copy_into_slot src slot = Some dst /\
    Py.setitem (shared_pool_wm wm) (shared_pool_index_wm wm) (Some dst) = Some pool' /\
    shared_pool_size_wm wm <> 0 /\
    r = Object (WmSlot (shared_pool_index_wm wm)) /\
    wm' = set_shared_pool_index_wm ((shared_pool_index_wm wm + 1) `mod` shared_pool_size_wm wm)
            (set_shared_pool_wm pool' wm).
Proof.
  unfold custom_copy_kv_cache_to_shared_wm. intros H.
  destruct (Py.getitem _ _) as [slot |] eqn:E1; simpl in H; [| done].
  destruct (copy_into_slot src slot) as [dst |] eqn:E2; simpl in H; [| done].
  destruct (Py.setitem _ _ _) as [pool' |] eqn:E3; simpl in H; [| done].
  destruct (Py.mod_ _ _) as [next |] eqn:E4; simpl in H; [| done].
  apply mod_Some in E4 as [Hne ->]. simplify_eq.
  exists slot, dst, pool'. done.
Qed.

Lemma store_init_spec src env_id wm r wm' :
  custom_copy_kv_cache_to_shared_init_envs src env_id wm = Some (r, wm') ->
  exists pool cursor slot dst pool' pools' cursors',
    Py.getitem (shared_pool_init_infer wm) env_id = Some pool /\
    Py.getitem (shared_pool_index_init_envs wm) env_id = Some cursor /\
    Py.getitem pool cursor = Some slot /\
    copy_into_slot src slot = Some dst /\
    Py.setitem pool cursor (Some dst) = Some pool' /\
    Py.setitem (shared_pool_init_infer wm) env_id pool' = Some pools' /\
    shared_pool_size_init wm <> 0 /\
    Py.setitem (shared_pool_index_init_envs wm) env_id
      ((cursor + 1) `mod` shared_pool_size_init wm) = Some cursors' /\
    r = Index cursor /\
    wm' = set_shared_pool_index_init_envs cursors'
            (set_shared_pool_init_infer pools' wm).
Proof.
  unfold custom_copy_kv_cache_to_shared_init_envs. intros H.
  destruct (Py.getitem (shared_pool_init_infer wm) env_id) as [pool |] eqn:E0;
    simpl in H; [| done].
  destruct (Py.getitem (shared_pool_index_init_envs wm) env_id) as [cursor |] eqn:E1;
    simpl in H; [| done].
  destruct (Py.getitem pool cursor) as [slot |] eqn:E2; simpl in H; [| done].
  destruct (copy_into_slot src slot) as [dst |] eqn:E3; simpl in H; [| done].
  destruct (Py.setitem pool cursor _) as [pool' |] eqn:E4; simpl in H; [| done].
  destruct (Py.setitem (shared_pool_init_infer wm) _ _) as [pools' |] eqn:E5;
    simpl in H; [| done].
  destruct (Py.mod_ _ _) as [next |] eqn:E6; simpl in H; [| done].
  destruct (Py.setitem (shared_pool_index_init_envs wm) _ _) as [cursors' |] eqn:E7;
    simpl in H; [| done].
  apply mod_Some in E6 as [Hne ->]. simplify_eq.
  exists pool, cursor, slot, dst, pool', pools', cursors'. done.
Qed.

Lemma copy_cache_eq (s d c : Cache) : copy_cache s d = Some c -> c = s.
Proof.
  unfold copy_cache. case_bool_decide; intros; simplify_eq. by destruct s.
Qed.

(** The copy loop leaves in the destination the source's layers, as far as
    the destination has layers. *)
Lemma copy_layers_lookup src : forall dst out,
  copy_layers src dst = Some out ->
  length out = length dst /\
  forall (j : nat) l, src !! j = Some l -> (j < length dst)%nat -> out !! j = Some l.
Proof.
  induction src as [| s src IH]; intros dst out H.
  - simpl in H. simplify_eq. split; [done |]. intros j l Hj. by rewrite lookup_nil in Hj.
  - destruct dst as [| d dst]; simpl in H.
    + simplify_eq. split; [done |]. simpl. lia.
    + destruct (copy_cache (_k_cache s) (_k_cache d)) as [k |] eqn:Ek; simpl in H; [| done].
      destruct (copy_cache (_v_cache s) (_v_cache d)) as [v |] eqn:Ev; simpl in H; [| done].
      destruct (copy_layers src dst) as [rest |] eqn:Er; simpl in H; [| done].
      simplify_eq. apply copy_cache_eq in Ek, Ev. subst k v.
      destruct (IH _ _ Er) as [Hlen Hl]. split; [simpl; by rewrite Hlen |].
      intros [| j] l Hj Hlt; simpl in *.
      * simplify_eq. by destruct l.
      * apply Hl; [done | lia].
Qed.

Lemma copy_into_slot_layers src slot dst :
  copy_into_slot src slot = Some dst ->
  forall (j : nat) l,
    _keys_values src !! j = Some l ->
    (j < length (_keys_values dst))%nat ->
    _keys_values dst !! j = Some l.
Proof.
  unfold copy_into_slot. intros H.
  destruct (store_target src slot) as [d |] eqn:E1; simpl in H; [| done].
  destruct (copy_layers _ _) as [layers |] eqn:E2; simpl in H; [| done].
  simplify_eq. simpl. destruct (copy_layers_lookup _ _ _ E2) as [Hlen Hl].
  intros j l Hj Hlt. apply Hl; [done | lia].
Qed.


(* ===================================================================== *)
(** ** Ring-buffer order of the pools *)
(* ===================================================================== *)

(** Sequential stores into the recurrent pool, and into the init pool of
    one environment: what each call returns, in order. *)
Fixpoint store_all_recur (srcs : list KeysValues) (wm : WorldModel)
  : option (list StoreResult * WorldModel) :=
  match srcs with
  | [] => Some ([], wm)
  | src :: srcs' =>
      '(r, wm) ← custom_copy_kv_cache_to_shared_recur src wm;
      '(rs, wm) ← store_all_recur srcs' wm;
      Some (r :: rs, wm)
  end.

Fixpoint store_all_init (env_id : Z) (srcs : list KeysValues) (wm : WorldModel)
  : option (list StoreResult * WorldModel) :=
  match srcs with
  | [] => Some ([], wm)
  | src :: srcs' =>
      '(r, wm) ← custom_copy_kv_cache_to_shared_init_envs src env_id wm;
      '(rs, wm) ← store_all_init env_id srcs' wm;
      Some (r :: rs, wm)
  end.

(** The indices a ring of capacity [C] hands out from cursor [c]. *)
Definition ring_indices (C c : Z) (n : nat) : list StoreResult :=
  map (fun j : nat => Index ((c + Z.of_nat j) `mod` C)) (seq 0 n).

Lemma ring_indices_S C c n :
  0 < C -> 0 <= c < C ->
  ring_indices C c (S n) = Index c :: ring_indices C ((c + 1) `mod` C) n.
Proof.
  intros HC Hc. unfold ring_indices. simpl. f_equal.
  - f_equal. rewrite Z.add_0_r. apply Z.mod_small. lia.
  - rewrite <- fmap_S_seq. rewrite <- list_fmap_compose.
    apply list_fmap_ext. intros _ j _. simpl. f_equal.
    rewrite Zplus_mod_idemp_l. f_equal. lia.
Qed.

Lemma store_all_recur_indices srcs : forall wm rs wm',
  0 < shared_pool_size wm ->
  0 <= shared_pool_index wm < shared_pool_size wm ->
  store_all_recur srcs wm = Some (rs, wm') ->
  rs = ring_indices (shared_pool_size wm) (shared_pool_index wm) (length srcs).
Proof.
  induction srcs as [| src srcs IH]; intros wm rs wm' HC Hc H; simpl in H.
  - by simplify_eq.
  - destruct (custom_copy_kv_cache_to_shared_recur src wm) as [[r wm1] |] eqn:E;
      simpl in H; [| done].
    destruct (store_all_recur srcs wm1) as [[rs1 wm2] |] eqn:E'; simpl in H; [| done].
    simplify_eq.
    apply store_recur_spec in E as (slot & dst & pool' & _ & _ & _ & _ & -> & ->).
    simpl length. rewrite ring_indices_S by done. f_equal.
    apply IH in E'; simpl in *; [exact E' | done |].
    apply Z.mod_pos_bound. lia.
Qed.

Lemma store_all_init_indices env_id srcs : forall wm rs wm' c,
  0 < shared_pool_size_init wm ->
  Py.getitem (shared_pool_index_init_envs wm) env_id = Some c ->
  0 <= c < shared_pool_size_init wm ->
  store_all_init env_id srcs wm = Some (rs, wm') ->
  rs = ring_indices (shared_pool_size_init wm) c (length srcs).
Proof.
  induction srcs as [| src srcs IH]; intros wm rs wm' c HC Hg Hc H; simpl in H.
  - by simplify_eq.
  - destruct (custom_copy_kv_cache_to_shared_init_envs src env_id wm)
      as [[r wm1] |] eqn:E; simpl in H; [| done].
    destruct (store_all_init env_id srcs wm1) as [[rs1 wm2] |] eqn:E'; simpl in H; [| done].
    simplify_eq.
    apply store_init_spec in E
      as (pool & cursor & slot & dst & pool' & pools' & cursors' &
          E0 & E1 & E2 & E3 & E4 & E5 & Hne & E7 & -> & ->).
    simplify_eq. simpl length. rewrite ring_indices_S by done. f_equal.
    eapply IH in E'; simpl in *; [exact E' | done | |].
    + eapply getitem_setitem_eq. exact E7.
    + apply Z.mod_pos_bound. lia.
Qed.

(** From a fresh cursor, [C + 1] stores hand out [0, 1, ..., C - 1, 0]. *)
Lemma ring_indices_fifo (C : Z) (rs : list StoreResult) :
  0 < C ->
  rs = ring_indices C 0 (Z.to_nat (C + 1)) ->
  rs !! Z.to_nat C = rs !! 0%nat /\
  rs !! 0%nat = Some (Index 0) /\
  NoDup (take (Z.to_nat C) rs) /\
  (forall j, 0 <= j < C -> rs !! Z.to_nat j = Some (Index j)).
Proof.
  intros HC ->. unfold ring_indices.
  assert (forall j : nat, (j < Z.to_nat (C + 1))%nat ->
            map (fun j : nat => Index ((0 + Z.of_nat j) `mod` C)) (seq 0 (Z.to_nat (C + 1))) !! j
            = Some (Index (Z.of_nat j `mod` C))) as Hl.
  { intros j Hj. rewrite list_lookup_fmap, lookup_seq_lt by done. simpl.
    by rewrite Z.add_0_l. }
  repeat split.
  - rewrite !Hl by lia. rewrite Z2Nat.id by lia.
    by rewrite Z_mod_same_full, Zmod_0_l.
  - rewrite Hl by lia. by rewrite Zmod_0_l.
  - rewrite <- fmap_take, take_seq.
    replace (Z.to_nat C `min` Z.to_nat (C + 1))%nat with (Z.to_nat C) by lia.
    apply NoDup_fmap_2_strong; [| apply NoDup_seq].
    intros x y Hx Hy Heq. apply elem_of_seq in Hx, Hy. simplify_eq.
    rewrite !Z.add_0_l in *. rewrite !Z.mod_small in * by lia. lia.
  - intros j Hj. rewrite Hl by lia. rewrite Z2Nat.id by lia.
    by rewrite Z.mod_small by lia.
Qed.

(** C4. In a pool of capacity [C] the cursor advances by
    [(cursor + 1) mod C] on each store, so of [C + 1] sequential stores from
    a fresh cursor the last returns the slot index of the first, and the
    first [C] return pairwise distinct indices. It holds of the recurrent
    pool and of each environment's init pool; construction gives the former
    capacity [num_simulations * env_num] and the latter capacity 2, with the
    cursors at 0. *)
Theorem pool_fifo (C : Z) (srcs : list KeysValues) (wm : WorldModel) :
  0 < C ->
  Z.of_nat (length srcs) = C + 1 ->
  (forall rs wm',
      shared_pool_size wm = C -> shared_pool_index wm = 0 ->
      store_all_recur srcs wm = Some (rs, wm') ->
      rs !! Z.to_nat C = rs !! 0%nat /\
      rs !! 0%nat = Some (Index 0) /\
      NoDup (take (Z.to_nat C) rs) /\
      (forall j, 0 <= j < C -> rs !! Z.to_nat j = Some (Index j))) /\
  (forall env_id rs wm',
      shared_pool_size_init wm = C ->
      Py.getitem (shared_pool_index_init_envs wm) env_id = Some 0 ->
      store_all_init env_id srcs wm = Some (rs, wm') ->
      rs !! Z.to_nat C = rs !! 0%nat /\
      rs !! 0%nat = Some (Index 0) /\
      NoDup (take (Z.to_nat C) rs) /\
      (forall j, 0 <= j < C -> rs !! Z.to_nat j = Some (Index j))) /\
  (forall cfg wm0,
      WorldModel_init cfg = Some wm0 ->
      shared_pool_size wm0 = num_simulations cfg * env_num cfg /\
      shared_pool_index wm0 = 0 /\
      shared_pool_size_init wm0 = 2 /\
      (forall env_id c,
          Py.getitem (shared_pool_index_init_envs wm0) env_id = Some c -> c = 0)).
Proof.
  intros HC Hlen. split; [| split].
  - intros rs wm' HS Hc H.
    apply store_all_recur_indices in H; [| lia | lia].
    apply ring_indices_fifo; [done |].
    rewrite H, HS, Hc. f_equal. lia.
  - intros env_id rs wm' HS Hc H.
    eapply store_all_init_indices in H; [| lia | exact Hc | lia].
    apply ring_indices_fifo; [done |].
    rewrite H, HS. f_equal. lia.
  - intros cfg wm0 H.
    apply WorldModel_init_Some in H as (dk & dv & _ & _ & ->).
    simpl. repeat split.
    intros env_id c Hg. unfold Py.getitem, Py.repeat_ in Hg.
    repeat case_bool_decide; try done;
      apply lookup_replicate in Hg as [? _]; done.
Qed.

(* ===================================================================== *)
(** ** Hash keys *)
(* ===================================================================== *)











(* ===================================================================== *)
(** ** Clearing *)
(* ===================================================================== *)

(** C8. After [clear_caches] the recurrent-phase index and every
    environment's init-phase index are empty (as is [keys_values_wm_list]),
    so no key is found in any of them and the memoized lookup never hits. *)
Theorem clear_caches_empties (wm : WorldModel) :
  past_kv_cache_recurrent_infer (clear_caches wm) = ∅ /\
  length (past_kv_cache_init_infer_envs (clear_caches wm))
  = length (past_kv_cache_init_infer_envs wm) /\
  (forall i d, Py.getitem (past_kv_cache_init_infer_envs (clear_caches wm)) i = Some d ->
      d = ∅) /\
  (forall i d (key : string),
      Py.getitem (past_kv_cache_init_infer_envs (clear_caches wm)) i = Some d ->
      d !! key = None) /\
  (forall (key : string), past_kv_cache_recurrent_infer (clear_caches wm) !! key = None) /\
  (forall index key kv, lookup_kvcache (clear_caches wm) index key <> Some (Some kv)) /\
  keys_values_wm_list (clear_caches wm) = [].
Proof.
  assert (forall i d, Py.getitem (past_kv_cache_init_infer_envs (clear_caches wm)) i = Some d ->
            d = ∅) as Hempty.
  { simpl. intros i d Hg. unfold Py.getitem in Hg.
    repeat case_bool_decide; try done;
      rewrite list_lookup_fmap in Hg;
      destruct (_ !! _); simpl in Hg; by simplify_eq. }
  repeat split; try done.
  - simpl. by rewrite length_map.
  - intros i d key Hg. apply Hempty in Hg as ->. apply lookup_empty.
  - intros index key kv. unfold lookup_kvcache.
    destruct (reanalyze_phase (clear_caches wm)); [done |].
    destruct (Py.getitem (past_kv_cache_init_infer_envs (clear_caches wm)) index)
      as [d |] eqn:Hg; simpl; [| done].
    apply Hempty in Hg as ->. rewrite lookup_empty. simpl. done.
Qed.

(* ===================================================================== *)
(** ** Slices *)
(* ===================================================================== *)



Lemma slice_from {A} (a : Z) (l : list A) :
  0 <= a -> Py.slice (Some a) None l = drop (Z.to_nat a) l.
Proof.
  intros Ha. unfold Py.slice, Py.bound.
  rewrite bool_decide_eq_false_2 by lia.
  destruct (decide (Z.of_nat (length l) <= a)).
  - rewrite Z.min_r by lia. rewrite !drop_ge by lia. by rewrite take_nil.
  - rewrite Z.min_l by lia. apply take_ge. rewrite length_drop. lia.
Qed.

(** [l[:-p]] for [p > 0]: the last [p] items go. *)
Lemma slice_drop_last {A} (p : Z) (l : list A) :
  0 < p -> Py.slice None (Some (- p)) l = take (length l - Z.to_nat p) l.
Proof.
  intros Hp. unfold Py.slice, Py.bound.
  rewrite bool_decide_eq_true_2 by lia. simpl. rewrite drop_0, Z.sub_0_r.
  f_equal. lia.
Qed.

(* ===================================================================== *)
(** ** The positional-delta table *)
(* ===================================================================== *)




Lemma correct_span_spec wm layer value t t' written :
  correct_span wm layer value t = Some (t', written) ->
  written = negb (rotary_emb (config wm)) /\
  (rotary_emb (config wm) = true -> t' = t) /\
  (rotary_emb (config wm) = false ->
     exists tables table diff d,
       (if value then pos_emb_diff_v wm else pos_emb_diff_k wm) = Some tables /\
       Py.getitem tables layer = Some table /\
       table !! (2, context_length (config wm) - 1) = Some diff /\
       squeeze0 diff = Some d /\
       add3 t d = Some t').
Proof.
  unfold correct_span. destruct (rotary_emb (config wm)); simpl; intros H.
  - simplify_eq. split; [done |]. split; [done | discriminate].
  - destruct (if value then _ else _) as [tables |] eqn:E1; simpl in H; [| done].
    destruct (Py.getitem tables layer) as [table |] eqn:E2; simpl in H; [| done].
    destruct (table !! _) as [diff |] eqn:E3; simpl in H; [| done].
    destruct (squeeze0 diff) as [d |] eqn:E4; simpl in H; [| done].
    destruct (add3 t d) as [t2 |] eqn:E5; simpl in H; [| done].
    simplify_eq. split; [done |]. split; [discriminate |].
    intros _. by exists tables, table, diff, d.
Qed.


(* ===================================================================== *)
(** ** Window shrink *)
(* ===================================================================== *)




Lemma set_single_env_layer_spec layer k v wm wm' :
  set_single_env_layer layer k v wm = Some wm' ->
  KeysValues_getitem (keys_values_wm_single_env wm') layer = Some (mkKVCache k v) /\
  exists layers',
    Py.setitem (_keys_values (keys_values_wm_single_env wm)) layer (mkKVCache k v)
    = Some layers' /\
    wm' = set_keys_values_wm_single_env (mkKeysValues layers') wm.
Proof.
  unfold set_single_env_layer, KeysValues_getitem. intros H.
  destruct (Py.setitem _ _ _) as [layers' |] eqn:E; simpl in H; [| done].
  simplify_eq. simpl. split; [by eapply getitem_setitem_eq | by exists layers'].
Qed.



(* ===================================================================== *)
(** ** Lookup order *)
(* ===================================================================== *)





(* ===================================================================== *)
(** ** The index invariant *)
(* ===================================================================== *)

(** What the hash indices and the pools they point into consist of. *)
Definition index_state (wm : WorldModel) :=
  (shared_pool_size wm, shared_pool_recur_infer wm, shared_pool_index wm,
   shared_pool_size_init wm, shared_pool_init_infer wm, shared_pool_index_init_envs wm,
   past_kv_cache_recurrent_infer wm, past_kv_cache_init_infer_envs wm).

(** The modulo-cursor discipline: each pool has as many slots as its
    configured size, no cursor is negative, and every slot index recorded in
    a hash index lies within the configured size of its pool and names a
    slot that holds a context. *)
Record CacheInv (wm : WorldModel) : Prop := mkCacheInv {
  inv_recur_len :
    Z.of_nat (length (shared_pool_recur_infer wm)) = Z.max 0 (shared_pool_size wm);
  inv_recur_cursor : 0 <= shared_pool_index wm;
  inv_init_envs :
    length (shared_pool_index_init_envs wm) = length (shared_pool_init_infer wm);
  inv_init_dicts :
    length (past_kv_cache_init_infer_envs wm) = length (shared_pool_init_infer wm);
  inv_init_len : forall (i : nat) pool,
    shared_pool_init_infer wm !! i = Some pool ->
    Z.of_nat (length pool) = Z.max 0 (shared_pool_size_init wm);
  inv_init_cursor : forall (i : nat) c,
    shared_pool_index_init_envs wm !! i = Some c -> 0 <= c;
  inv_init_recorded : forall (i : nat) d (key : string) idx,
    past_kv_cache_init_infer_envs wm !! i = Some d -> d !! key = Some idx ->
    0 <= idx < shared_pool_size_init wm /\
    exists pool kv,
      shared_pool_init_infer wm !! i = Some pool /\
      pool !! Z.to_nat idx = Some (Some kv);
  inv_recur_recorded : forall (key : string) idx,
    past_kv_cache_recurrent_infer wm !! key = Some idx ->
    0 <= idx < shared_pool_size wm /\
    exists kv, shared_pool_recur_infer wm !! Z.to_nat idx = Some (Some kv)
}.

Lemma CacheInv_ext wm wm' :
  index_state wm' = index_state wm -> CacheInv wm -> CacheInv wm'.
Proof.
  unfold index_state. intros Heq [H1 H2 H3 H4 H5 H6 H7 H8].
  injection Heq as E1 E2 E3 E4 E5 E6 E7 E8.
  split; rewrite ?E1, ?E2, ?E3, ?E4, ?E5, ?E6, ?E7, ?E8; done.
Qed.

Lemma CacheInv_initial cfg diff_k diff_v : CacheInv (initial_attributes cfg diff_k diff_v).
Proof.
  split; simpl; unfold Py.repeat_.
  - rewrite length_replicate. lia.
  - done.
  - by rewrite !length_replicate.
  - by rewrite !length_replicate.
  - intros i pool Hp. apply lookup_replicate in Hp as [-> _].
    by rewrite length_replicate.
  - intros i c Hc. apply lookup_replicate in Hc as [-> _]. done.
  - intros i d key idx Hd Hk. apply lookup_replicate in Hd as [-> _].
    by rewrite lookup_empty in Hk.
  - intros key idx Hk. by rewrite lookup_empty in Hk.
Qed.

Lemma store_recur_inv src wm r wm' :
  CacheInv wm ->
  custom_copy_kv_cache_to_shared_recur src wm = Some (r, wm') ->
  CacheInv wm' /\
  exists idx kv,
    r = Index idx /\ 0 <= idx < shared_pool_size wm' /\
    shared_pool_recur_infer wm' !! Z.to_nat idx = Some (Some kv) /\
    past_kv_cache_recurrent_infer wm' = past_kv_cache_recurrent_infer wm /\
    past_kv_cache_init_infer_envs wm' = past_kv_cache_init_infer_envs wm.
Proof.
  intros [H1 H2 H3 H4 H5 H6 H7 H8] H.
  apply store_recur_spec in H as (slot & dst & pool' & E1 & E2 & E3 & Hne & -> & ->).
  apply getitem_nonneg in E1 as [E1 Hlt]; [| done].
  apply setitem_nonneg in E3 as ->; [| done].
  assert (0 < shared_pool_size wm) as Hpos by lia.
  assert (Z.to_nat (shared_pool_index wm) < length (shared_pool_recur_infer wm))%nat
    as Hlt' by lia.
  split.
  - split; simpl; try done.
    + by rewrite length_insert.
    + apply Z.mod_pos_bound. lia.
    + intros key idx Hk. destruct (H8 _ _ Hk) as (Hr & kv & Hkv). split; [done |].
      destruct (decide (Z.to_nat (shared_pool_index wm) = Z.to_nat idx)) as [<- | Hd].
      * exists dst. by apply list_lookup_insert_eq.
      * exists kv. by rewrite list_lookup_insert_ne.
  - exists (shared_pool_index wm), dst. simpl.
    split; [done |]. split; [lia |]. split; [| done].
    by apply list_lookup_insert_eq.
Qed.

Lemma store_init_inv src (i : Z) wm r wm' :
  0 <= i ->
  CacheInv wm ->
  custom_copy_kv_cache_to_shared_init_envs src i wm = Some (r, wm') ->
  CacheInv wm' /\
  exists idx pool kv,
    r = Index idx /\ 0 <= idx < shared_pool_size_init wm' /\
    shared_pool_init_infer wm' !! Z.to_nat i = Some pool /\
    pool !! Z.to_nat idx = Some (Some kv) /\
    past_kv_cache_recurrent_infer wm' = past_kv_cache_recurrent_infer wm /\
    past_kv_cache_init_infer_envs wm' = past_kv_cache_init_infer_envs wm.
Proof.
  intros Hi [H1 H2 H3 H4 H5 H6 H7 H8] H.
  apply store_init_spec in H
    as (pool & cursor & slot & dst & pool' & pools' & cursors' &
        E0 & E1 & E2 & E3 & E4 & E5 & Hne & E7 & -> & ->).
  apply getitem_nonneg in E0 as [E0 Hlt0]; [| done].
  apply getitem_nonneg in E1 as [E1 Hlt1]; [| done].
  pose proof (H6 _ _ E1) as Hc.
  pose proof (H5 _ _ E0) as Hlen.
  apply getitem_nonneg in E2 as [E2 Hlt2]; [| done].
  apply setitem_nonneg in E4 as ->; [| done].
  apply setitem_nonneg in E5 as ->; [| done].
  apply setitem_nonneg in E7 as ->; [| done].
  assert (0 < shared_pool_size_init wm) as Hpos by lia.
  assert (Z.to_nat cursor < length pool)%nat as Hltc by lia.
  assert (Z.to_nat i < length (shared_pool_init_infer wm))%nat as Hlti by lia.
  split.
  - split; simpl; try done.
    + by rewrite !length_insert.
    + by rewrite !length_insert.
    + intros j p Hp. destruct (decide (Z.to_nat i = j)) as [<- | Hd].
      * rewrite list_lookup_insert_eq in Hp by done. simplify_eq.
        by rewrite length_insert.
      * rewrite list_lookup_insert_ne in Hp by done. eauto.
    + intros j c Hj. destruct (decide (Z.to_nat i = j)) as [<- | Hd].
      * rewrite list_lookup_insert_eq in Hj by lia. simplify_eq.
        apply Z.mod_pos_bound. lia.
      * rewrite list_lookup_insert_ne in Hj by done. eauto.
    + intros j d key idx Hd Hk.
      destruct (H7 _ _ _ _ Hd Hk) as (Hr & p & kv & Hp & Hkv). split; [done |].
      destruct (decide (Z.to_nat i = j)) as [<- | Hne'].
      * rewrite E0 in Hp. injection Hp as <-.
        destruct (decide (Z.to_nat cursor = Z.to_nat idx)) as [Heq | Hne'].
        -- exists (<[Z.to_nat cursor := Some dst]> pool), dst.
           split; [by apply list_lookup_insert_eq |].
           rewrite <- Heq. by apply list_lookup_insert_eq.
        -- exists (<[Z.to_nat cursor := Some dst]> pool), kv.
           split; [by apply list_lookup_insert_eq |].
           by rewrite list_lookup_insert_ne.
      * exists p, kv. split; [| done]. by rewrite list_lookup_insert_ne.
  - exists cursor, (<[Z.to_nat cursor := Some dst]> pool), dst. simpl.
    split; [done |]. split; [lia |].
    split; [by apply list_lookup_insert_eq |].
    split; [by apply list_lookup_insert_eq | done].
Qed.

(** Peel the successful binds of a hypothesis [H : ... = Some _]. *)
Ltac peel H :=
  repeat match type of H with
    | context [mbind _ ?x] =>
        let E := fresh "E" in
        destruct x eqn:E; simpl in H; [| discriminate H]
    | context [let '(_, _) := ?x in _] => destruct x; simpl in H
    end.

Lemma set_single_env_layer_frame layer k v wm wm' :
  set_single_env_layer layer k v wm = Some wm' ->
  index_state wm' = index_state wm.
Proof. intros H. apply set_single_env_layer_spec in H as (_ & ? & _ & ->). done. Qed.

Lemma update_layer_internal_frame i trim_size size_i layer wm wm' :
  update_layer_internal i trim_size size_i layer wm = Some wm' ->
  index_state wm' = index_state wm.
Proof.
  unfold update_layer_internal. intros H.
  destruct (Py.getitem (_keys_values (keys_values_wm wm)) layer) as [l |];
    simpl in H; [| done].
  destruct (Py.getitem (_cache (_k_cache l)) i) as [k_cur |]; simpl in H; [| done].
  destruct (Py.getitem (_cache (_v_cache l)) i) as [v_cur |]; simpl in H; [| done].
  destruct (set_single_env_layer _ _ _ wm) as [wm1 |] eqn:E1; simpl in H; [| done].
  apply set_single_env_layer_frame in E1.
  destruct (bool_decide (size_i >= _)); [| congruence].
  destruct (shrink _ layer false _) as [[k_new k_view] |]; simpl in H; [| done].
  destruct (shrink _ layer true _) as [[v_new v_view] |]; simpl in H; [| done].
  destruct (if bool_decide (trim_size > 0) then _ else _) as [kv_wm |];
    simpl in H; [| done].
  apply set_single_env_layer_frame in H. by rewrite H.
Qed.

Lemma update_layer_root_frame i layer wm wm' :
  update_layer_root i layer wm = Some wm' ->
  index_state wm' = index_state wm.
Proof.
  unfold update_layer_root. intros H.
  destruct (Py.getitem (_keys_values (keys_values_wm wm)) layer) as [l |];
    simpl in H; [| done].
  destruct (Py.getitem (_cache (_k_cache l)) i) as [k_cur |]; simpl in H; [| done].
  destruct (Py.getitem (_cache (_v_cache l)) i) as [v_cur |]; simpl in H; [| done].
  destruct (bool_decide (_size _ < _)).
  - by apply set_single_env_layer_frame in H.
  - destruct (shrink _ layer false _) as [[k_new k_view] |]; simpl in H; [| done].
    destruct (shrink _ layer true _) as [[v_new v_view] |]; simpl in H; [| done].
    destruct (write_rows _ _ _ _ _) as [kv_wm |]; simpl in H; [| done].
    by apply set_single_env_layer_frame in H.
Qed.

(** What [update_cache_context] does for environment [i], as far as the
    indices go: the layers are prepared without touching pools or indices,
    the single-environment cache is stored, and the returned slot index is
    recorded under the hash of the environment's latent state. *)
Lemma update_env_spec latent is_init (i : Z) wm wm' :
  update_cache_context_env latent is_init i wm = Some wm' ->
  exists st wm_a idx wm_b,
    Py.getitem latent i = Some st /\
    index_state wm_a = index_state wm /\
    (if is_init
     then custom_copy_kv_cache_to_shared_init_envs (keys_values_wm_single_env wm_a) i wm_a
     else custom_copy_kv_cache_to_shared_recur (keys_values_wm_single_env wm_a) wm_a)
    = Some (Index idx, wm_b) /\
    if is_init
    then exists d ds,
        Py.getitem (past_kv_cache_init_infer_envs wm_b) i = Some d /\
        Py.setitem (past_kv_cache_init_infer_envs wm_b) i (<[hash_state st := idx]> d)
        = Some ds /\
        wm' = set_past_kv_cache_init_infer_envs ds wm_b
    else wm' = set_past_kv_cache_recurrent_infer
                 (<[hash_state st := idx]> (past_kv_cache_recurrent_infer wm_b)) wm_b.
Proof.
  unfold update_cache_context_env. intros H.
  destruct (Py.getitem latent i) as [st |] eqn:Est; simpl in H; [| done].
  destruct is_init; simpl in H.
  - destruct (for_each _ _ wm) as [wm_a |] eqn:Ea; simpl in H; [| done].
    assert (index_state wm_a = index_state wm) as Hfr.
    { eapply (for_each_inv (fun s => index_state s = index_state wm)); [| exact Ea | done].
      intros x s s' Hb Hs. apply update_layer_root_frame in Hb. congruence. }
    destruct (custom_copy_kv_cache_to_shared_init_envs _ _ _) as [[r wm_b] |] eqn:Es;
      simpl in H; [| done].
    destruct r as [idx | o]; simpl in H; [| done].
    destruct (Py.getitem (past_kv_cache_init_infer_envs wm_b) i) as [d |] eqn:Ed;
      simpl in H; [| done].
    destruct (Py.setitem _ _ _) as [ds |] eqn:Eds; simpl in H; [| done].
    injection H as <-. exists st, wm_a, idx, wm_b.
    split; [done |]. split; [done |]. split; [done |]. by exists d, ds.
  - destruct (keys_values_wm_size_list_current wm) as [sizes |]; simpl in H; [| done].
    destruct (Py.max sizes) as [m |]; simpl in H; [| done].
    destruct (Py.getitem sizes i) as [size_i |]; simpl in H; [| done].
    destruct (for_each _ _ wm) as [wm_a |] eqn:Ea; simpl in H; [| done].
    assert (index_state wm_a = index_state wm) as Hfr.
    { eapply (for_each_inv (fun s => index_state s = index_state wm)); [| exact Ea | done].
      intros x s s' Hb Hs. apply update_layer_internal_frame in Hb. congruence. }
    destruct (custom_copy_kv_cache_to_shared_recur _ _) as [[r wm_b] |] eqn:Es;
      simpl in H; [| done].
    destruct r as [idx | o]; simpl in H; [| done].
    injection H as <-. by exists st, wm_a, idx, wm_b.
Qed.

Lemma update_env_inv latent is_init (i : Z) wm wm' :
  0 <= i ->
  CacheInv wm ->
  update_cache_context_env latent is_init i wm = Some wm' ->
  CacheInv wm'.
Proof.
  intros Hi Hinv H.
  apply update_env_spec in H as (st & wm_a & idx & wm_b & Hst & Hfr & Hs & Hrec).
  apply (CacheInv_ext wm wm_a) in Hinv; [| done].
  destruct is_init.
  - destruct Hrec as (d & ds & Hd & Hds & ->).
    destruct (store_init_inv _ _ _ _ _ Hi Hinv Hs)
      as ([H1 H2 H3 H4 H5 H6 H7 H8] & idx' & pool & kv & Hidx & Hr & Hp & Hkv & _ & _).
    simplify_eq.
    apply getitem_nonneg in Hd as [Hd Hlt]; [| done].
    apply setitem_nonneg in Hds as ->; [| done].
    split; simpl; try done.
    + by rewrite length_insert.
    + intros j d' key idx Hj Hk.
      destruct (decide (Z.to_nat i = j)) as [<- | Hne].
      * rewrite list_lookup_insert_eq in Hj by lia. simplify_eq.
        destruct (decide (hash_state st = key)) as [<- | Hk'].
        -- rewrite lookup_insert_eq in Hk. simplify_eq.
           split; [done |]. by exists pool, kv.
        -- rewrite lookup_insert_ne in Hk by done. eauto.
      * rewrite list_lookup_insert_ne in Hj by done. eauto.
  - subst wm'.
    destruct (store_recur_inv _ _ _ _ Hinv Hs)
      as ([H1 H2 H3 H4 H5 H6 H7 H8] & idx' & kv & Hidx & Hr & Hkv & _ & _).
    simplify_eq.
    split; simpl; try done.
    intros key idx Hk.
    destruct (decide (hash_state st = key)) as [<- | Hk'].
    + rewrite lookup_insert_eq in Hk. simplify_eq. split; [done |]. by exists kv.
    + rewrite lookup_insert_ne in Hk by done. eauto.
Qed.

Lemma update_cache_context_inv latent is_init wm wm' :
  CacheInv wm ->
  update_cache_context latent is_init wm = Some wm' ->
  CacheInv wm'.
Proof.
  unfold update_cache_context. intros Hinv H.
  case_bool_decide; [by simplify_eq |].
  eapply (for_each_inv_in CacheInv); [| exact H | done].
  intros i s s' Hi%elem_of_range Hb Hs. eapply update_env_inv; [| done | done]. lia.
Qed.

(* ===================================================================== *)
(** ** What the inference paths leave of the indices *)
(* ===================================================================== *)

Lemma trim_and_pad_frame wm sizes wm' :
  trim_and_pad_kv_cache wm = Some (sizes, wm') ->
  sizes = keys_values_wm_size_list wm /\
  exists kv, wm' = set_keys_values_wm kv wm.
Proof.
  unfold trim_and_pad_kv_cache. intros H.
  destruct (Py.max _) as [m |]; simpl in H; [| done].
  destruct (for_each _ _ _) as [kv |]; simpl in H; [| done].
  injection H as <- <-. split; [done | by exists kv].
Qed.

Lemma append_hit_frame kv wm wm' :
  append_hit kv wm = Some wm' -> index_state wm' = index_state wm.
Proof.
  unfold append_hit. intros H.
  destruct (custom_copy_kv_cache_to_shared_wm kv wm) as [[r wm1] |] eqn:E;
    simpl in H; [| done].
  apply store_wm_spec in E as (slot & dst & pool' & _ & _ & _ & _ & -> & ->).
  simpl in H. destruct (KeysValues_size kv); simpl in H; [| done].
  by injection H as <-.
Qed.

Lemma append_miss_frame st p wm wm' :
  append_miss st p wm = Some wm' -> index_state wm' = index_state wm.
Proof.
  unfold append_miss. simpl. intros H.
  destruct (forward _ _ _ _) as [[out kv] |]; simpl in H; [| done].
  by injection H as <-.
Qed.

Lemma retrieve_env_frame latent sp index wm wm' :
  retrieve_or_generate_env latent sp index wm = Some wm' ->
  index_state wm' = index_state wm.
Proof.
  unfold retrieve_or_generate_env. intros H.
  destruct (Py.getitem latent index) as [st |]; simpl in H; [| done].
  destruct (lookup_kvcache _ _ _) as [[kv |] |]; simpl in H; [| | done].
  - by apply append_hit_frame in H.
  - destruct (if reanalyze_phase _ then _ else _) as [p |]; simpl in H; [| done].
    by apply append_miss_frame in H.
Qed.

Lemma retrieve_frame latent n sp wm sizes wm' :
  retrieve_or_generate_kvcache latent n sp wm = Some (sizes, wm') ->
  index_state wm' = index_state wm.
Proof.
  unfold retrieve_or_generate_kvcache. intros H.
  destruct (for_each _ _ wm) as [wm1 |] eqn:E; simpl in H; [| done].
  injection H as _ <-.
  eapply (for_each_inv (fun s => index_state s = index_state wm)); [| exact E | done].
  intros x s s' Hb Hs. apply retrieve_env_frame in Hb. congruence.
Qed.

Lemma root_lookup_env_frame last sp i wm wm' :
  root_lookup_env last sp i wm = Some wm' -> index_state wm' = index_state wm.
Proof.
  unfold root_lookup_env. intros H.
  destruct (Py.getitem last i) as [st |]; simpl in H; [| done].
  destruct (Py.getitem (past_kv_cache_init_infer_envs wm) i) as [d |];
    simpl in H; [| done].
  destruct (match d !! hash_state st with Some _ => _ | None => _ end)
    as [[kv |] |]; simpl in H; [| | done].
  - by apply append_hit_frame in H.
  - destruct (start_pos_item sp i) as [p |]; simpl in H; [| done].
    by apply append_miss_frame in H.
Qed.

(** How a root update may change the init-phase indices: environment by
    environment, a key either keeps its entry or is the hash of that
    environment's latent state of this step. *)
Definition init_dicts_step (latent : list Latent) (ds ds' : list (gmap string Z)) : Prop :=
  length ds' = length ds /\
  forall (i : nat) d',
    ds' !! i = Some d' ->
    exists d,
      ds !! i = Some d /\
      forall key : string,
        d' !! key = d !! key \/
        exists st, latent !! i = Some st /\ key = hash_state st.

Lemma init_dicts_step_refl latent ds : init_dicts_step latent ds ds.
Proof. split; [done |]. intros i d Hd. exists d. split; [done |]. by left. Qed.

Lemma init_dicts_step_trans latent ds1 ds2 ds3 :
  init_dicts_step latent ds1 ds2 -> init_dicts_step latent ds2 ds3 ->
  init_dicts_step latent ds1 ds3.
Proof.
  intros [L1 H1] [L2 H2]. split; [congruence |].
  intros i d3 Hd3. destruct (H2 _ _ Hd3) as (d2 & Hd2 & K2).
  destruct (H1 _ _ Hd2) as (d1 & Hd1 & K1).
  exists d1. split; [done |]. intros key.
  destruct (K2 key) as [E2 | ?]; [| by right].
  destruct (K1 key) as [E1 | ?]; [| by right].
  left. congruence.
Qed.

Lemma update_env_init_dicts latent (i : Z) wm wm' :
  0 <= i ->
  update_cache_context_env latent true i wm = Some wm' ->
  init_dicts_step latent (past_kv_cache_init_infer_envs wm)
                         (past_kv_cache_init_infer_envs wm') /\
  past_kv_cache_recurrent_infer wm' = past_kv_cache_recurrent_infer wm.
Proof.
  intros Hi H.
  apply update_env_spec in H as (st & wm_a & idx & wm_b & Hst & Hfr & Hs & Hrec).
  destruct Hrec as (d & ds & Hd & Hds & ->).
  apply store_init_spec in Hs
    as (pool & cursor & slot & dst & pool' & pools' & cursors' &
        _ & _ & _ & _ & _ & _ & _ & _ & _ & ->).
  simpl in *. injection Hfr as _ _ _ _ _ _ Hr Hdi.
  rewrite Hr, Hdi in *. split; [| done].
  apply getitem_nonneg in Hd as [Hd Hlt]; [| done].
  apply setitem_nonneg in Hds as ->; [| done].
  apply getitem_nonneg in Hst as [Hst _]; [| done].
  split; [by rewrite length_insert |].
  intros j d' Hj. destruct (decide (Z.to_nat i = j)) as [<- | Hne].
  - rewrite list_lookup_insert_eq in Hj by lia. injection Hj as <-.
    exists d. split; [done |]. intros key.
    destruct (decide (hash_state st = key)) as [<- | Hk].
    + right. by exists st.
    + left. by rewrite lookup_insert_ne.
  - rewrite list_lookup_insert_ne in Hj by done. exists d'. split; [done | by left].
Qed.

Lemma update_cache_context_init_dicts latent wm wm' :
  update_cache_context latent true wm = Some wm' ->
  init_dicts_step latent (past_kv_cache_init_infer_envs wm)
                         (past_kv_cache_init_infer_envs wm') /\
  past_kv_cache_recurrent_infer wm' = past_kv_cache_recurrent_infer wm.
Proof.
  unfold update_cache_context. intros H.
  case_bool_decide.
  { injection H as <-. split; [apply init_dicts_step_refl | done]. }
  eapply (for_each_inv_in
            (fun s => init_dicts_step latent (past_kv_cache_init_infer_envs wm)
                        (past_kv_cache_init_infer_envs s) /\
                      past_kv_cache_recurrent_infer s = past_kv_cache_recurrent_infer wm));
    [| exact H | split; [apply init_dicts_step_refl | done]].
  intros i s s' Hi%elem_of_range Hb [Hs1 Hs2].
  apply update_env_init_dicts in Hb as [Hb1 Hb2]; [| lia].
  split; [by eapply init_dicts_step_trans | congruence].
Qed.

Lemma wm_forward_effect last acts cur sp wm out wm' :
  wm_forward_for_initial_infererence last acts cur sp wm = Some (out, wm') ->
  (CacheInv wm -> CacheInv wm') /\
  past_kv_cache_recurrent_infer wm' = past_kv_cache_recurrent_infer wm /\
  init_dicts_step (default [] cur) (past_kv_cache_init_infer_envs wm)
                                   (past_kv_cache_init_infer_envs wm').
Proof.
  unfold wm_forward_for_initial_infererence. intros H.
  destruct cur as [current |].
  - destruct (bool_decide (_ <= _)); [| done].
    destruct acts as [acts |]; simpl in H; [| done].
    destruct (first_step_flag _ _) as [[|] |]; simpl in H; [| | done].
    + destruct (forward _ _ _ _) as [[o kv] |]; simpl in H; [| done].
      destruct (update_cache_context _ _ _) as [wm1 |] eqn:Eu; simpl in H; [| done].
      injection H as <- <-.
      apply update_cache_context_init_dicts in Eu as Hd. simpl in Hd.
      destruct Hd as [Hd1 Hd2]. split; [| done].
      intros Hinv. eapply update_cache_context_inv; [| exact Eu].
      eapply CacheInv_ext; [| exact Hinv]. done.
    + destruct (for_each _ _ _) as [wm1 |] eqn:E1; simpl in H; [| done].
      assert (index_state wm1 = index_state wm) as F1.
      { eapply (for_each_inv (fun s => index_state s = index_state wm));
          [| exact E1 | done].
        intros x s s' Hb Hs. apply root_lookup_env_frame in Hb. congruence. }
      destruct (trim_and_pad_kv_cache wm1) as [[sizes wm2] |] eqn:E2; simpl in H; [| done].
      apply trim_and_pad_frame in E2 as (_ & kv2 & ->).
      destruct (start_pos_take sp _) as [sp' |]; simpl in H; [| done].
      destruct (forward _ (ActTokens _) _ _) as [[o3 kv3] |]; simpl in H; [| done].
      destruct (forward _ (ObsEmbeddings _) _ _) as [[o4 kv4] |]; simpl in H; [| done].
      destruct (update_cache_context _ _ _) as [wm5 |] eqn:Eu; simpl in H; [| done].
      injection H as <- <-.
      apply update_cache_context_init_dicts in Eu as Hd. simpl in Hd.
      pose proof F1 as F1'. injection F1' as _ _ _ _ _ _ Fr Fd. rewrite Fr, Fd in Hd.
      destruct Hd as [Hd1 Hd2]. split; [| done].
      intros Hinv. eapply update_cache_context_inv; [| exact Eu].
      eapply CacheInv_ext; [| exact Hinv]. exact F1.
  - destruct acts as [acts |]; [| done].
    destruct (forward_no_cache _ _ _) as [o |]; simpl in H; [| done].
    injection H as <- <-. split; [done |]. split; [done |].
    apply init_dicts_step_refl.
Qed.

Lemma reset_effect d sp wm out latent wm' :
  reset_for_initial_inference d sp wm = Some (out, latent, wm') ->
  (CacheInv wm -> CacheInv wm') /\
  past_kv_cache_recurrent_infer wm' = past_kv_cache_recurrent_infer wm /\
  init_dicts_step latent (past_kv_cache_init_infer_envs wm)
                         (past_kv_cache_init_infer_envs wm').
Proof.
  unfold reset_for_initial_inference. intros H.
  destruct (current_obs d) as [cur |].
  - destruct (wm_forward_for_initial_infererence _ _ _ _ _) as [[o wm1] |] eqn:E;
      simpl in H; [| done].
    injection H as <- <- <-.
    apply wm_forward_effect in E as (Hi & Hr & Hd). simpl in *.
    split; [| done]. intros Hinv. apply Hi. eapply CacheInv_ext; [| exact Hinv]. done.
  - destruct (wm_forward_for_initial_infererence _ _ _ _ _) as [[o wm1] |] eqn:E;
      simpl in H; [| done].
    injection H as <- <- <-.
    apply wm_forward_effect in E as (Hi & Hr & [Hl Hd]). simpl in *.
    split; [| split; [done |]].
    + intros Hinv. apply Hi. eapply CacheInv_ext; [| exact Hinv]. done.
    + split; [done |]. intros i d' Hd'. destruct (Hd _ _ Hd') as (d0 & Hd0 & K).
      exists d0. split; [done |]. intros key. destruct (K key) as [? | (st & Hst & _)].
      * by left.
      * by rewrite lookup_nil in Hst.
Qed.

Lemma forward_initial_inference_inv d sp wm out latent wm' :
  CacheInv wm ->
  forward_initial_inference d sp wm = Some (out, latent, wm') ->
  CacheInv wm'.
Proof.
  unfold forward_initial_inference. intros Hinv H.
  destruct (reset_for_initial_inference d sp wm) as [[[o l] wm1] |] eqn:E;
    simpl in H; [| done].
  injection H as <- <- <-.
  apply reset_effect in E as (Hi & _ & _).
  destruct (Hi Hinv) as [H1 H2 H3 H4 H5 H6 H7 H8].
  split; simpl; done.
Qed.

Lemma forward_recurrent_inference_inv latest acts depth sp wm latent wm' :
  CacheInv wm ->
  forward_recurrent_inference latest acts depth sp wm = Some (latent, wm') ->
  CacheInv wm'.
Proof.
  (* the binds are inverted one by one ([bind_Some]); the states stay as
     they are written *)
  unfold forward_recurrent_inference. intros Hinv H. cbn beta iota zeta in H.
  apply bind_Some in H as ([sizes wm1] & E1 & H). cbn beta iota zeta in H.
  apply retrieve_frame in E1 as F1.
  assert (CacheInv wm1) as Hinv1.
  { eapply CacheInv_ext; [exact F1 |]. eapply CacheInv_ext; [| exact Hinv]. done. }
  clear E1 F1 Hinv.
  apply bind_Some in H as ([sizes2 wm2] & E2 & H). cbn beta iota zeta in H.
  apply trim_and_pad_frame in E2 as (_ & kv2 & ->).
  destruct (bool_decide (num_observations_tokens _ <= 0)); [discriminate H |].
  apply bind_Some in H as ([token kv3] & _ & H). cbn beta iota zeta in H.
  apply bind_Some in H as ([token' kv4] & _ & H). cbn beta iota zeta in H.
  apply bind_Some in H as (ls & _ & H). cbn beta iota zeta in H.
  apply bind_Some in H as (lat & _ & H). cbn beta iota zeta in H.
  apply bind_Some in H as (wm5 & Eu & H). cbn beta iota zeta in H.
  injection H as <- <-.
  eapply update_cache_context_inv; [| exact Eu].
  eapply CacheInv_ext; [| exact Hinv1]. reflexivity.
Qed.

Lemma clear_caches_inv wm : CacheInv wm -> CacheInv (clear_caches wm).
Proof.
  intros [H1 H2 H3 H4 H5 H6 H7 H8]. split; simpl; try done.
  - by rewrite length_map.
  - intros i d key idx Hd Hk. rewrite list_lookup_fmap in Hd.
    destruct (_ !! i); simpl in Hd; [| done]. injection Hd as <-.
    by rewrite lookup_empty in Hk.
Qed.

(** One call on the model: any of the cache operations, with any
    arguments, that returns. The stores and the per-environment update are
    called with the environment numbers the code passes them (it takes them
    from [range]). *)
Inductive step : WorldModel -> WorldModel -> Prop :=
  | step_store_init src env_id wm r wm' :
      0 <= env_id ->
      custom_copy_kv_cache_to_shared_init_envs src env_id wm = Some (r, wm') ->
      step wm wm'
  | step_store_recur src wm r wm' :
      custom_copy_kv_cache_to_shared_recur src wm = Some (r, wm') -> step wm wm'
  | step_store_wm src wm r wm' :
      custom_copy_kv_cache_to_shared_wm src wm = Some (r, wm') -> step wm wm'
  | step_trim_and_pad wm sizes wm' :
      trim_and_pad_kv_cache wm = Some (sizes, wm') -> step wm wm'
  | step_retrieve latent n sp wm sizes wm' :
      retrieve_or_generate_kvcache latent n sp wm = Some (sizes, wm') -> step wm wm'
  | step_update latent is_init wm wm' :
      update_cache_context latent is_init wm = Some wm' -> step wm wm'
  | step_initial d sp wm out latent wm' :
      forward_initial_inference d sp wm = Some (out, latent, wm') -> step wm wm'
  | step_recurrent latest acts depth sp wm latent wm' :
      forward_recurrent_inference latest acts depth sp wm = Some (latent, wm') ->
      step wm wm'
  | step_clear wm : step wm (clear_caches wm)
  | step_reanalyze b wm : step wm (set_reanalyze_phase b wm).

(** The states a model built from [cfg] can be in. *)
Definition reachable (cfg : Config) (wm : WorldModel) : Prop :=
  exists wm0, WorldModel_init cfg = Some wm0 /\ rtc step wm0 wm.

Lemma step_inv wm wm' : step wm wm' -> CacheInv wm -> CacheInv wm'.
Proof.
  intros Hs Hinv. destruct Hs.
  - by eapply store_init_inv.
  - by eapply store_recur_inv.
  - apply store_wm_spec in H as (slot & dst & pool' & _ & _ & _ & _ & _ & ->).
    eapply CacheInv_ext; [| exact Hinv]. done.
  - apply trim_and_pad_frame in H as (_ & kv & ->).
    eapply CacheInv_ext; [| exact Hinv]. done.
  - apply retrieve_frame in H. by eapply CacheInv_ext.
  - by eapply update_cache_context_inv.
  - by eapply forward_initial_inference_inv.
  - by eapply forward_recurrent_inference_inv.
  - by apply clear_caches_inv.
  - eapply CacheInv_ext; [| exact Hinv]. done.
Qed.

Lemma reachable_inv cfg wm : reachable cfg wm -> CacheInv wm.
Proof.
  intros (wm0 & Hinit & Hrtc).
  apply WorldModel_init_Some in Hinit as (dk & dv & _ & _ & ->).
  assert (forall x y, rtc step x y -> CacheInv x -> CacheInv y) as Hall.
  { intros x y Hxy. induction Hxy as [| x y z Hs _ IH]; [done |].
    intros Hx. apply IH. by eapply step_inv. }
  eapply Hall; [exact Hrtc | apply CacheInv_initial].
Qed.

(** A Python index into a list, as a position. *)
Lemma getitem_position {A} (l : list A) (i : Z) (x : A) :
  Py.getitem l i = Some x ->
  exists j : nat, l !! j = Some x /\
    forall B (l' : list B), length l' = length l -> Py.getitem l' i = l' !! j.
Proof.
  unfold Py.getitem. intros Hg.
  destruct (bool_decide (0 <= i < Z.of_nat (length l))) eqn:E1.
  - exists (Z.to_nat i). split; [done |]. intros B l' ->. by rewrite E1.
  - destruct (bool_decide (- Z.of_nat (length l) <= i < 0)) eqn:E2; [| done].
    exists (Z.to_nat (i + Z.of_nat (length l))). split; [done |].
    intros B l' ->. by rewrite E1, E2.
Qed.

(** C7. In every state the model can reach, every slot index recorded in a
    per-environment init-phase index lies in [[0, shared_pool_size_init)]
    and every slot index recorded in the shared recurrent-phase index lies
    in [[0, shared_pool_size)]; the load through a recorded index is within
    the pool and finds a context there, so it never raises an index
    error. *)
Theorem recorded_indices_in_range (cfg : Config) (wm : WorldModel) :
  reachable cfg wm ->
  (forall i d (key : string) idx,
      Py.getitem (past_kv_cache_init_infer_envs wm) i = Some d ->
      d !! key = Some idx ->
      0 <= idx < shared_pool_size_init wm /\
      exists pool kv,
        Py.getitem (shared_pool_init_infer wm) i = Some pool /\
        Z.of_nat (length pool) = shared_pool_size_init wm /\
        Py.getitem pool idx = Some (Some kv)) /\
  (forall (key : string) idx,
      past_kv_cache_recurrent_infer wm !! key = Some idx ->
      0 <= idx < shared_pool_size wm /\
      Z.of_nat (length (shared_pool_recur_infer wm)) = shared_pool_size wm /\
      exists kv, Py.getitem (shared_pool_recur_infer wm) idx = Some (Some kv)).
Proof.
  intros Hr. destruct (reachable_inv _ _ Hr) as [H1 H2 H3 H4 H5 H6 H7 H8].
  split.
  - intros i d key idx Hd Hk.
    apply getitem_position in Hd as (j & Hj & Hsame).
    destruct (H7 _ _ _ _ Hj Hk) as (Hrange & pool & kv & Hp & Hkv).
    split; [done |]. exists pool, kv.
    split; [by rewrite (Hsame _ _ (eq_sym H4)) |].
    pose proof (H5 _ _ Hp) as Hlen.
    split; [lia |].
    unfold Py.getitem. rewrite bool_decide_eq_true_2 by lia. done.
  - intros key idx Hk. destruct (H8 _ _ Hk) as (Hrange & kv & Hkv).
    split; [done |]. split; [lia |]. exists kv.
    unfold Py.getitem. rewrite bool_decide_eq_true_2 by lia. done.
Qed.

(** C10. Whenever [forward_initial_inference] returns, on a first step or
    a later one, on a hit or on a miss, with or without a current
    observation, the shared recurrent-phase index is empty; and in every
    environment's init-phase index each key still has the entry it had,
    but for the hash of the latent state this call computed for that
    environment (which the call records). *)
Theorem forward_initial_inference_clears_recurrent
    (d : ObsActDict) (sp : StartPos) (wm : WorldModel) out latent wm' :
  forward_initial_inference d sp wm = Some (out, latent, wm') ->
  past_kv_cache_recurrent_infer wm' = ∅ /\
  length (past_kv_cache_init_infer_envs wm') = length (past_kv_cache_init_infer_envs wm) /\
  (forall (i : nat) d',
      past_kv_cache_init_infer_envs wm' !! i = Some d' ->
      exists d0,
        past_kv_cache_init_infer_envs wm !! i = Some d0 /\
        forall key : string,
          d' !! key = d0 !! key \/
          exists st, latent !! i = Some st /\ key = hash_state st).
Proof.
  unfold forward_initial_inference. intros H.
  destruct (reset_for_initial_inference d sp wm) as [[[o l] wm1] |] eqn:E;
    simpl in H; [| done].
  injection H as <- <- <-.
  apply reset_effect in E as (_ & _ & [Hl Hd]). simpl. done.
Qed.

(* ===================================================================== *)
(** ** Trim-and-pad *)
(* ===================================================================== *)

Lemma foldl_max_le (l : list Z) : forall x,
  x <= foldl Z.max x l /\ forall y, y ∈ l -> y <= foldl Z.max x l.
Proof.
  induction l as [| a l IH]; intros x; simpl.
  - split; [lia |]. intros y Hy. by apply elem_of_nil in Hy.
  - destruct (IH (Z.max x a)) as [H1 H2]. split; [lia |].
    intros y Hy. apply elem_of_cons in Hy as [-> | Hy]; [lia | eauto].
Qed.

Lemma max_upper (l : list Z) (m : Z) :
  Py.max l = Some m -> forall y, y ∈ l -> y <= m.
Proof.
  destruct l as [| x l]; simpl; intros H y Hy; [done |]. injection H as <-.
  destruct (foldl_max_le l x) as [H1 H2].
  apply elem_of_cons in Hy as [-> | Hy]; eauto.
Qed.









(* ===================================================================== *)
(** ** Store and lookup together *)
(* ===================================================================== *)

(** What the cache operations keep apart from the pools and the indices:
    the configuration, the phase flag, the working lists and their pool,
    the latent state and the counters. *)
Definition book_state (wm : WorldModel) :=
  (config wm, reanalyze_phase wm, pos_emb_diff_k wm, pos_emb_diff_v wm,
   keys_values_wm_list wm, keys_values_wm_size_list wm,
   keys_values_wm_size_list_current wm, latent_state wm,
   hit_count wm, total_query_count wm, root_hit_cnt wm, root_total_query_cnt wm,
   shared_pool_size_wm wm, shared_pool_wm wm, shared_pool_index_wm wm).

Lemma set_single_env_layer_book layer k v wm wm' :
  set_single_env_layer layer k v wm = Some wm' -> book_state wm' = book_state wm.
Proof. intros H. apply set_single_env_layer_spec in H as (_ & ? & _ & ->). done. Qed.

Lemma update_layer_internal_book i trim_size size_i layer wm wm' :
  update_layer_internal i trim_size size_i layer wm = Some wm' ->
  book_state wm' = book_state wm.
Proof.
  unfold update_layer_internal. intros H.
  destruct (Py.getitem (_keys_values (keys_values_wm wm)) layer) as [l |];
    simpl in H; [| done].
  destruct (Py.getitem (_cache (_k_cache l)) i) as [k_cur |]; simpl in H; [| done].
  destruct (Py.getitem (_cache (_v_cache l)) i) as [v_cur |]; simpl in H; [| done].
  destruct (set_single_env_layer _ _ _ wm) as [wm1 |] eqn:E1; simpl in H; [| done].
  apply set_single_env_layer_book in E1.
  destruct (bool_decide (size_i >= _)); [| congruence].
  destruct (shrink _ layer false _) as [[k_new k_view] |]; simpl in H; [| done].
  destruct (shrink _ layer true _) as [[v_new v_view] |]; simpl in H; [| done].
  destruct (if bool_decide (trim_size > 0) then _ else _) as [kv_wm |];
    simpl in H; [| done].
  apply set_single_env_layer_book in H. rewrite H. exact E1.
Qed.

Lemma update_layer_root_book i layer wm wm' :
  update_layer_root i layer wm = Some wm' -> book_state wm' = book_state wm.
Proof.
  unfold update_layer_root. intros H.
  destruct (Py.getitem (_keys_values (keys_values_wm wm)) layer) as [l |];
    simpl in H; [| done].
  destruct (Py.getitem (_cache (_k_cache l)) i) as [k_cur |]; simpl in H; [| done].
  destruct (Py.getitem (_cache (_v_cache l)) i) as [v_cur |]; simpl in H; [| done].
  destruct (bool_decide (_size _ < _)).
  - by apply set_single_env_layer_book in H.
  - destruct (shrink _ layer false _) as [[k_new k_view] |]; simpl in H; [| done].
    destruct (shrink _ layer true _) as [[v_new v_view] |]; simpl in H; [| done].
    destruct (write_rows _ _ _ _ _) as [kv_wm |]; simpl in H; [| done].
    by apply set_single_env_layer_book in H.
Qed.

Lemma update_env_book latent is_init (i : Z) wm wm' :
  update_cache_context_env latent is_init i wm = Some wm' ->
  book_state wm' = book_state wm.
Proof.
  unfold update_cache_context_env. intros H.
  destruct (Py.getitem latent i) as [st |] eqn:Est; simpl in H; [| done].
  destruct is_init; simpl in H.
  - destruct (for_each _ _ wm) as [wm_a |] eqn:Ea; simpl in H; [| done].
    assert (book_state wm_a = book_state wm) as Hfr.
    { eapply (for_each_inv (fun s => book_state s = book_state wm)); [| exact Ea | done].
      intros x s s' Hb Hs. apply update_layer_root_book in Hb. congruence. }
    destruct (custom_copy_kv_cache_to_shared_init_envs _ _ _) as [[r wm_b] |] eqn:Es;
      simpl in H; [| done].
    apply store_init_spec in Es
      as (pool & cursor & slot & dst & pool' & pools' & cursors' &
          _ & _ & _ & _ & _ & _ & _ & _ & -> & ->).
    simpl in H.
    destruct (Py.getitem (past_kv_cache_init_infer_envs wm_a) i) as [d |];
      simpl in H; [| done].
    destruct (Py.setitem _ _ _) as [ds |]; simpl in H; [| done].
    injection H as <-. exact Hfr.
  - destruct (keys_values_wm_size_list_current wm) as [sizes |]; simpl in H; [| done].
    destruct (Py.max sizes) as [m |]; simpl in H; [| done].
    destruct (Py.getitem sizes i) as [size_i |]; simpl in H; [| done].
    destruct (for_each _ _ wm) as [wm_a |] eqn:Ea; simpl in H; [| done].
    assert (book_state wm_a = book_state wm) as Hfr.
    { eapply (for_each_inv (fun s => book_state s = book_state wm)); [| exact Ea | done].
      intros x s s' Hb Hs. apply update_layer_internal_book in Hb. congruence. }
    destruct (custom_copy_kv_cache_to_shared_recur _ _) as [[r wm_b] |] eqn:Es;
      simpl in H; [| done].
    apply store_recur_spec in Es as (slot & dst & pool' & _ & _ & _ & _ & -> & ->).
    simpl in H. injection H as <-. exact Hfr.
Qed.

Lemma update_cache_context_book latent is_init wm wm' :
  update_cache_context latent is_init wm = Some wm' ->
  book_state wm' = book_state wm.
Proof.
  unfold update_cache_context. intros H.
  case_bool_decide; [by simplify_eq |].
  eapply (for_each_inv (fun s => book_state s = book_state wm)); [| exact H | done].
  intros x s s' Hb Hs. apply update_env_book in Hb. congruence.
Qed.



(** X3. A store into the recurrent pool writes the slot at the cursor and
    nothing else: every other slot, the other pools and both hash indices
    are as they were. So a key recorded for the slot at the cursor stays
    recorded, and after the store it leads to the context stored last. *)
Theorem recur_store_writes_one_slot (src : KeysValues) (wm : WorldModel)
    (r : StoreResult) (wm' : WorldModel) :
  custom_copy_kv_cache_to_shared_recur src wm = Some (r, wm') ->
  0 <= shared_pool_index wm ->
  (forall n : nat, Z.of_nat n <> shared_pool_index wm ->
      shared_pool_recur_infer wm' !! n = shared_pool_recur_infer wm !! n) /\
  length (shared_pool_recur_infer wm') = length (shared_pool_recur_infer wm) /\
  shared_pool_init_infer wm' = shared_pool_init_infer wm /\
  shared_pool_wm wm' = shared_pool_wm wm /\
  past_kv_cache_recurrent_infer wm' = past_kv_cache_recurrent_infer wm /\
  past_kv_cache_init_infer_envs wm' = past_kv_cache_init_infer_envs wm /\
  (forall (key : string) j d,
      reanalyze_phase wm = false ->
      past_kv_cache_recurrent_infer wm !! key = Some (shared_pool_index wm) ->
      Py.getitem (past_kv_cache_init_infer_envs wm) j = Some d ->
      d !! key = None ->
      exists dst,
        lookup_kvcache wm' j key = Some (Some dst) /\
        forall (n : nat) l, _keys_values src !! n = Some l ->
          (n < length (_keys_values dst))%nat -> _keys_values dst !! n = Some l).
Proof.
  intros H Hcur.
  apply store_recur_spec in H as (slot & dst & pool' & Hslot & Hcopy & Hpool' & _ & _ & ->).
  simpl.
  pose proof (getitem_setitem_eq _ _ _ _ Hpool') as Hg.
  apply getitem_range in Hg as Hr.
  apply setitem_nonneg in Hpool' as Hins; [| done]. rewrite Hins in *.
  split; [| split; [by rewrite length_insert |]].
  { intros n Hn. apply list_lookup_insert_ne. lia. }
  do 4 (split; [done |]).
  intros key j d Hre Hkey Hd Hk.
  exists dst. split; [| by apply copy_into_slot_layers with (slot := slot)].
  unfold lookup_kvcache. simpl. rewrite Hre, Hd. simpl. rewrite Hk. simpl.
  rewrite Hkey. rewrite bool_decide_eq_true_2 by lia. exact Hg.
Qed.

(* ===================================================================== *)
(** ** Bookkeeping of the retrieval and of the recurrent inference *)
(* ===================================================================== *)

(** The two outcomes of the loop body of [retrieve_or_generate_kvcache]:
    a hit appends a slot of the working pool and the matched size, a miss
    appends a fresh context and the size 1 and leaves the working pool
    alone; either way one query is counted. *)
Lemma retrieve_env_outcome latent sp index wm wm' :
  retrieve_or_generate_env latent sp index wm = Some wm' ->
  config wm' = config wm /\
  reanalyze_phase wm' = reanalyze_phase wm /\
  latent_state wm' = latent_state wm /\
  total_query_count wm' = total_query_count wm + 1 /\
  ((hit_count wm' = hit_count wm + 1 /\ reanalyze_phase wm = false /\
    exists size,
      keys_values_wm_list wm'
      = keys_values_wm_list wm ++ [WmSlot (shared_pool_index_wm wm)] /\
      keys_values_wm_size_list wm' = keys_values_wm_size_list wm ++ [size]) \/
   (hit_count wm' = hit_count wm /\
    shared_pool_wm wm' = shared_pool_wm wm /\
    shared_pool_index_wm wm' = shared_pool_index_wm wm /\
    exists kv,
      keys_values_wm_list wm' = keys_values_wm_list wm ++ [Fresh kv] /\
      keys_values_wm_size_list wm' = keys_values_wm_size_list wm ++ [1])).
Proof.
  unfold retrieve_or_generate_env. intros H. cbn beta iota zeta in H.
  apply bind_Some in H as (st & _ & H). cbn beta iota zeta in H.
  apply bind_Some in H as (m & Em & H). cbn beta iota zeta in H.
  destruct m as [kv |].
  - assert (reanalyze_phase wm = false) as Hre.
    { unfold lookup_kvcache in Em. simpl in Em.
      destruct (reanalyze_phase wm); [discriminate Em | done]. }
    unfold append_hit in H.
    apply bind_Some in H as ([r wm1] & Es & H). cbn beta iota zeta in H.
    apply store_wm_spec in Es as (slot & dst & pool' & _ & _ & _ & _ & -> & ->).
    simpl in H. destruct (KeysValues_size kv) as [size |]; simpl in H; [| done].
    injection H as <-. simpl. do 4 (split; [done |]). left.
    split; [done |]. split; [done |]. by exists size.
  - apply bind_Some in H as (p & _ & H).
    unfold append_miss in H. cbn beta iota zeta in H.
    apply bind_Some in H as ([out kv] & _ & H). cbn beta iota zeta in H.
    injection H as <-. simpl. do 4 (split; [done |]). right.
    do 3 (split; [done |]). by exists kv.
Qed.

Lemma retrieve_loop_counts latent sp l : forall wm wm',
  for_each (retrieve_or_generate_env latent sp) l wm = Some wm' ->
  config wm' = config wm /\
  reanalyze_phase wm' = reanalyze_phase wm /\
  latent_state wm' = latent_state wm /\
  total_query_count wm' = total_query_count wm + Z.of_nat (length l) /\
  hit_count wm <= hit_count wm' <= hit_count wm + Z.of_nat (length l) /\
  length (keys_values_wm_list wm') = (length (keys_values_wm_list wm) + length l)%nat /\
  length (keys_values_wm_size_list wm')
  = (length (keys_values_wm_size_list wm) + length l)%nat.
Proof.
  induction l as [| x l IH]; intros wm wm' H; simpl in H.
  - injection H as <-. simpl. repeat split; lia.
  - apply bind_Some in H as (wm1 & E1 & H).
    apply retrieve_env_outcome in E1 as (C1 & R1 & L1 & T1 & O1).
    apply IH in H as (C2 & R2 & L2 & T2 & H2 & K2 & S2).
    assert (hit_count wm <= hit_count wm1 <= hit_count wm + 1 /\
            length (keys_values_wm_list wm1) = S (length (keys_values_wm_list wm)) /\
            length (keys_values_wm_size_list wm1)
            = S (length (keys_values_wm_size_list wm))) as (H1 & K1 & S1).
    { destruct O1 as [(Hh & _ & size & -> & ->) | (Hh & _ & _ & kv & -> & ->)];
        rewrite !length_app; simpl; lia. }
    simpl. repeat split; try congruence; lia.
Qed.

(** X4. [retrieve_or_generate_kvcache] over [ready_env_num] environments
    counts exactly one query and at most one hit per environment, appends
    exactly one context and one size per environment, and returns the size
    list it has built. *)
Theorem retrieve_bookkeeping (latent : list Latent) (n : Z) (sp : StartPos)
    (wm : WorldModel) (sizes : list Z) (wm' : WorldModel) :
  0 <= n ->
  retrieve_or_generate_kvcache latent n sp wm = Some (sizes, wm') ->
  sizes = keys_values_wm_size_list wm' /\
  total_query_count wm' = total_query_count wm + n /\
  hit_count wm <= hit_count wm' <= hit_count wm + n /\
  Z.of_nat (length (keys_values_wm_list wm'))
  = Z.of_nat (length (keys_values_wm_list wm)) + n /\
  Z.of_nat (length sizes) = Z.of_nat (length (keys_values_wm_size_list wm)) + n.
Proof.
  intros Hn H. unfold retrieve_or_generate_kvcache in H.
  apply bind_Some in H as (wm1 & E & H). injection H as <- <-.
  apply retrieve_loop_counts in E as (_ & _ & _ & T & Hh & K & S).
  unfold range in *. rewrite length_map, length_seq in *.
  split; [done |]. repeat split; lia.
Qed.

Lemma retrieve_loop_reanalyze latent sp l : forall wm wm',
  reanalyze_phase wm = true ->
  for_each (retrieve_or_generate_env latent sp) l wm = Some wm' ->
  hit_count wm' = hit_count wm /\
  shared_pool_wm wm' = shared_pool_wm wm /\
  shared_pool_index_wm wm' = shared_pool_index_wm wm /\
  keys_values_wm_size_list wm' = keys_values_wm_size_list wm ++ replicate (length l) 1 /\
  exists kvs,
    length kvs = length l /\
    keys_values_wm_list wm' = keys_values_wm_list wm ++ map Fresh kvs.
Proof.
  induction l as [| x l IH]; intros wm wm' Hre H; simpl in H.
  - injection H as <-. simpl. rewrite app_nil_r. do 4 (split; [done |]).
    exists []. by rewrite app_nil_r.
  - apply bind_Some in H as (wm1 & E1 & H).
    apply retrieve_env_outcome in E1 as (_ & R1 & _ & _ & O1).
    destruct O1 as [(_ & Hf & _) | (Hh & P1 & I1 & kv & K1 & S1)]; [congruence |].
    apply IH in H as (H2 & P2 & I2 & S2 & kvs & Hlen & K2); [| congruence].
    split; [congruence |]. split; [congruence |]. split; [congruence |].
    split.
    + rewrite S2, S1, <- app_assoc. done.
    + exists (kv :: kvs). split; [simpl; lia |].
      rewrite K2, K1, <- app_assoc. done.
Qed.

(** X5. In the reanalyze phase [retrieve_or_generate_kvcache] never uses a
    stored context: no hit is counted, nothing is copied into the working
    pool, every environment gets a context freshly generated by a forward
    pass, and every returned size is 1. *)
Theorem reanalyze_phase_regenerates (latent : list Latent) (n : Z) (sp : StartPos)
    (wm : WorldModel) (sizes : list Z) (wm' : WorldModel) :
  reanalyze_phase wm = true ->
  retrieve_or_generate_kvcache latent n sp wm = Some (sizes, wm') ->
  hit_count wm' = hit_count wm /\
  shared_pool_wm wm' = shared_pool_wm wm /\
  shared_pool_index_wm wm' = shared_pool_index_wm wm /\
  sizes = keys_values_wm_size_list wm ++ replicate (Z.to_nat n) 1 /\
  exists kvs,
    length kvs = Z.to_nat n /\
    keys_values_wm_list wm' = keys_values_wm_list wm ++ map Fresh kvs.
Proof.
  intros Hre H. unfold retrieve_or_generate_kvcache in H.
  apply bind_Some in H as (wm1 & E & H). injection H as <- <-.
  apply retrieve_loop_reanalyze in E; [| done].
  unfold range in E. rewrite length_map, length_seq in E. exact E.
Qed.

(** X6. The alignment of [trim_and_pad_kv_cache] and the realignment of
    [update_cache_context] are inverse on the valid part: a buffer
    front-padded by [p] positions and then realigned by [p] is the buffer
    with its last [p] positions zeroed, hence the buffer itself when these
    were zero (as they are beyond the stored size). *)
Theorem realign_undoes_front_pad (p : Z) (t : list (list V)) :
  0 < p ->
  (forall r, r ∈ t -> p <= Z.of_nat (length r)) ->
  exists t',
    front_pad p [t] = [t'] /\
    realign p t'
    = map (fun r => take (length r - Z.to_nat p) r ++ replicate (Z.to_nat p) vzero) t /\
    ((forall r, r ∈ t -> drop (length r - Z.to_nat p) r = replicate (Z.to_nat p) vzero) ->
     realign p t' = t).
Proof.
  intros Hp Hlen.
  exists (pad_seq3 p 0 (slice_seq3 None (Some (- p)) t)).
  assert (realign p (pad_seq3 p 0 (slice_seq3 None (Some (- p)) t))
          = map (fun r => take (length r - Z.to_nat p) r ++ replicate (Z.to_nat p) vzero) t)
    as Hr.
  { unfold realign. rewrite bool_decide_eq_true_2 by lia.
    unfold pad_seq3, slice_seq3, Py.repeat_. rewrite !map_map.
    apply map_ext_in. intros r Hr%list_elem_of_In. apply Hlen in Hr.
    simpl. rewrite app_nil_r.
    rewrite slice_from by lia. rewrite slice_drop_last by lia.
    rewrite drop_app_length'; [done |]. rewrite length_replicate. done. }
  split; [| split; [exact Hr |]].
  - unfold front_pad. rewrite bool_decide_eq_true_2 by lia. done.
  - intros Hz. rewrite Hr.
    transitivity (map (fun r : list V => r) t); [| apply map_id].
    apply map_ext_in. intros r Hin%list_elem_of_In.
    rewrite <- (Hz r Hin). apply take_drop.
Qed.

(** X7. With no ready environment the size list stays empty, the maximum
    of the empty list raises in [trim_and_pad_kv_cache], and so
    [forward_recurrent_inference] on an empty batch raises. *)
Theorem empty_batch_raises (acts : list Action) (depth : list Z) (sp : StartPos)
    (wm : WorldModel) :
  forward_recurrent_inference [] acts depth sp wm = None /\
  (forall wm0, keys_values_wm_size_list wm0 = [] -> trim_and_pad_kv_cache wm0 = None) /\
  retrieve_or_generate_kvcache [] 0 sp
    (set_keys_values_wm_size_list [] (set_keys_values_wm_list [] wm))
  = Some ([], set_keys_values_wm_size_list [] (set_keys_values_wm_list [] wm)).
Proof.
  split; [reflexivity |]. split; [| reflexivity].
  intros wm0 H. unfold trim_and_pad_kv_cache. rewrite H. reflexivity.
Qed.

(** X8. What [forward_recurrent_inference] leaves when it returns: one
    working context and one size per environment of the batch, the current
    sizes two above the sizes retrieved (one action token and one
    observation token were appended), and the returned latent state stored
    as [latent_state]. *)
Theorem recurrent_inference_bookkeeping (latest : list Latent) (acts : list Action)
    (depth : list Z) (sp : StartPos) (wm : WorldModel) (latent : list Latent)
    (wm' : WorldModel) :
  forward_recurrent_inference latest acts depth sp wm = Some (latent, wm') ->
  length (keys_values_wm_list wm') = length latest /\
  length (keys_values_wm_size_list wm') = length latest /\
  keys_values_wm_size_list_current wm'
  = Some (map (Z.add 2) (keys_values_wm_size_list wm')) /\
  latent_state wm' = Some latent /\
  total_query_count wm' = total_query_count wm + Z.of_nat (length latest) /\
  hit_count wm <= hit_count wm' <= hit_count wm + Z.of_nat (length latest).
Proof.
  unfold forward_recurrent_inference. intros H. cbn beta iota zeta in H.
  apply bind_Some in H as ([sizes wm1] & E1 & H). cbn beta iota zeta in H.
  unfold retrieve_or_generate_kvcache in E1.
  apply bind_Some in E1 as (wm1' & E1 & Hret). injection Hret as <- <-.
  apply retrieve_loop_counts in E1 as (_ & _ & _ & T1 & H1 & K1 & S1).
  unfold range in T1, H1, K1, S1. rewrite length_map, length_seq in T1, H1, K1, S1.
  simpl in T1, H1, K1, S1.
  apply bind_Some in H as ([sizes2 wm2] & E2 & H). cbn beta iota zeta in H.
  apply trim_and_pad_frame in E2 as (-> & kv2 & ->).
  destruct (bool_decide (num_observations_tokens _ <= 0)); [discriminate H |].
  apply bind_Some in H as ([token kv3] & _ & H). cbn beta iota zeta in H.
  apply bind_Some in H as ([token' kv4] & _ & H). cbn beta iota zeta in H.
  apply bind_Some in H as (ls & _ & H). cbn beta iota zeta in H.
  apply bind_Some in H as (lat & _ & H). cbn beta iota zeta in H.
  apply bind_Some in H as (wm5 & Eu & H). cbn beta iota zeta in H.
  injection H as <- <-.
  apply update_cache_context_book in Eu. unfold book_state in Eu. simpl in Eu.
  injection Eu as _ _ _ _ -> -> -> -> -> -> _ _ _ _ _.
  split; [lia |]. split; [lia |].
  split; [| split; [done |]; split; lia].
  f_equal. rewrite map_map. apply map_ext. intros a. lia.
Qed.

(* ===================================================================== *)
(** ** A window too short to memoize *)
(* ===================================================================== *)

Lemma append_hit_config kv wm wm' :
  append_hit kv wm = Some wm' -> config wm' = config wm.
Proof.
  unfold append_hit. intros H.
  destruct (custom_copy_kv_cache_to_shared_wm kv wm) as [[r wm1] |] eqn:E;
    simpl in H; [| done].
  apply store_wm_spec in E as (slot & dst & pool' & _ & _ & _ & _ & -> & ->).
  simpl in H. destruct (KeysValues_size kv); simpl in H; [| done].
  by injection H as <-.
Qed.

Lemma append_miss_config st p wm wm' :
  append_miss st p wm = Some wm' -> config wm' = config wm.
Proof.
  unfold append_miss. simpl. intros H.
  destruct (forward _ _ _ _) as [[out kv] |]; simpl in H; [| done].
  by injection H as <-.
Qed.

Lemma root_lookup_env_config last sp i wm wm' :
  root_lookup_env last sp i wm = Some wm' -> config wm' = config wm.
Proof.
  unfold root_lookup_env. intros H.
  destruct (Py.getitem last i) as [st |]; simpl in H; [| done].
  destruct (Py.getitem (past_kv_cache_init_infer_envs wm) i) as [d |];
    simpl in H; [| done].
  destruct (match d !! hash_state st with Some _ => _ | None => _ end)
    as [[kv |] |]; simpl in H; [| | done].
  - by apply append_hit_config in H.
  - destruct (start_pos_item sp i) as [p |]; simpl in H; [| done].
    by apply append_miss_config in H.
Qed.

Lemma update_cache_context_short latent is_init wm :
  context_length (config wm) <= 2 -> update_cache_context latent is_init wm = Some wm.
Proof. intros H. unfold update_cache_context. by rewrite bool_decide_eq_true_2. Qed.

Lemma wm_forward_short last acts cur sp wm out wm' :
  context_length (config wm) <= 2 ->
  wm_forward_for_initial_infererence last acts cur sp wm = Some (out, wm') ->
  index_state wm' = index_state wm.
Proof.
  unfold wm_forward_for_initial_infererence. intros HL H.
  destruct cur as [current |].
  - destruct (bool_decide (_ <= _)); [| done].
    destruct acts as [acts |]; simpl in H; [| done].
    destruct (first_step_flag _ _) as [[|] |]; simpl in H; [| | done].
    + destruct (forward _ _ _ _) as [[o kv] |]; simpl in H; [| done].
      rewrite update_cache_context_short in H by exact HL.
      simpl in H. by injection H as <- <-.
    + destruct (for_each _ _ _) as [wm1 |] eqn:E1; simpl in H; [| done].
      assert (index_state wm1 = index_state wm /\ config wm1 = config wm) as [F1 C1].
      { eapply (for_each_inv (fun s => index_state s = index_state wm /\
                                       config s = config wm));
          [| exact E1 | done].
        intros x s s' Hb [Hs1 Hs2].
        apply root_lookup_env_frame in Hb as Hb1. apply root_lookup_env_config in Hb.
        split; congruence. }
      destruct (trim_and_pad_kv_cache wm1) as [[sizes wm2] |] eqn:E2; simpl in H; [| done].
      apply trim_and_pad_frame in E2 as (_ & kv2 & ->).
      destruct (start_pos_take sp _) as [sp' |]; simpl in H; [| done].
      destruct (forward _ (ActTokens _) _ _) as [[o3 kv3] |]; simpl in H; [| done].
      destruct (forward _ (ObsEmbeddings _) _ _) as [[o4 kv4] |]; simpl in H; [| done].
      rewrite update_cache_context_short in H by (simpl; rewrite C1; exact HL).
      simpl in H. injection H as <- <-. exact F1.
  - destruct acts as [acts |]; [| done].
    destruct (forward_no_cache _ _ _) as [o |]; simpl in H; [| done].
    by injection H as <- <-.
Qed.

(** X9. With [context_length <= 2] nothing is ever memoized:
    [update_cache_context] returns at once, so an initial inference leaves
    the init-phase pools, cursors and indices as they were, a recurrent
    inference leaves the recurrent pool, cursor and index as they were, and
    construction builds no positional table. *)
Theorem short_context_memoizes_nothing (wm : WorldModel) :
  context_length (config wm) <= 2 ->
  (forall latent is_init, update_cache_context latent is_init wm = Some wm) /\
  (forall d sp out latent wm',
      forward_initial_inference d sp wm = Some (out, latent, wm') ->
      past_kv_cache_init_infer_envs wm' = past_kv_cache_init_infer_envs wm /\
      shared_pool_init_infer wm' = shared_pool_init_infer wm /\
      shared_pool_index_init_envs wm' = shared_pool_index_init_envs wm) /\
  (forall latest acts depth sp latent wm',
      forward_recurrent_inference latest acts depth sp wm = Some (latent, wm') ->
      past_kv_cache_recurrent_infer wm' = past_kv_cache_recurrent_infer wm /\
      shared_pool_recur_infer wm' = shared_pool_recur_infer wm /\
      shared_pool_index wm' = shared_pool_index wm) /\
  (forall wm0,
      WorldModel_init (config wm) = Some wm0 ->
      pos_emb_diff_k wm0 = None /\ pos_emb_diff_v wm0 = None).
Proof.
  intros HL. split; [| split; [| split]].
  - intros latent is_init. by apply update_cache_context_short.
  - intros d sp out latent wm' H.
    unfold forward_initial_inference in H.
    apply bind_Some in H as ([[o l] wm1] & E & H). injection H as <- <- <-.
    unfold reset_for_initial_inference in E.
    destruct (current_obs d) as [cur |];
      apply bind_Some in E as ([o' wm2] & E & H); injection H as _ _ ->;
      apply wm_forward_short in E; [| exact HL | | exact HL];
      simpl; unfold index_state in E; simpl in E;
      injection E as _ _ _ _ -> -> _ ->; done.
  - intros latest acts depth sp latent wm' H.
    unfold forward_recurrent_inference in H. cbn beta iota zeta in H.
    apply bind_Some in H as ([sizes wm1] & E1 & H). cbn beta iota zeta in H.
    apply retrieve_frame in E1 as F1.
    unfold retrieve_or_generate_kvcache in E1.
    apply bind_Some in E1 as (wm1' & E1 & Hret). injection Hret as _ <-.
    apply retrieve_loop_counts in E1 as (C1 & _). simpl in C1.
    apply bind_Some in H as ([sizes2 wm2] & E2 & H). cbn beta iota zeta in H.
    apply trim_and_pad_frame in E2 as (_ & kv2 & ->).
    destruct (bool_decide (num_observations_tokens _ <= 0)); [discriminate H |].
    apply bind_Some in H as ([token kv3] & _ & H). cbn beta iota zeta in H.
    apply bind_Some in H as ([token' kv4] & _ & H). cbn beta iota zeta in H.
    apply bind_Some in H as (ls & _ & H). cbn beta iota zeta in H.
    apply bind_Some in H as (lat & _ & H). cbn beta iota zeta in H.
    apply bind_Some in H as (wm5 & Eu & H). cbn beta iota zeta in H.
    injection H as _ <-.
    rewrite update_cache_context_short in Eu by (simpl; rewrite C1; exact HL).
    injection Eu as <-. simpl.
    unfold index_state in F1. simpl in F1.
    injection F1 as _ -> -> _ _ _ -> _. done.
  - intros wm0 H0.
    apply WorldModel_init_Some in H0 as (dk & dv & Hk & Hv & ->). simpl.
    unfold precompute_pos_emb_diff_kv in Hk, Hv.
    rewrite bool_decide_eq_true_2 in Hk, Hv by exact HL.
    destruct (rotary_emb (config wm)); by simplify_eq.
Qed.

(* ===================================================================== *)
(** ** The copy helpers of utils.py *)
(* ===================================================================== *)


(** [custom_copy_kv_cache_to_dict(src_kv, dst_dict, cache_key,
    reuse_cache)]: the dictionary as the call leaves it. *)
Definition custom_copy_kv_cache_to_dict (src_kv : KeysValues)
    (dst_dict : gmap string KeysValues) (cache_key : string) (reuse_cache : bool)
  : option (gmap string KeysValues) :=
  if reuse_cache && bool_decide (is_Some (dst_dict !! cache_key)) then Some dst_dict
  else
    l0 ← Py.getitem (_keys_values src_kv) 0;
    let '(n, h, s) := shape4 (_cache (_k_cache l0)) in
    let dst_kv := KeysValues_new n h s (Z.of_nat (length (_keys_values src_kv))) in
    layers ← copy_layers (_keys_values src_kv) (_keys_values dst_kv);
    Some (<[cache_key := mkKeysValues layers]> dst_dict).

(** [custom_copy_kv_cache_to_dict_speed]: the same steps between the
    timers and the prints. *)
Definition custom_copy_kv_cache_to_dict_speed (src_kv : KeysValues)
    (dst_dict : gmap string KeysValues) (cache_key : string) (reuse_cache : bool)
  : option (gmap string KeysValues) :=
  if reuse_cache && bool_decide (is_Some (dst_dict !! cache_key)) then Some dst_dict
  else
    l0 ← Py.getitem (_keys_values src_kv) 0;
    let '(n, h, s) := shape4 (_cache (_k_cache l0)) in
    let dst_kv := KeysValues_new n h s (Z.of_nat (length (_keys_values src_kv))) in
    layers ← copy_layers (_keys_values src_kv) (_keys_values dst_kv);
    Some (<[cache_key := mkKeysValues layers]> dst_dict).

(** Every buffer of the context has the extents of a zero tensor of the
    shape of the first layer's key buffer. *)
Definition same_shape_throughout (kv : KeysValues) : Prop :=
  exists l0,
    _keys_values kv !! 0%nat = Some l0 /\
    forall l, l ∈ _keys_values kv ->
      dims4 (_cache (_k_cache l))
      = dims4 (zeros4 (shape4 (_cache (_k_cache l0))).1.1
                      (shape4 (_cache (_k_cache l0))).1.2
                      (shape4 (_cache (_k_cache l0))).2) /\
      dims4 (_cache (_v_cache l))
      = dims4 (zeros4 (shape4 (_cache (_k_cache l0))).1.1
                      (shape4 (_cache (_k_cache l0))).1.2
                      (shape4 (_cache (_k_cache l0))).2).


Lemma copy_layers_same_shape (k v : Cache) src (n : nat) :
  (forall l, l ∈ src ->
     dims4 (_cache (_k_cache l)) = dims4 (_cache k) /\
     dims4 (_cache (_v_cache l)) = dims4 (_cache v)) ->
  n = length src ->
  copy_layers src (replicate n (mkKVCache k v)) = Some src.
Proof.
  revert n. induction src as [| s src IH]; intros n Hs ->; simpl; [done |].
  destruct (Hs s) as [Hk Hv]; [by left |].
  unfold copy_cache. simpl. rewrite !bool_decide_eq_true_2 by done. simpl.
  rewrite IH; [| intros l Hl; apply Hs; by right | done].
  simpl. by destruct s as [[] []].
Qed.


Lemma fresh_copy_some (src : KeysValues) l0 :
  _keys_values src !! 0%nat = Some l0 ->
  same_shape_throughout src ->
  copy_layers (_keys_values src)
    (_keys_values (KeysValues_new (shape4 (_cache (_k_cache l0))).1.1
                                  (shape4 (_cache (_k_cache l0))).1.2
                                  (shape4 (_cache (_k_cache l0))).2
                                  (Z.of_nat (length (_keys_values src)))))
  = Some (_keys_values src).
Proof.
  intros H0 (l0' & H0' & Hall). rewrite H0 in H0'. injection H0' as <-.
  unfold KeysValues_new, Py.repeat_. simpl _keys_values. rewrite Nat2Z.id.
  apply copy_layers_same_shape; [| done]. intros l Hl. by apply Hall.
Qed.


(** X12. [custom_copy_kv_cache_to_dict] with [reuse_cache]: the first
    write of a key wins (a later call for the same key changes nothing and
    does not even look at its source), whereas without [reuse_cache] the
    later call replaces the entry by a copy of its source; other keys are
    never touched; and the timed variant computes the same dictionary. *)
Theorem custom_copy_kv_cache_to_dict_reuse (src1 src2 : KeysValues)
    (dst_dict d1 : gmap string KeysValues) (cache_key : string) (reuse1 : bool) :
  custom_copy_kv_cache_to_dict src1 dst_dict cache_key reuse1 = Some d1 ->
  custom_copy_kv_cache_to_dict src2 d1 cache_key true = Some d1 /\
  (same_shape_throughout src2 ->
   custom_copy_kv_cache_to_dict src2 d1 cache_key false = Some (<[cache_key := src2]> d1)) /\
  (dst_dict !! cache_key = None -> same_shape_throughout src1 ->
   d1 = <[cache_key := src1]> dst_dict) /\
  (is_Some (dst_dict !! cache_key) -> reuse1 = true -> d1 = dst_dict) /\
  (forall other, other <> cache_key -> d1 !! other = dst_dict !! other) /\
  custom_copy_kv_cache_to_dict_speed src1 dst_dict cache_key reuse1 = Some d1.
Proof.
  intros H.
  assert (forall src d r,
            r && bool_decide (is_Some (d !! cache_key)) = false ->
            same_shape_throughout src ->
            custom_copy_kv_cache_to_dict src d cache_key r
            = Some (<[cache_key := src]> d)) as Hwrite.
  { intros src d r Hb Hs. unfold custom_copy_kv_cache_to_dict. rewrite Hb.
    pose proof Hs as (l0 & H0 & _).
    assert (Py.getitem (_keys_values src) 0 = Some l0) as E0.
    { by rewrite (getitem_lookup _ 0). }
    rewrite E0. cbn [mbind option_bind].
    pose proof (fresh_copy_some src l0 H0 Hs) as Hc.
    destruct (shape4 (_cache (_k_cache l0))) as [[n h] s]. cbn [fst snd] in Hc.
    cbn beta iota zeta. rewrite Hc. simpl. by destruct src. }
  assert ((reuse1 && bool_decide (is_Some (dst_dict !! cache_key)) = true /\
           d1 = dst_dict) \/
          (reuse1 && bool_decide (is_Some (dst_dict !! cache_key)) = false /\
           exists kv, d1 = <[cache_key := kv]> dst_dict)) as Hcases.
  { unfold custom_copy_kv_cache_to_dict in H.
    destruct (reuse1 && _) eqn:Eb; [left; by simplify_eq | right].
    apply bind_Some in H as (l0 & _ & H).
    destruct (shape4 (_cache (_k_cache l0))) as [[n h] s].
    apply bind_Some in H as (layers & _ & H). injection H as <-.
    split; [done |]. by eexists. }
  assert (is_Some (d1 !! cache_key)) as Hin.
  { destruct Hcases as [[Hb ->] | [_ [kv ->]]].
    - apply andb_true_iff in Hb as [_ Hb]. by apply bool_decide_eq_true_1 in Hb.
    - rewrite lookup_insert_eq. by eexists. }
  split; [| split; [| split; [| split; [| split]]]].
  - unfold custom_copy_kv_cache_to_dict. simpl. by rewrite bool_decide_eq_true_2.
  - intros Hs. by apply Hwrite.
  - intros Hnone Hs.
    assert (reuse1 && bool_decide (is_Some (dst_dict !! cache_key)) = false) as Hb.
    { rewrite bool_decide_eq_false_2; [by destruct reuse1 |].
      rewrite Hnone. by intros [? ?]. }
    rewrite (Hwrite _ _ _ Hb Hs) in H. by injection H as <-.
  - intros Hsome ->. unfold custom_copy_kv_cache_to_dict in H.
    rewrite bool_decide_eq_true_2 in H by done. simpl in H. by injection H as <-.
  - intros other Hne. destruct Hcases as [[_ ->] | [_ [kv ->]]]; [done |].
    by rewrite lookup_insert_ne.
  - exact H.
Qed.

(* ===================================================================== *)
(** ** The shrink writes through; the first-step test *)
(* ===================================================================== *)

Lemma setitem_same {A} (l l' : list A) (i : Z) (x : A) :
  Py.getitem l i = Some x -> Py.setitem l i x = Some l' -> l' = l.
Proof.
  unfold Py.getitem, Py.setitem.
  repeat case_bool_decide; intros Hg Hs; simplify_eq; by apply list_insert_id.
Qed.

Lemma shrink_view wm layer value cur new view :
  shrink wm layer value cur = Some (new, view) ->
  exists span,
    correct_span wm layer value
      (slice_seq3 (Some 2) (Some (context_length (config wm) - 1)) cur)
    = Some (span, negb (rotary_emb (config wm))) /\
    new = pad_seq3 0 3 span /\
    view = if rotary_emb (config wm) then cur
           else set_slice_seq3 (Some 2) (Some (context_length (config wm) - 1)) span cur.
Proof.
  unfold shrink. intros H.
  apply bind_Some in H as ([span written] & Ec & H). injection H as <- <-.
  apply correct_span_spec in Ec as Hs. destruct Hs as (-> & _ & _).
  exists span. split; [done |]. split; [done |].
  by destruct (rotary_emb (config wm)).
Qed.

(** X10. At a root, when the batched cache has reached
    [context_length - 1], the shrink of environment [i] also changes the
    batched cache: the retained span is a view of row [i], so without rotary
    embeddings the positional correction added in place shows in positions
    [[2, context_length - 1)] of that row (the sizes stay); with rotary
    embeddings nothing is added and the batched cache is as it was. *)
Theorem root_shrink_writes_through (wm : WorldModel) (i layer : Z) (l : KVCache)
    (wm' : WorldModel) :
  KeysValues_getitem (keys_values_wm wm) layer = Some l ->
  _size (_k_cache l) >= context_length (config wm) - 1 ->
  update_layer_root i layer wm = Some wm' ->
  let L := context_length (config wm) in
  exists k_cur v_cur k_span v_span l',
    Py.getitem (_cache (_k_cache l)) i = Some k_cur /\
    Py.getitem (_cache (_v_cache l)) i = Some v_cur /\
    correct_span wm layer false (slice_seq3 (Some 2) (Some (L - 1)) k_cur)
    = Some (k_span, negb (rotary_emb (config wm))) /\
    correct_span wm layer true (slice_seq3 (Some 2) (Some (L - 1)) v_cur)
    = Some (v_span, negb (rotary_emb (config wm))) /\
    KeysValues_getitem (keys_values_wm wm') layer = Some l' /\
    _size (_k_cache l') = _size (_k_cache l) /\
    _size (_v_cache l') = _size (_v_cache l) /\
    Py.getitem (_cache (_k_cache l')) i
    = Some (if rotary_emb (config wm) then k_cur
            else set_slice_seq3 (Some 2) (Some (L - 1)) k_span k_cur) /\
    Py.getitem (_cache (_v_cache l')) i
    = Some (if rotary_emb (config wm) then v_cur
            else set_slice_seq3 (Some 2) (Some (L - 1)) v_span v_cur) /\
    (rotary_emb (config wm) = true -> keys_values_wm wm' = keys_values_wm wm).
Proof.
  intros Hl Hsize H L. unfold KeysValues_getitem in Hl.
  unfold update_layer_root in H. rewrite Hl in H. cbn [mbind option_bind] in H.
  apply bind_Some in H as (k_cur & Ek & H).
  apply bind_Some in H as (v_cur & Ev & H).
  rewrite bool_decide_eq_false_2 in H by lia.
  apply bind_Some in H as ([k_new k_view] & Esk & H). cbn beta iota zeta in H.
  apply bind_Some in H as ([v_new v_view] & Esv & H). cbn beta iota zeta in H.
  apply bind_Some in H as (kv_wm & Ew & H).
  apply set_single_env_layer_spec in H as (_ & layers' & _ & ->).
  apply shrink_view in Esk as (k_span & Eck & _ & ->).
  apply shrink_view in Esv as (v_span & Ecv & _ & ->).
  unfold write_rows in Ew. rewrite Hl in Ew. cbn [mbind option_bind] in Ew.
  apply bind_Some in Ew as (k & Esetk & Ew).
  apply bind_Some in Ew as (v & Esetv & Ew).
  apply bind_Some in Ew as (ls & Esetl & Ew). injection Ew as <-.
  exists k_cur, v_cur, k_span, v_span,
    (mkKVCache (mkCache k (_size (_k_cache l))) (mkCache v (_size (_v_cache l)))).
  do 4 (split; [done |]). simpl.
  split; [unfold KeysValues_getitem; simpl; by eapply getitem_setitem_eq |].
  split; [done |]. split; [done |].
  split; [by eapply getitem_setitem_eq |].
  split; [by eapply getitem_setitem_eq |].
  intros Hrot. rewrite Hrot in Esetk, Esetv.
  apply (setitem_same _ _ _ _ Ek) in Esetk as ->.
  apply (setitem_same _ _ _ _ Ev) in Esetv as ->.
  assert (mkKVCache (mkCache (_cache (_k_cache l)) (_size (_k_cache l)))
                    (mkCache (_cache (_v_cache l)) (_size (_v_cache l))) = l) as Hsame
    by (by destruct l as [[] []]).
  rewrite Hsame in Esetl. apply (setitem_same _ _ _ _ Hl) in Esetl as ->.
  by destruct (keys_values_wm wm).
Qed.

(** X18. The first-step test of [wm_forward_for_initial_infererence] in a
    discrete action space is [max(batch_action) == -1]: for a batch of
    actions that are all [-1] or above, it holds exactly when the batch is
    not empty and every action is [-1], so one environment with a real
    action makes the whole batch continue; an empty batch raises. In a
    continuous action space only the first action is looked at. *)
Theorem first_step_is_all_minus_one (cfg : Config) (zs : list Z) :
  (forall z, z ∈ zs -> -1 <= z) ->
  (continuous_action_space cfg = false ->
   (zs = [] -> first_step_flag cfg (map ActScalar zs) = None) /\
   (zs <> [] ->
    exists b, first_step_flag cfg (map ActScalar zs) = Some b /\
      (b = true <-> forall z, z ∈ zs -> z = -1))) /\
  (continuous_action_space cfg = true ->
   forall a rest,
     first_step_flag cfg (a :: rest)
     = Some (match a with ActArray _ => false | ActScalar _ => true end)).
Proof.
  intros Hvalid. split.
  - intros Hd. unfold first_step_flag. rewrite Hd.
    assert (mapM (fun a => match a with ActScalar z => Some z | ActArray _ => None end)
                 (map ActScalar zs) = Some zs) as ->.
    { clear. induction zs as [| z zs IH]; simpl; [done |]. rewrite IH. done. }
    cbn [mbind option_bind]. split; [by intros -> |].
    intros Hne. destruct zs as [| z0 zs']; [done |].
    destruct (Py.max (z0 :: zs')) as [m |] eqn:Em; [| done].
    cbn [mbind option_bind]. eexists. split; [reflexivity |].
    pose proof (max_upper _ _ Em) as Hup.
    assert (m ∈ z0 :: zs') as Hin.
    { clear -Em. simpl in Em. injection Em as <-.
      revert z0. induction zs' as [| z zs IH]; intros z0; simpl; [by left |].
      pose proof (IH (Z.max z0 z)) as Hx. apply elem_of_cons in Hx as [Hh | Ht].
      - rewrite Hh. destruct (Z.max_spec z0 z) as [[_ ->] | [_ ->]].
        + right. by left.
        + by left.
      - right. by right. }
    rewrite bool_decide_eq_true. split.
    + intros -> z Hz. pose proof (Hup z Hz). pose proof (Hvalid z Hz). lia.
    + intros Hall. by apply Hall.
  - intros Hc a rest. unfold first_step_flag. rewrite Hc. done.
Qed.

(* ===================================================================== *)
(** ** From an initial inference to the search *)
(* ===================================================================== *)

(** The init-phase index of environment [i] leads from [key] to a stored
    context. *)
Definition init_hit (wm : WorldModel) (i : Z) (key : string) : Prop :=
  exists d idx pool kv,
    Py.getitem (past_kv_cache_init_infer_envs wm) i = Some d /\
    d !! key = Some idx /\
    Py.getitem (shared_pool_init_infer wm) i = Some pool /\
    Py.getitem pool idx = Some (Some kv).

Lemma init_hit_lookup wm i key :
  reanalyze_phase wm = false -> init_hit wm i key ->
  exists kv, lookup_kvcache wm i key = Some (Some kv).
Proof.
  intros Hre (d & idx & pool & kv & Hd & Hk & Hp & Hkv).
  exists kv. unfold lookup_kvcache. rewrite Hre, Hd. simpl. rewrite Hk, Hp. simpl.
  by rewrite Hkv.
Qed.

Lemma init_hit_ext wm wm' i key :
  past_kv_cache_init_infer_envs wm' = past_kv_cache_init_infer_envs wm ->
  shared_pool_init_infer wm' = shared_pool_init_infer wm ->
  init_hit wm i key -> init_hit wm' i key.
Proof. unfold init_hit. by intros -> ->. Qed.

Lemma getitem_setitem_ne {A} (l l' : list A) (i j : Z) (x : A) :
  0 <= i -> 0 <= j -> i <> j ->
  Py.setitem l j x = Some l' -> Py.getitem l' i = Py.getitem l i.
Proof.
  intros Hi Hj Hne Hs. apply setitem_nonneg in Hs as ->; [| done].
  unfold Py.getitem. rewrite length_insert.
  repeat case_bool_decide; try done; try lia.
  apply list_lookup_insert_ne. lia.
Qed.

Lemma update_env_init_hit latent (i : Z) wm wm' st :
  update_cache_context_env latent true i wm = Some wm' ->
  Py.getitem latent i = Some st ->
  init_hit wm' i (hash_state st).
Proof.
  intros H Hst.
  apply update_env_spec in H
    as (st' & wm_a & idx & wm_b & Hst' & _ & Hs & d & ds & Hd & Hds & ->).
  rewrite Hst in Hst'. injection Hst' as <-.
  apply store_init_spec in Hs
    as (pool & cursor & slot & dst & pool' & pools' & cursors' &
        Hp & Hc & Hslot & Hcopy & Hpool' & Hpools' & _ & _ & Hidx & ->).
  injection Hidx as ->. simpl in *.
  exists (<[hash_state st := cursor]> d), cursor, pool', dst. simpl.
  split; [by eapply getitem_setitem_eq |]. split; [apply lookup_insert_eq |].
  split; by eapply getitem_setitem_eq.
Qed.

Lemma update_env_init_hit_other latent (i j : Z) wm wm' key :
  0 <= i -> 0 <= j -> i <> j ->
  update_cache_context_env latent true j wm = Some wm' ->
  init_hit wm i key -> init_hit wm' i key.
Proof.
  intros Hi Hj Hne H (d0 & idx0 & pool0 & kv0 & Hd0 & Hk0 & Hp0 & Hkv0).
  apply update_env_spec in H
    as (st' & wm_a & idx & wm_b & _ & Hfr & Hs & d & ds & Hd & Hds & ->).
  apply store_init_spec in Hs
    as (pool & cursor & slot & dst & pool' & pools' & cursors' &
        _ & _ & _ & _ & _ & Hpools' & _ & _ & _ & ->).
  unfold index_state in Hfr. injection Hfr as _ _ _ _ Fp _ _ Fd.
  simpl in *. rewrite Fd in Hds. rewrite Fp in Hpools'.
  exists d0, idx0, pool0, kv0. simpl.
  rewrite (getitem_setitem_ne _ _ _ _ _ Hi Hj Hne Hds).
  rewrite (getitem_setitem_ne _ _ _ _ _ Hi Hj Hne Hpools'). done.
Qed.

(** X19. Round trip for a whole batch at a root: after
    [update_cache_context(latent_state, is_init_infer=True)] on a window
    longer than 2, outside the reanalyze phase, the lookup of every
    environment of the batch for its own latent state hits. *)
Theorem root_update_then_lookup_hits (latent : list Latent) (wm wm' : WorldModel) :
  2 < context_length (config wm) ->
  reanalyze_phase wm = false ->
  update_cache_context latent true wm = Some wm' ->
  forall (i : nat) st,
    latent !! i = Some st ->
    exists kv, lookup_kvcache wm' (Z.of_nat i) (hash_state st) = Some (Some kv).
Proof.
  intros HL Hre H i st Hst.
  apply update_cache_context_book in H as Hbook.
  unfold book_state in Hbook. injection Hbook as _ Hre' _ _ _ _ _ _ _ _ _ _ _ _ _.
  apply init_hit_lookup; [congruence |].
  unfold update_cache_context in H. rewrite bool_decide_eq_false_2 in H by lia.
  apply lookup_lt_Some in Hst as Hlt.
  eapply (for_each_post
            (fun x s => forall st, Py.getitem latent x = Some st ->
                                   init_hit s x (hash_state st)));
    [apply NoDup_range | | | exact H | | by rewrite getitem_lookup].
  - intros x s s' _ Hb st0 Hst0. by eapply update_env_init_hit.
  - intros x y s s' Hx%elem_of_range Hy%elem_of_range Hne Hb Hq st0 Hst0.
    eapply update_env_init_hit_other; [| | | exact Hb |]; [lia | lia | done | by apply Hq].
  - apply elem_of_range. unfold Latent in *. lia.
Qed.

Lemma root_lookup_env_phase last sp i wm wm' :
  root_lookup_env last sp i wm = Some wm' ->
  config wm' = config wm /\ reanalyze_phase wm' = reanalyze_phase wm.
Proof.
  unfold root_lookup_env. intros H.
  apply bind_Some in H as (st & _ & H).
  apply bind_Some in H as (d & _ & H).
  apply bind_Some in H as (m & _ & H). cbn beta iota zeta in H.
  destruct m as [kv |].
  - unfold append_hit in H.
    apply bind_Some in H as ([r wm1] & Es & H). cbn beta iota zeta in H.
    apply store_wm_spec in Es as (slot & dst & pool' & _ & _ & _ & _ & -> & ->).
    simpl in H. destruct (KeysValues_size kv) as [size |]; simpl in H; [| done].
    by injection H as <-.
  - apply bind_Some in H as (p & _ & H).
    unfold append_miss in H. cbn beta iota zeta in H.
    apply bind_Some in H as ([out kv] & _ & H). cbn beta iota zeta in H.
    by injection H as <-.
Qed.

(** What an initial inference with a current observation ends with: the
    root update on the latent states it returns. *)
Lemma initial_inference_ends_with_update d sp wm out latent wm' cur :
  current_obs d = Some cur ->
  forward_initial_inference d sp wm = Some (out, latent, wm') ->
  latent = encode_to_obs_embeddings cur /\
  exists wm_x wm_u,
    config wm_x = config wm /\
    reanalyze_phase wm_x = reanalyze_phase wm /\
    update_cache_context latent true wm_x = Some wm_u /\
    wm' = set_past_kv_cache_recurrent_infer ∅ wm_u.
Proof.
  intros Hcur H. unfold forward_initial_inference in H.
  apply bind_Some in H as ([[o l] wm1] & E & H). injection H as <- <- <-.
  unfold reset_for_initial_inference in E. rewrite Hcur in E.
  apply bind_Some in E as ([o' wm2] & E & H). injection H as <- <- <-.
  split; [done |].
  unfold wm_forward_for_initial_infererence in E.
  destruct (bool_decide (_ <= _)); [| done].
  destruct (action d) as [acts |]; simpl in E; [| done].
  destruct (first_step_flag _ _) as [[|] |]; simpl in E; [| | done].
  - destruct (forward _ _ _ _) as [[o1 kv] |]; simpl in E; [| done].
    apply bind_Some in E as (wm_u & Eu & E). injection E as <- <-.
    eexists _, wm_u. split; [| split; [| split; [exact Eu | done]]]; done.
  - destruct (for_each _ _ _) as [wm1 |] eqn:E1; simpl in E; [| done].
    assert (config wm1 = config wm /\ reanalyze_phase wm1 = reanalyze_phase wm) as [C1 R1].
    { eapply (for_each_inv (fun s => config s = config wm /\
                                     reanalyze_phase s = reanalyze_phase wm));
        [| exact E1 | done].
      intros x s s' Hb [Hs1 Hs2]. apply root_lookup_env_phase in Hb as [? ?].
      split; congruence. }
    destruct (trim_and_pad_kv_cache wm1) as [[sizes wm3] |] eqn:E2; simpl in E; [| done].
    apply trim_and_pad_frame in E2 as (_ & kv2 & ->).
    destruct (start_pos_take sp _) as [sp' |]; simpl in E; [| done].
    destruct (forward _ (ActTokens _) _ _) as [[o3 kv3] |]; simpl in E; [| done].
    destruct (forward _ (ObsEmbeddings _) _ _) as [[o4 kv4] |]; simpl in E; [| done].
    apply bind_Some in E as (wm_u & Eu & E). injection E as <- <-.
    eexists _, wm_u. split; [| split; [| split; [exact Eu | done]]]; done.
Qed.

Lemma retrieve_env_hit latent sp index wm wm' st :
  retrieve_or_generate_env latent sp index wm = Some wm' ->
  Py.getitem latent index = Some st ->
  reanalyze_phase wm = false ->
  init_hit wm index (hash_state st) ->
  hit_count wm' = hit_count wm + 1.
Proof.
  intros H Hst Hre Hhit.
  unfold retrieve_or_generate_env in H. cbn beta iota zeta in H.
  rewrite Hst in H. cbn [mbind option_bind] in H.
  destruct (init_hit_lookup
              (set_total_query_count (total_query_count wm + 1) wm) index (hash_state st))
    as (kv & Hl); [done | by eapply init_hit_ext; [| | exact Hhit] |].
  rewrite Hl in H. cbn [mbind option_bind] in H.
  unfold append_hit in H.
  apply bind_Some in H as ([r wm1] & Es & H). cbn beta iota zeta in H.
  apply store_wm_spec in Es as (slot & dst & pool' & _ & _ & _ & _ & -> & ->).
  simpl in H. destruct (KeysValues_size kv) as [size |]; simpl in H; [| done].
  by injection H as <-.
Qed.

Lemma retrieve_loop_all_hit latent sp l : forall wm wm',
  reanalyze_phase wm = false ->
  (forall x st, x ∈ l -> Py.getitem latent x = Some st -> init_hit wm x (hash_state st)) ->
  for_each (retrieve_or_generate_env latent sp) l wm = Some wm' ->
  hit_count wm' = hit_count wm + Z.of_nat (length l).
Proof.
  induction l as [| x l IH]; intros wm wm' Hre Hhit H; simpl in H.
  - injection H as <-. simpl. lia.
  - apply bind_Some in H as (wm1 & E1 & H).
    assert (exists st, Py.getitem latent x = Some st) as [st Hst].
    { unfold retrieve_or_generate_env in E1. cbn beta iota zeta in E1.
      apply bind_Some in E1 as (st & Hst & _). by exists st. }
    apply retrieve_env_frame in E1 as F1.
    apply retrieve_env_outcome in E1 as O1. destruct O1 as (_ & R1 & _).
    eapply retrieve_env_hit in E1; [| exact Hst | exact Hre | apply Hhit; [by left | done]].
    unfold index_state in F1. injection F1 as _ _ _ _ Fp _ _ Fd.
    apply IH in H; [| congruence |].
    + rewrite H, E1. simpl length. lia.
    + intros y sty Hy Hsty. eapply init_hit_ext; [exact Fd | exact Fp |].
      apply Hhit; [by right | done].
Qed.

(** X20. Memoization from the root to the search: after an initial
    inference with a current observation (window longer than 2, outside the
    reanalyze phase), a recurrent inference on the latent states it
    returned finds a stored context for every environment: each query is a
    hit. *)
Theorem initial_then_recurrent_hits (d : ObsActDict) (sp sp' : StartPos)
    (wm wm1 wm2 : WorldModel) (cur : Obs) (out latent latent' : list Latent)
    (acts : list Action) (depth : list Z) :
  2 < context_length (config wm) ->
  reanalyze_phase wm = false ->
  current_obs d = Some cur ->
  forward_initial_inference d sp wm = Some (out, latent, wm1) ->
  forward_recurrent_inference latent acts depth sp' wm1 = Some (latent', wm2) ->
  hit_count wm2 = hit_count wm1 + Z.of_nat (length latent) /\
  total_query_count wm2 = total_query_count wm1 + Z.of_nat (length latent).
Proof.
  intros HL Hre Hcur Hinit Hrec.
  apply initial_inference_ends_with_update with (cur := cur) in Hinit as Hend; [| done].
  destruct Hend as (_ & wm_x & wm_u & Cx & Rx & Eu & ->).
  apply update_cache_context_book in Eu as Hbook.
  unfold book_state in Hbook. injection Hbook as _ Hre' _ _ _ _ _ _ _ _ _ _ _ _ _.
  assert (forall (i : nat) st, latent !! i = Some st ->
            init_hit wm_u (Z.of_nat i) (hash_state st)) as Hhits.
  { intros i st Hst.
    unfold update_cache_context in Eu.
    rewrite bool_decide_eq_false_2 in Eu by (rewrite Cx; lia).
    apply lookup_lt_Some in Hst as Hlt.
    eapply (for_each_post
              (fun x s => forall st, Py.getitem latent x = Some st ->
                                     init_hit s x (hash_state st)));
      [apply NoDup_range | | | exact Eu | | by rewrite getitem_lookup].
    - intros x s s' _ Hb st0 Hst0. by eapply update_env_init_hit.
    - intros x y s s' Hx%elem_of_range Hy%elem_of_range Hne Hb Hq st0 Hst0.
      eapply update_env_init_hit_other; [| | | exact Hb |]; [lia | lia | done | by apply Hq].
    - apply elem_of_range. unfold Latent in *. lia. }
  unfold forward_recurrent_inference in Hrec. cbn beta iota zeta in Hrec.
  apply bind_Some in Hrec as ([sizes wm3] & E1 & Hrec). cbn beta iota zeta in Hrec.
  unfold retrieve_or_generate_kvcache in E1.
  apply bind_Some in E1 as (wm3' & E1 & Hret). injection Hret as <- <-.
  pose proof (retrieve_loop_counts _ _ _ _ _ E1) as (_ & _ & _ & T1 & _).
  apply retrieve_loop_all_hit in E1; [| simpl; congruence |].
  2: { intros x st Hx%elem_of_range Hst.
       eapply init_hit_ext with (wm := wm_u); [done | done |].
       rewrite <- (Z2Nat.id x) by lia. apply Hhits.
       rewrite <- getitem_lookup, Z2Nat.id by lia. exact Hst. }
  simpl in E1, T1. unfold range in E1, T1.
  rewrite length_map, length_seq, Nat2Z.id in E1, T1.
  apply bind_Some in Hrec as ([sizes2 wm4] & E2 & Hrec). cbn beta iota zeta in Hrec.
  apply trim_and_pad_frame in E2 as (_ & kv2 & ->).
  destruct (bool_decide (num_observations_tokens _ <= 0)); [discriminate Hrec |].
  apply bind_Some in Hrec as ([token kv3] & _ & Hrec). cbn beta iota zeta in Hrec.
  apply bind_Some in Hrec as ([token' kv4] & _ & Hrec). cbn beta iota zeta in Hrec.
  apply bind_Some in Hrec as (ls & _ & Hrec). cbn beta iota zeta in Hrec.
  apply bind_Some in Hrec as (lat & _ & Hrec). cbn beta iota zeta in Hrec.
  apply bind_Some in Hrec as (wm5 & Eu5 & Hrec). cbn beta iota zeta in Hrec.
  injection Hrec as _ <-.
  apply update_cache_context_book in Eu5. unfold book_state in Eu5. simpl in Eu5.
  injection Eu5 as _ _ _ _ _ _ _ _ -> -> _ _ _ _ _.
  split; [exact E1 | exact T1].
Qed.

End WorldModel.

(* ===================================================================== *)
(** ** A small model to run the code on *)
(* ===================================================================== *)

(** Feature rows are integers here; two environments, one layer, one head,
    a window of 6 positions, no rotary embeddings. *)
Definition cfg0 : Config :=
  {| context_length := 6; num_layers := 1; num_heads := 1; env_num := 2;
     num_simulations := 1; num_observations_tokens := 1;
     rotary_emb := false; continuous_action_space := false |}.

(** The same with rotary embeddings. *)
Definition cfg_rotary : Config :=
  {| context_length := 6; num_layers := 1; num_heads := 1; env_num := 2;
     num_simulations := 1; num_observations_tokens := 1;
     rotary_emb := true; continuous_action_space := false |}.

(** A positional projection over 8 positions: position [p] holds
    [10 * p] for keys and [100 * p] for values. *)
Definition pe0 (layer : Z) (value : bool) : list (list (list Z)) :=
  [[map (fun p => (if value then 100 else 10) * p) (range 8)]].

(** A stand-in for the sequence model: the pass writes one position (the
    value 7) at the fill size of every buffer and advances the size by
    one; it answers the latent states it was given, or one byte per
    action. *)
Definition toy_bump (c : @Cache Z) : @Cache Z :=
  mkCache (map (map (fun row => <[Z.to_nat (_size c) := 7]> row)) (_cache c))
          (_size c + 1).

Definition toy_forward (wm : @WorldModel Z) (input : ForwardInput)
    (kv : @KeysValues Z) (args : ForwardArgs) : option (list Latent * @KeysValues Z) :=
  Some (match input with
        | ObsEmbeddings e => e
        | ActTokens a => map (fun _ => [x2a]) a
        | ObsEmbeddingsAndActTokens e _ => e
        end,
        mkKeysValues
          (map (fun l => mkKVCache (toy_bump (_k_cache l)) (toy_bump (_v_cache l)))
               (_keys_values kv))).

Definition toy_forward_no_cache (wm : @WorldModel Z) (input : ForwardInput)
    (args : ForwardArgs) : option (list Latent) :=
  Some [].

(** Observations are their own embeddings. *)
Definition toy_encode (o : list Latent) : list Latent := o.

(** The model as constructed. *)
Definition wm0 : @WorldModel Z :=
  default (initial_attributes 0 cfg0 None None) (WorldModel_init 0 Z.sub pe0 cfg0).

Definition wm0_rotary : @WorldModel Z :=
  default (initial_attributes 0 cfg_rotary None None)
          (WorldModel_init 0 Z.sub pe0 cfg_rotary).

Example wm0_init : WorldModel_init 0 Z.sub pe0 cfg0 = Some wm0.
Proof. vm_compute. reflexivity. Qed.

Example wm0_rotary_init : WorldModel_init 0 Z.sub pe0 cfg_rotary = Some wm0_rotary.
Proof. vm_compute. reflexivity. Qed.

(** Two latent states, and single-environment contexts of sizes 1 and 2. *)
Definition st_a : Latent := [x01; x02; x03; x04].
Definition st_b : Latent := [x0a; x0b; x0c; x0d].

Definition kv_of (row : list Z) (size : Z) : @KeysValues Z :=
  mkKeysValues [mkKVCache (mkCache [[row]] size) (mkCache [[map (Z.mul 2) row]] size)].

Definition kv_a : @KeysValues Z := kv_of [1; 0; 0; 0; 0; 0] 1.
Definition kv_b : @KeysValues Z := kv_of [5; 6; 0; 0; 0; 0] 2.

(** The working list as [retrieve_or_generate_kvcache] leaves it for two
    environments of sizes 1 and 2. *)
Definition wm_two_sizes : @WorldModel Z :=
  set_keys_values_wm_size_list [1; 2]
    (set_keys_values_wm_list [Fresh kv_a; Fresh kv_b] wm0).

Example trim_and_pad_two_sizes :
  (p ← trim_and_pad_kv_cache 0 wm_two_sizes;
   Some (p.1, _keys_values (keys_values_wm p.2)))
  = Some ([1; 2],
          [mkKVCache (mkCache [[[0; 1; 0; 0; 0; 0]]; [[5; 6; 0; 0; 0; 0]]] 2)
                     (mkCache [[[0; 2; 0; 0; 0; 0]]; [[10; 12; 0; 0; 0; 0]]] 2)]).
Proof. vm_compute. reflexivity. Qed.


(* ===================================================================== *)
(** ** Runs of the small model *)
(* ===================================================================== *)

(** A first step of an episode (all actions -1) for two environments. *)
Definition obs1 : @ObsActDict (list Latent) :=
  mkObsActDict [st_a; st_b] (Some [ActScalar (-1); ActScalar (-1)]) (Some [st_a; st_b]).

Definition run1 :=
  forward_initial_inference 0 Z.add toy_encode toy_forward toy_forward_no_cache
    obs1 (PosList [0; 0]) wm0.
Definition out1 : list Latent := default [] ((fun r => r.1.1) <$> run1).
Definition latent1 : list Latent := default [] ((fun r => r.1.2) <$> run1).
Definition wm1 : @WorldModel Z := default wm0 (snd <$> run1).

(** One simulation step from the two roots. *)
Definition run2 :=
  forward_recurrent_inference 0 Z.add toy_forward
    [st_a; st_b] [ActScalar 0; ActScalar 1] [] (PosList [0; 0]) wm1.
Definition latent2 : list Latent := default [] (fst <$> run2).
Definition wm2 : @WorldModel Z := default wm1 (snd <$> run2).

(** The next step of the episode: both environments arrive at [st_b]. *)
Definition obs3 : @ObsActDict (list Latent) :=
  mkObsActDict [st_a; st_b] (Some [ActScalar 0; ActScalar 1]) (Some [st_b; st_b]).

Definition run3 :=
  forward_initial_inference 0 Z.add toy_encode toy_forward toy_forward_no_cache
    obs3 (PosList [1; 1]) wm2.
Definition out3 : list Latent := default [] ((fun r => r.1.1) <$> run3).
Definition latent3 : list Latent := default [] ((fun r => r.1.2) <$> run3).
Definition wm3 : @WorldModel Z := default wm2 (snd <$> run3).

(** And once more from the same pair of last observations: environment 0
    finds the context of size 1 stored for [st_a], environment 1 the
    context of size 3 stored for [st_b]. *)
Definition run4 :=
  forward_initial_inference 0 Z.add toy_encode toy_forward toy_forward_no_cache
    obs3 (PosList [2; 2]) wm3.
Definition wm4 : @WorldModel Z := default wm3 (snd <$> run4).

Example run1_returns :
  forward_initial_inference 0 Z.add toy_encode toy_forward toy_forward_no_cache
    obs1 (PosList [0; 0]) wm0
  = Some (out1, latent1, wm1).
Proof. vm_compute. reflexivity. Qed.

Example run2_returns :
  forward_recurrent_inference 0 Z.add toy_forward
    [st_a; st_b] [ActScalar 0; ActScalar 1] [] (PosList [0; 0]) wm1
  = Some (latent2, wm2).
Proof. vm_compute. reflexivity. Qed.

Example run3_returns :
  forward_initial_inference 0 Z.add toy_encode toy_forward toy_forward_no_cache
    obs3 (PosList [1; 1]) wm2
  = Some (out3, latent3, wm3).
Proof. vm_compute. reflexivity. Qed.

Example run4_returns : (snd <$> run4) = Some wm4.
Proof. vm_compute. reflexivity. Qed.

(** A batched cache whose only layer is full up to [context_length - 1]. *)
Definition wm_full : @WorldModel Z :=
  set_keys_values_wm
    (mkKeysValues
       [mkKVCache (mkCache [[[1; 2; 3; 4; 5; 0]]; [[11; 12; 13; 14; 15; 0]]] 5)
                  (mkCache [[[21; 22; 23; 24; 25; 0]]; [[31; 32; 33; 34; 35; 0]]] 5)])
    wm0.

Definition wm_shrunk : @WorldModel Z :=
  default wm_full (update_layer_root 0 Z.add 0 0 wm_full).

Example wm_full_shrinks : update_layer_root 0 Z.add 0 0 wm_full = Some wm_shrunk.
Proof. vm_compute. reflexivity. Qed.

(** The shrunk single-environment layer: positions 2, 3, 4 of the batched
    row with the table entry added (here -20 for keys and -200 for values),
    three zero positions behind them, size 3. *)
Example wm_shrunk_layer :
  KeysValues_getitem (keys_values_wm_single_env wm_shrunk) 0
  = Some (mkKVCache (mkCache [[[-17; -16; -15; 0; 0; 0]]] 3)
                    (mkCache [[[-177; -176; -175; 0; 0; 0]]] 3)).
Proof. vm_compute. reflexivity. Qed.

(* ===================================================================== *)
(** ** The theorems at the small model *)
(* ===================================================================== *)





Lemma pool_fifo_witness :
  0 < 2 /\
  Z.of_nat (length [kv_a; kv_b; kv_a]) = 2 + 1 /\
  exists rs wm',
    store_all_recur 0 [kv_a; kv_b; kv_a] wm0 = Some (rs, wm') /\
    rs !! 2%nat = rs !! 0%nat /\
    rs !! 0%nat = Some (Index 0) /\
    rs !! 1%nat = Some (Index 1) /\
    NoDup (take 2 rs).
Proof.
  assert (0 < 2) as HC by lia.
  assert (Z.of_nat (length [kv_a; kv_b; kv_a]) = 2 + 1) as Hlen by reflexivity.
  split; [exact HC |]. split; [exact Hlen |].
  destruct (pool_fifo 0 Z.sub pe0 2 [kv_a; kv_b; kv_a] wm0 HC Hlen) as (Hrec & _ & _).
  destruct (store_all_recur 0 [kv_a; kv_b; kv_a] wm0) as [[rs wm'] |] eqn:E;
    [| vm_compute in E; discriminate].
  destruct (Hrec rs wm') as (H1 & H2 & H3 & H4).
  - vm_compute. reflexivity.
  - vm_compute. reflexivity.
  - reflexivity.
  - exists rs, wm'. split; [reflexivity |]. split; [exact H1 |]. split; [exact H2 |].
    split; [apply (H4 1); lia | exact H3].
Defined.




Lemma recorded_indices_in_range_witness :
  reachable 0 Z.add Z.sub toy_encode toy_forward toy_forward_no_cache pe0 cfg0 wm2 /\
  past_kv_cache_recurrent_infer wm2 !! hash_state [x2a] = Some 1 /\
  0 <= 1 < shared_pool_size wm2 /\
  exists kv, Py.getitem (shared_pool_recur_infer wm2) 1 = Some (Some kv).
Proof.
  assert (reachable 0 Z.add Z.sub toy_encode toy_forward toy_forward_no_cache pe0 cfg0 wm2)
    as Hreach.
  { exists wm0. split; [exact wm0_init |].
    eapply rtc_l; [eapply step_initial; exact run1_returns |].
    eapply rtc_l; [eapply step_recurrent; exact run2_returns |].
    apply rtc_refl. }
  assert (past_kv_cache_recurrent_infer wm2 !! hash_state [x2a] = Some 1) as Hkey
    by (vm_compute; reflexivity).
  split; [exact Hreach |]. split; [exact Hkey |].
  destruct (recorded_indices_in_range 0 Z.add Z.sub toy_encode toy_forward
              toy_forward_no_cache pe0 cfg0 wm2 Hreach) as [_ Hrecur].
  destruct (Hrecur _ _ Hkey) as (Hrange & _ & Hkv).
  split; [exact Hrange | exact Hkv].
Defined.

Lemma clear_caches_empties_witness :
  past_kv_cache_recurrent_infer wm2 !! hash_state [x2a] = Some 1 /\
  past_kv_cache_recurrent_infer (clear_caches wm2) !! hash_state [x2a] = None /\
  lookup_kvcache (clear_caches wm2) 0 (hash_state st_a) = Some None.
Proof.
  split; [vm_compute; reflexivity |].
  destruct (clear_caches_empties wm2) as (_ & _ & _ & _ & Hrecur & _ & _).
  split; [apply Hrecur | vm_compute; reflexivity].
Defined.


Lemma forward_initial_inference_clears_recurrent_witness :
  forward_initial_inference 0 Z.add toy_encode toy_forward toy_forward_no_cache
    obs3 (PosList [1; 1]) wm2
  = Some (out3, latent3, wm3) /\
  past_kv_cache_recurrent_infer wm2 !! hash_state [x2a] = Some 1 /\
  past_kv_cache_recurrent_infer wm3 = ∅ /\
  length (past_kv_cache_init_infer_envs wm3) = length (past_kv_cache_init_infer_envs wm2).
Proof.
  split; [exact run3_returns |].
  split; [vm_compute; reflexivity |].
  destruct (forward_initial_inference_clears_recurrent 0 Z.add toy_encode toy_forward
              toy_forward_no_cache obs3 (PosList [1; 1]) wm2 out3 latent3 wm3 run3_returns)
    as (Hempty & Hlen & _).
  split; [exact Hempty | exact Hlen].
Defined.

(* ===================================================================== *)
(** ** Search depths (utils.py) *)
(* ===================================================================== *)

(** [convert_to_depth(search_path, depth_map, last_depth)]: the dictionary
    and the list as the call leaves them (it returns the list). A raised
    [IndexError], [KeyError] or [ValueError] is [None]. *)
Definition convert_to_depth (search_path : list Z) (depth_map : gmap Z Z)
    (last_depth : list Z) : option (gmap Z Z * list Z) :=
  new_index ← Py.getitem search_path (-1);
  depth_map ←
    (if bool_decide (is_Some (depth_map !! new_index)) then Some depth_map
     else
       parent ← Py.getitem search_path new_index;
       match depth_map !! parent with
       | None =>
           m ← Py.max (map snd (map_to_list depth_map));
           Some (<[parent := m + 1]> depth_map)
       | Some d => Some (<[new_index := d + 1]> depth_map)
       end);
  d ← depth_map !! new_index;
  Some (depth_map, last_depth ++ [d]).

Lemma max_values_upper (m : gmap Z Z) (mx : Z) :
  Py.max (map snd (map_to_list m)) = Some mx ->
  forall k v, m !! k = Some v -> v <= mx.
Proof.
  intros H k v Hk. eapply max_upper; [exact H |].
  apply list_elem_of_fmap. exists (k, v). split; [done |].
  by apply elem_of_map_to_list.
Qed.

(** X13. Whenever [convert_to_depth] returns, it has appended exactly one
    depth, the one the dictionary now holds for the last element of the
    search path, and every depth recorded before is still recorded. For a
    known node the dictionary is unchanged; for a new node with a known
    parent the depth is the parent's plus one; and the only other way to
    return is a node that is its own parent, which gets a depth above all
    recorded ones. *)
Theorem convert_to_depth_appends (search_path : list Z) (depth_map : gmap Z Z)
    (last_depth : list Z) (depth_map' : gmap Z Z) (last_depth' : list Z) :
  convert_to_depth search_path depth_map last_depth = Some (depth_map', last_depth') ->
  exists new_index d,
    Py.getitem search_path (-1) = Some new_index /\
    depth_map' !! new_index = Some d /\
    last_depth' = last_depth ++ [d] /\
    (forall k v, depth_map !! k = Some v -> depth_map' !! k = Some v) /\
    (forall v, depth_map !! new_index = Some v -> depth_map' = depth_map /\ d = v) /\
    (depth_map !! new_index = None ->
     exists parent,
       Py.getitem search_path new_index = Some parent /\
       depth_map' = <[new_index := d]> depth_map /\
       (forall dp, depth_map !! parent = Some dp -> d = dp + 1) /\
       (depth_map !! parent = None ->
        parent = new_index /\
        (exists k v, depth_map !! k = Some v) /\
        forall k v, depth_map !! k = Some v -> v < d)).
Proof.
  unfold convert_to_depth. intros H.
  apply bind_Some in H as (new_index & Hn & H).
  apply bind_Some in H as (dm & Hdm & H).
  apply bind_Some in H as (d & Hd & H). injection H as <- <-.
  exists new_index, d. split; [done |]. split; [done |]. split; [done |].
  case_bool_decide as Hknown.
  - injection Hdm as <-. split; [done |]. split.
    + intros v Hv. split; [done | congruence].
    + intros Hnone. rewrite Hnone in Hknown. by destruct Hknown.
  - assert (depth_map !! new_index = None) as Hnone.
    { destruct (depth_map !! new_index) eqn:E; [| done]. destruct Hknown. by eexists. }
    apply bind_Some in Hdm as (parent & Hp & Hdm).
    destruct (depth_map !! parent) as [dp |] eqn:Epar.
    + injection Hdm as <-. rewrite lookup_insert_eq in Hd. injection Hd as <-.
      split; [| split; [intros v Hv; congruence |]].
      * intros k v Hk. rewrite lookup_insert_ne; [done |]. congruence.
      * intros _. exists parent. split; [done |]. split; [done |].
        split; [intros dp' Hdp'; congruence | intros Hn'; congruence].
    + apply bind_Some in Hdm as (mx & Hmx & Hdm). injection Hdm as <-.
      destruct (decide (parent = new_index)) as [-> | Hne];
        [| by rewrite lookup_insert_ne, Hnone in Hd].
      rewrite lookup_insert_eq in Hd. injection Hd as <-.
      split; [| split; [intros v Hv; congruence |]].
      * intros k v Hk. rewrite lookup_insert_ne; [done |]. congruence.
      * intros _. exists new_index. split; [done |]. split; [done |].
        split; [intros dp' Hdp'; congruence |]. intros _. split; [done |]. split.
        -- destruct (map_to_list depth_map) as [| [k v] rest] eqn:El; [done |].
           exists k, v. apply elem_of_map_to_list. rewrite El. by left.
        -- intros k v Hk. pose proof (max_values_upper _ _ Hmx k v Hk). lia.
Qed.

(** X14. When [convert_to_depth] raises: on an empty search path; when the
    new node is unknown and its entry of the search path is out of range;
    when neither the node nor its parent has a depth and the dictionary is
    empty; and when neither has a depth and the parent is another node (the
    parent is then given a depth, the node is not, and reading the node's
    depth fails). *)
Theorem convert_to_depth_raises (depth_map : gmap Z Z) (last_depth : list Z) :
  convert_to_depth [] depth_map last_depth = None /\
  (forall search_path new_index,
      Py.getitem search_path (-1) = Some new_index ->
      depth_map !! new_index = None ->
      Py.getitem search_path new_index = None ->
      convert_to_depth search_path depth_map last_depth = None) /\
  (forall search_path new_index,
      Py.getitem search_path (-1) = Some new_index ->
      depth_map = ∅ ->
      convert_to_depth search_path depth_map last_depth = None) /\
  (forall search_path new_index parent,
      Py.getitem search_path (-1) = Some new_index ->
      depth_map !! new_index = None ->
      Py.getitem search_path new_index = Some parent ->
      depth_map !! parent = None ->
      parent <> new_index ->
      convert_to_depth search_path depth_map last_depth = None).
Proof.
  split; [reflexivity |]. split; [| split].
  - intros sp n Hn Hnone Hp. unfold convert_to_depth. rewrite Hn. simpl.
    rewrite Hnone, bool_decide_eq_false_2 by (by intros [? ?]).
    by rewrite Hp.
  - intros sp n Hn ->. unfold convert_to_depth. rewrite Hn. simpl.
    rewrite lookup_empty, bool_decide_eq_false_2 by (by intros [? ?]).
    destruct (Py.getitem sp n) as [parent |]; simpl; [| done].
    rewrite lookup_empty, map_to_list_empty. done.
  - intros sp n parent Hn Hnone Hp Hpar Hne. unfold convert_to_depth. rewrite Hn. simpl.
    rewrite Hnone, bool_decide_eq_false_2 by (by intros [? ?]).
    rewrite Hp. simpl. rewrite Hpar.
    destruct (Py.max _) as [mx |]; simpl; [| done].
    by rewrite lookup_insert_ne, Hnone.
Qed.

(* ===================================================================== *)
(** ** Start positions of a forward pass (world_model.py) *)
(* ===================================================================== *)

(** Which of the three keys the dictionary handed to [forward] holds. *)
Inductive InputKind : Type := KObs | KAct | KBoth.

(** [start_pos_adjusted] as [forward] hands it to the transformer: [None],
    an int, a flat sequence, or a sequence of rows. *)
Inductive AdjustedPos : Type :=
  | AdjNone
  | AdjScalar (p : Z)
  | AdjList (l : list Z)
  | AdjRows (rows : list (list Z)).

(** [np.concatenate([a, np.zeros((a.shape[0], 1))], axis=1).reshape(-1)]. *)
Definition pad_zero_flatten (rows : list (list Z)) : list Z :=
  concat (map (fun r => r ++ [0]) rows).

(** [[f(search_depth[i], pos) for i, pos in enumerate(l)]]; a missing
    [search_depth[i]] raises. *)
Definition with_depth (f : Z -> Z -> Z) (search_depth l : list Z) : option (list Z) :=
  mapM (fun '(i, pos) => d ← Py.getitem search_depth i; Some (f d pos)) (enumerate l).

Definition with_depth_rows (f : Z -> Z -> Z) (search_depth : list Z)
    (rows : list (list Z)) : option (list (list Z)) :=
  mapM (fun '(i, row) => d ← Py.getitem search_depth i; Some (map (f d) row))
       (enumerate rows).

(** The start positions of the reanalyze phase in a recurrent pass: the
    padded and flattened array, checked against [search_depth]. *)
Definition reanalyze_recurrent (search_depth : list Z) (sp : StartPos)
  : option AdjustedPos :=
  match sp with
  | PosArray _ rows =>
      let flat := pad_zero_flatten rows in
      if bool_decide (length search_depth = length flat)
      then l ← with_depth (fun d pos => (d + pos + 1) * 2 + 1) search_depth flat;
           Some (AdjList l)
      else None
  | _ => None
  end.

(** The computation of [start_pos_adjusted] in [forward], from the
    positional scheme, the phase flag, [is_init_infer], the kind of input,
    [start_pos] and [search_depth]. *)
Definition start_pos_adjusted (rotary reanalyze is_init : bool) (kind : InputKind)
    (sp : StartPos) (search_depth : list Z) : option AdjustedPos :=
  match kind with
  | KBoth =>
      match sp with
      | PosScalar _ => None
      | PosList l => Some (AdjList (map (fun pos => pos * 2) l))
      | PosArray _ rows => Some (AdjRows (map (map (fun pos => pos * 2)) rows))
      end
  | _ =>
      if negb rotary then Some AdjNone
      else
        let init_off := match kind with KAct => true | _ => false end in
        if is_init then
          if reanalyze then
            let f := fun pos => if init_off then pos * 2 + 1 else pos * 2 in
            match sp with
            | PosScalar p => Some (AdjScalar (f p))
            | PosList _ => None
            | PosArray _ rows => Some (AdjList (pad_zero_flatten (map (map f) rows)))
            end
          else
            let f := fun pos => if init_off then pos * 2 - 1 else pos * 2 in
            match sp with
            | PosScalar p => Some (AdjScalar (f p))
            | PosList l => Some (AdjList (map f l))
            | PosArray _ rows => Some (AdjRows (map (map f) rows))
            end
        else
          if reanalyze then reanalyze_recurrent search_depth sp
          else
            let f := fun d pos => if init_off then (d + pos) * 2 + 1 else (d + pos) * 2 + 2 in
            match sp with
            | PosScalar _ => None
            | PosList l => l' ← with_depth f search_depth l; Some (AdjList l')
            | PosArray _ rows =>
                rows' ← with_depth_rows f search_depth rows; Some (AdjRows rows')
            end
  end.






(* ===================================================================== *)
(** ** Block masks (world_model.py) *)
(* ===================================================================== *)

(** [_initialize_patterns]: the three masks over the [tokens_per_block]
    positions of a block, as [(all_but_last_latent_state_pattern,
    act_tokens_pattern, value_policy_tokens_pattern)]; an index out of range
    raises. *)
Definition _initialize_patterns (tokens_per_block : Z)
  : option (list Z * list Z * list Z) :=
  all_but_last_latent_state_pattern ← Py.setitem (Py.repeat_ 1 tokens_per_block) (-2) 0;
  act_tokens_pattern ← Py.setitem (Py.repeat_ 0 tokens_per_block) (-1) 1;
  value_policy_tokens_pattern ← Py.setitem (Py.repeat_ 0 tokens_per_block) (-2) 1;
  Some (all_but_last_latent_state_pattern, act_tokens_pattern,
        value_policy_tokens_pattern).

Lemma setitem_repeat_neg {A} (x y : A) (n i : Z) :
  i < 0 ->
  Py.setitem (Py.repeat_ x n) i y
  = if bool_decide (- i <= n)
    then Some (<[Z.to_nat (n + i) := y]> (Py.repeat_ x n)) else None.
Proof.
  intros Hi. unfold Py.setitem, Py.repeat_. rewrite length_replicate.
  rewrite (bool_decide_eq_false_2 (0 <= i < _)) by lia.
  case_bool_decide as H1; case_bool_decide as H2; try lia; [| done].
  do 2 f_equal. lia.
Qed.

Lemma lookup_repeat_insert {A} (x y : A) (n k p : Z) :
  0 <= k < n -> 0 <= p < n ->
  Py.getitem (<[Z.to_nat k := y]> (Py.repeat_ x n)) p
  = Some (if bool_decide (p = k) then y else x).
Proof.
  intros Hk Hp. unfold Py.getitem, Py.repeat_.
  rewrite length_insert, length_replicate.
  rewrite bool_decide_eq_true_2 by lia.
  case_bool_decide as Hc.
  - subst p. apply list_lookup_insert_eq. rewrite length_replicate. lia.
  - rewrite list_lookup_insert_ne by lia. apply lookup_replicate_2. lia.
Qed.

(** X17. [_initialize_patterns] needs at least two tokens per block
    (one observation token and the action token) and raises otherwise.
    Then the action mask selects the last position only, the value/policy
    mask the position before it only, and the observation mask is the
    complement of the value/policy mask. *)
Theorem patterns_partition (tokens_per_block : Z) :
  (tokens_per_block < 2 -> _initialize_patterns tokens_per_block = None) /\
  (2 <= tokens_per_block ->
   exists obs act vp,
     _initialize_patterns tokens_per_block = Some (obs, act, vp) /\
     Z.of_nat (length obs) = tokens_per_block /\
     Z.of_nat (length act) = tokens_per_block /\
     Z.of_nat (length vp) = tokens_per_block /\
     forall p, 0 <= p < tokens_per_block ->
       Py.getitem act p = Some (if bool_decide (p = tokens_per_block - 1) then 1 else 0) /\
       Py.getitem vp p = Some (if bool_decide (p = tokens_per_block - 2) then 1 else 0) /\
       Py.getitem obs p = Some (if bool_decide (p = tokens_per_block - 2) then 0 else 1)).
Proof.
  unfold _initialize_patterns. split.
  - intros Hlt. rewrite (setitem_repeat_neg 1 0) by lia.
    rewrite bool_decide_eq_false_2 by lia. done.
  - intros Hge.
    rewrite (setitem_repeat_neg 1 0) by lia.
    rewrite bool_decide_eq_true_2 by lia. cbn [mbind option_bind].
    rewrite (setitem_repeat_neg 0 1 _ (-1)) by lia.
    rewrite bool_decide_eq_true_2 by lia. cbn [mbind option_bind].
    rewrite (setitem_repeat_neg 0 1 _ (-2)) by lia.
    rewrite bool_decide_eq_true_2 by lia. cbn [mbind option_bind].
    eexists _, _, _. split; [reflexivity |].
    unfold Py.repeat_ at 1 2 3. rewrite !length_insert, !length_replicate.
    split; [lia |]. split; [lia |]. split; [lia |].
    intros p Hp.
    replace (tokens_per_block + -1) with (tokens_per_block - 1) by lia.
    replace (tokens_per_block + -2) with (tokens_per_block - 2) by lia.
    rewrite !lookup_repeat_insert by lia. done.
Qed.

(* ===================================================================== *)
(** ** The further properties at the small model *)
(* ===================================================================== *)









(** One more store after the simulation step puts the cursor of the
    recurrent pool on slot 1, where the index holds the key of the state
    the step produced; the next store reuses that slot. *)
Definition wm2_cursor1 : @WorldModel Z :=
  default wm2 (snd <$> custom_copy_kv_cache_to_shared_recur 0 kv_a wm2).

Definition wm2_reused : @WorldModel Z :=
  default wm2_cursor1 (snd <$> custom_copy_kv_cache_to_shared_recur 0 kv_b wm2_cursor1).

Example wm2_reuse :
  custom_copy_kv_cache_to_shared_recur 0 kv_b wm2_cursor1 = Some (Index 1, wm2_reused).
Proof. vm_compute. reflexivity. Qed.

Lemma recur_store_writes_one_slot_witness :
  custom_copy_kv_cache_to_shared_recur 0 kv_b wm2_cursor1 = Some (Index 1, wm2_reused) /\
  0 <= shared_pool_index wm2_cursor1 /\
  past_kv_cache_recurrent_infer wm2_cursor1 !! hash_state [x2a] = Some 1 /\
  lookup_kvcache wm2_reused 0 (hash_state [x2a]) = Some (Some kv_b) /\
  shared_pool_recur_infer wm2_reused !! 0%nat = shared_pool_recur_infer wm2_cursor1 !! 0%nat.
Proof.
  assert (0 <= shared_pool_index wm2_cursor1) as Hcur by (vm_compute; discriminate).
  split; [exact wm2_reuse |]. split; [exact Hcur |].
  split; [vm_compute; reflexivity |]. split; [vm_compute; reflexivity |].
  destruct (recur_store_writes_one_slot 0 kv_b wm2_cursor1 (Index 1) wm2_reused
              wm2_reuse Hcur) as (Hother & _).
  apply Hother. vm_compute. discriminate.
Defined.

(** The working lists emptied, as the inference paths do before a
    retrieval. *)
Definition wm1_cleared : @WorldModel Z :=
  set_keys_values_wm_size_list [] (set_keys_values_wm_list [] wm1).

Definition wm1_retrieved : @WorldModel Z :=
  default wm1_cleared
    (snd <$> retrieve_or_generate_kvcache 0 toy_forward [st_a; st_b] 2 (PosList [0; 0])
               wm1_cleared).

Example wm1_retrieve :
  retrieve_or_generate_kvcache 0 toy_forward [st_a; st_b] 2 (PosList [0; 0]) wm1_cleared
  = Some ([1; 1], wm1_retrieved).
Proof. vm_compute. reflexivity. Qed.

Lemma retrieve_bookkeeping_witness :
  0 <= 2 /\
  retrieve_or_generate_kvcache 0 toy_forward [st_a; st_b] 2 (PosList [0; 0]) wm1_cleared
  = Some ([1; 1], wm1_retrieved) /\
  total_query_count wm1_retrieved = total_query_count wm1_cleared + 2 /\
  Z.of_nat (length (keys_values_wm_list wm1_retrieved))
  = Z.of_nat (length (keys_values_wm_list wm1_cleared)) + 2.
Proof.
  assert (0 <= 2) as Hn by lia.
  split; [exact Hn |]. split; [exact wm1_retrieve |].
  destruct (retrieve_bookkeeping 0 toy_forward [st_a; st_b] 2 (PosList [0; 0]) wm1_cleared
              [1; 1] wm1_retrieved Hn wm1_retrieve) as (_ & Ht & _ & Hk & _).
  split; [exact Ht | exact Hk].
Defined.

(** The same retrieval in the reanalyze phase, with a one-column array of
    start positions. *)
Definition wm1_reanalyze : @WorldModel Z := set_reanalyze_phase true wm1_cleared.

Definition wm1_regenerated : @WorldModel Z :=
  default wm1_reanalyze
    (snd <$> retrieve_or_generate_kvcache 0 toy_forward [st_a; st_b] 2
               (PosArray 1 [[0]; [0]]) wm1_reanalyze).

Example wm1_regenerate :
  retrieve_or_generate_kvcache 0 toy_forward [st_a; st_b] 2 (PosArray 1 [[0]; [0]])
    wm1_reanalyze
  = Some ([1; 1], wm1_regenerated).
Proof. vm_compute. reflexivity. Qed.

Lemma reanalyze_phase_regenerates_witness :
  reanalyze_phase wm1_reanalyze = true /\
  retrieve_or_generate_kvcache 0 toy_forward [st_a; st_b] 2 (PosArray 1 [[0]; [0]])
    wm1_reanalyze
  = Some ([1; 1], wm1_regenerated) /\
  hit_count wm1_regenerated = hit_count wm1_reanalyze /\
  shared_pool_wm wm1_regenerated = shared_pool_wm wm1_reanalyze.
Proof.
  assert (reanalyze_phase wm1_reanalyze = true) as Hre by reflexivity.
  split; [exact Hre |]. split; [exact wm1_regenerate |].
  destruct (reanalyze_phase_regenerates 0 toy_forward [st_a; st_b] 2
              (PosArray 1 [[0]; [0]]) wm1_reanalyze [1; 1] wm1_regenerated
              Hre wm1_regenerate) as (Hh & Hp & _).
  split; [exact Hh | exact Hp].
Defined.

Lemma realign_undoes_front_pad_witness :
  0 < 2 /\
  exists t',
    front_pad 0 2 [[[1; 2; 0; 0]]] = [t'] /\
    realign 0 2 t' = [[1; 2; 0; 0]].
Proof.
  assert (0 < 2) as Hp by lia.
  split; [exact Hp |].
  destruct (realign_undoes_front_pad 0 2 [[1; 2; 0; 0]] Hp) as (t' & Hf & _ & Hround).
  - intros r Hr. apply elem_of_cons in Hr as [-> | Hr]; [simpl; lia |].
    by apply elem_of_nil in Hr.
  - exists t'. split; [exact Hf |]. apply Hround.
    intros r Hr. apply elem_of_cons in Hr as [-> | Hr]; [reflexivity |].
    by apply elem_of_nil in Hr.
Defined.

Lemma recurrent_inference_bookkeeping_witness :
  forward_recurrent_inference 0 Z.add toy_forward
    [st_a; st_b] [ActScalar 0; ActScalar 1] [] (PosList [0; 0]) wm1
  = Some (latent2, wm2) /\
  keys_values_wm_size_list_current wm2
  = Some (map (Z.add 2) (keys_values_wm_size_list wm2)) /\
  length (keys_values_wm_list wm2) = 2%nat /\
  latent_state wm2 = Some latent2.
Proof.
  split; [exact run2_returns |].
  destruct (recurrent_inference_bookkeeping 0 Z.add toy_forward [st_a; st_b]
              [ActScalar 0; ActScalar 1] [] (PosList [0; 0]) wm1 latent2 wm2 run2_returns)
    as (Hk & _ & Hc & Hl & _).
  split; [exact Hc |]. split; [exact Hk | exact Hl].
Defined.

(** A model whose window holds two positions only. *)
Definition cfg_short : Config :=
  {| context_length := 2; num_layers := 1; num_heads := 1; env_num := 2;
     num_simulations := 1; num_observations_tokens := 1;
     rotary_emb := false; continuous_action_space := false |}.

Definition wm_short : @WorldModel Z :=
  default (initial_attributes 0 cfg_short None None)
          (WorldModel_init 0 Z.sub pe0 cfg_short).

Definition wm_short1 : @WorldModel Z :=
  default wm_short
    (snd <$> forward_initial_inference 0 Z.add toy_encode toy_forward toy_forward_no_cache
               obs1 (PosList [0; 0]) wm_short).

Example wm_short_run :
  forward_initial_inference 0 Z.add toy_encode toy_forward toy_forward_no_cache
    obs1 (PosList [0; 0]) wm_short
  = Some (out1, latent1, wm_short1).
Proof. vm_compute. reflexivity. Qed.

Lemma short_context_memoizes_nothing_witness :
  context_length (config wm_short) <= 2 /\
  forward_initial_inference 0 Z.add toy_encode toy_forward toy_forward_no_cache
    obs1 (PosList [0; 0]) wm_short
  = Some (out1, latent1, wm_short1) /\
  past_kv_cache_init_infer_envs wm_short1 = past_kv_cache_init_infer_envs wm_short /\
  shared_pool_init_infer wm_short1 = shared_pool_init_infer wm_short.
Proof.
  assert (context_length (config wm_short) <= 2) as HL by (vm_compute; discriminate).
  split; [exact HL |]. split; [exact wm_short_run |].
  destruct (short_context_memoizes_nothing 0 Z.add Z.sub toy_encode toy_forward
              toy_forward_no_cache pe0 wm_short HL) as (_ & Hinit & _).
  destruct (Hinit obs1 (PosList [0; 0]) out1 latent1 wm_short1 wm_short_run)
    as (Hd & Hp & _).
  split; [exact Hd | exact Hp].
Defined.

Lemma root_shrink_writes_through_witness :
  update_layer_root 0 Z.add 0 0 wm_full = Some wm_shrunk /\
  KeysValues_getitem (keys_values_wm wm_shrunk) 0
  = Some (mkKVCache (mkCache [[[1; 2; -17; -16; -15; 0]]; [[11; 12; 13; 14; 15; 0]]] 5)
                    (mkCache [[[21; 22; -177; -176; -175; 0]]; [[31; 32; 33; 34; 35; 0]]] 5)) /\
  exists k_cur k_span l',
    KeysValues_getitem (keys_values_wm wm_shrunk) 0 = Some l' /\
    Py.getitem (_cache (_k_cache l')) 0
    = Some (set_slice_seq3 (Some 2) (Some 5) k_span k_cur).
Proof.
  split; [exact wm_full_shrinks |]. split; [vm_compute; reflexivity |].
  edestruct (root_shrink_writes_through 0 Z.add wm_full 0 0)
    as (k_cur & v_cur & k_span & v_span & l' & _ & _ & _ & _ & Hl' & _ & _ & Hk & _).
  - vm_compute. reflexivity.
  - vm_compute. discriminate.
  - exact wm_full_shrinks.
  - exists k_cur, k_span, l'. split; [exact Hl' | exact Hk].
Defined.

Lemma custom_copy_kv_cache_to_dict_reuse_witness :
  custom_copy_kv_cache_to_dict 0 kv_a ∅ "k"%string true = Some {["k"%string := kv_a]} /\
  custom_copy_kv_cache_to_dict 0 kv_b {["k"%string := kv_a]} "k"%string true
  = Some {["k"%string := kv_a]} /\
  custom_copy_kv_cache_to_dict_speed 0 kv_a ∅ "k"%string true = Some {["k"%string := kv_a]}.
Proof.
  assert (custom_copy_kv_cache_to_dict 0 kv_a ∅ "k"%string true
          = Some {["k"%string := kv_a]}) as H by (vm_compute; reflexivity).
  split; [exact H |].
  destruct (custom_copy_kv_cache_to_dict_reuse 0 kv_a kv_b ∅ {["k"%string := kv_a]}
              "k"%string true H) as (Hreuse & _ & _ & _ & _ & Hspeed).
  split; [exact Hreuse | exact Hspeed].
Defined.

Lemma convert_to_depth_appends_witness :
  convert_to_depth [0; 0; 1; 2] {[0 := 0; 1 := 1]} [0; 1]
  = Some ({[0 := 0; 1 := 1; 2 := 2]}, [0; 1; 2]) /\
  exists new_index d,
    Py.getitem [0; 0; 1; 2] (-1) = Some new_index /\
    ({[0 := 0; 1 := 1; 2 := 2]} : gmap Z Z) !! new_index = Some d /\
    [0; 1; 2] = [0; 1] ++ [d].
Proof.
  assert (convert_to_depth [0; 0; 1; 2] {[0 := 0; 1 := 1]} [0; 1]
          = Some ({[0 := 0; 1 := 1; 2 := 2]}, [0; 1; 2])) as H by (vm_compute; reflexivity).
  split; [exact H |].
  destruct (convert_to_depth_appends _ _ _ _ _ H) as (n & d & Hn & Hd & Hl & _).
  exists n, d. split; [exact Hn |]. split; [exact Hd | exact Hl].
Defined.



Lemma first_step_is_all_minus_one_witness :
  exists b,
    first_step_flag cfg0 (map ActScalar [-1; -1]) = Some b /\
    (b = true <-> forall z, z ∈ [-1; -1] -> z = -1).
Proof.
  destruct (first_step_is_all_minus_one cfg0 [-1; -1]) as [Hd _].
  - intros z Hz. repeat (apply elem_of_cons in Hz as [-> | Hz]; [lia |]).
    by apply elem_of_nil in Hz.
  - destruct (Hd eq_refl) as [_ Hne]. apply Hne. discriminate.
Defined.


Lemma convert_to_depth_raises_witness :
  convert_to_depth [0; 0; 1; 2] {[0 := 0]} [0] = None /\
  convert_to_depth [] {[0 := 0]} [0] = None.
Proof.
  destruct (convert_to_depth_raises {[0 := 0]} [0]) as (Hempty & _ & _ & Hparent).
  split; [| exact Hempty].
  apply (Hparent [0; 0; 1; 2] 2 1); [reflexivity | reflexivity | reflexivity | reflexivity |].
  discriminate.
Defined.

Lemma patterns_partition_witness :
  _initialize_patterns 2 = Some ([0; 1], [0; 1], [1; 0]) /\
  _initialize_patterns 1 = None /\
  exists obs act vp,
    _initialize_patterns 17 = Some (obs, act, vp) /\
    Py.getitem act 16 = Some 1 /\ Py.getitem vp 15 = Some 1 /\ Py.getitem obs 15 = Some 0.
Proof.
  split; [reflexivity |].
  destruct (patterns_partition 1) as [Hnone _].
  split; [apply Hnone; lia |].
  destruct (patterns_partition 17) as [_ Hsome].
  destruct Hsome as (obs & act & vp & H & _ & _ & _ & Hp); [lia |].
  destruct (Hp 16) as (Ha & _ & _); [lia |].
  destruct (Hp 15) as (_ & Hv & Ho); [lia |].
  exists obs, act, vp. split; [exact H |]. split; [exact Ha |]. split; [exact Hv | exact Ho].
Defined.

(** The root update of the whole batch on the full batched cache. *)
Definition wm_full_updated : @WorldModel Z :=
  default wm_full (update_cache_context 0 Z.add [st_a; st_b] true wm_full).

Example wm_full_update_all :
  update_cache_context 0 Z.add [st_a; st_b] true wm_full = Some wm_full_updated.
Proof. vm_compute. reflexivity. Qed.

Lemma root_update_then_lookup_hits_witness :
  2 < context_length (config wm_full) /\
  reanalyze_phase wm_full = false /\
  update_cache_context 0 Z.add [st_a; st_b] true wm_full = Some wm_full_updated /\
  exists kv, lookup_kvcache wm_full_updated 1 (hash_state st_b) = Some (Some kv).
Proof.
  assert (2 < context_length (config wm_full)) as HL by (vm_compute; reflexivity).
  assert (reanalyze_phase wm_full = false) as Hre by (vm_compute; reflexivity).
  split; [exact HL |]. split; [exact Hre |]. split; [exact wm_full_update_all |].
  exact (root_update_then_lookup_hits 0 Z.add [st_a; st_b] wm_full wm_full_updated
           HL Hre wm_full_update_all 1%nat st_b eq_refl).
Defined.

Example run2_from_latent1 :
  forward_recurrent_inference 0 Z.add toy_forward
    latent1 [ActScalar 0; ActScalar 1] [] (PosList [0; 0]) wm1
  = Some (latent2, wm2).
Proof. vm_compute. reflexivity. Qed.

Lemma initial_then_recurrent_hits_witness :
  2 < context_length (config wm0) /\
  reanalyze_phase wm0 = false /\
  hit_count wm2 = hit_count wm1 + Z.of_nat (length latent1) /\
  hit_count wm2 = 2.
Proof.
  assert (2 < context_length (config wm0)) as HL by (vm_compute; reflexivity).
  assert (reanalyze_phase wm0 = false) as Hre by (vm_compute; reflexivity).
  split; [exact HL |]. split; [exact Hre |].
  destruct (initial_then_recurrent_hits 0 Z.add toy_encode toy_forward toy_forward_no_cache
              obs1 (PosList [0; 0]) (PosList [0; 0]) wm0 wm1 wm2 [st_a; st_b]
              out1 latent1 latent2 [ActScalar 0; ActScalar 1] []
              HL Hre eq_refl run1_returns run2_from_latent1) as [Hh _].
  split; [exact Hh | vm_compute; reflexivity].
Defined.
